(** * ravetools: the FFTW bindings of [src/ffts.cpp]

    A shallow embedding of the wrappers around the FFTW planner: the
    effort-level mapper, the scratch-copy branches of the real-to-complex,
    complex-to-real and complex-to-complex entry points, and the
    Hermitian-conjugate fill of [cfft_r2c].

    Memory is a store of blocks of doubles; the C library ([malloc],
    [memcpy], [free]) and the FFTW calls are primitives of a small
    state-and-fault monad that also records the sequence of calls made. *)

From Stdlib Require Import ZArith List Lia Bool.
From Stdlib Require Import Floats.PrimFloat.
From stdpp Require Import base option list gmap.

Local Open Scope Z_scope.

(** ** Integers of the C side *)

Definition INT_MIN : Z := - 2 ^ 31.
Definition INT_MAX : Z := 2 ^ 31 - 1.
Definition SIZE_MOD : Z := 2 ^ 64.

Definition in_int (z : Z) : bool := (INT_MIN <=? z) && (z <=? INT_MAX).

(** Conversion of an [int] to [size_t], and [size_t] multiplication. *)
Definition to_size_t (z : Z) : Z := z mod SIZE_MOD.
Definition size_mul (a b : Z) : Z := (a * b) mod SIZE_MOD.

Definition sizeof_double : Z := 8.
Definition sizeof_fftw_complex : Z := 16.

(** ** Planner flags *)

(** Modelled from the spec: the flag macros of FFTW's public header
    [fftw3.h], which [ffts.h] includes and which is not among the
    sources. The spec names the four effort tiers fastest-guess, measure,
    patient and exhaustive and the two directions forward and backward;
    the numbers are the ones FFTW 3 gives them. *)

Definition FFTW_MEASURE : Z := 0.
Definition FFTW_DESTROY_INPUT : Z := Z.shiftl 1 0.
Definition FFTW_EXHAUSTIVE : Z := Z.shiftl 1 3.
Definition FFTW_PATIENT : Z := Z.shiftl 1 5.
Definition FFTW_ESTIMATE : Z := Z.shiftl 1 6.
Definition FFTW_WISDOM_ONLY : Z := Z.shiftl 1 21.

Definition FFTW_FORWARD : Z := -1.
Definition FFTW_BACKWARD : Z := 1.

(** ** [fftw_efforts] *)

Definition fftw_efforts (fftwplanopt : Z) : Z :=
  if fftwplanopt <=? 0 then FFTW_ESTIMATE
  else if fftwplanopt =? 1 then FFTW_MEASURE
  else if fftwplanopt =? 2 then FFTW_PATIENT
  else FFTW_EXHAUSTIVE.

(** The effort tiers as the spec names them, and the tier a flag stands for. *)
Inductive effort_level : Type :=
  | FastestGuess
  | Measure
  | Patient
  | Exhaustive.

Definition effort_of_flag (f : Z) : option effort_level :=
  if f =? FFTW_ESTIMATE then Some FastestGuess
  else if f =? FFTW_MEASURE then Some Measure
  else if f =? FFTW_PATIENT then Some Patient
  else if f =? FFTW_EXHAUSTIVE then Some Exhaustive
  else None.

(** ** Memory *)

(** A [double] in memory; [None] is a double that was never written. *)
Abbreviation cell := (option float).

Definition block : Type := positive.

Inductive ptr : Type :=
  | NULL
  | Ptr (b : block).

Global Instance ptr_eq_dec : EqDecision ptr.
Proof. solve_decision. Defined.

(** ** FFTW plans

    A plan records the problem it was made for: the transform kind, the
    extents, the batch geometry, the two arrays and the flags. *)

Inductive kind : Type :=
  | R2C
  | C2R
  | C2C (sign : Z).

Record fftw_plan : Type := MkPlan {
  pl_kind : kind;
  pl_dims : list Z;
  pl_howmany : Z;
  pl_in : ptr;
  pl_idist : Z;
  pl_out : ptr;
  pl_odist : Z;
  pl_flags : Z
}.

Definition prodZ (l : list Z) : Z := fold_right Z.mul 1 l.

Definition last_dim (dims : list Z) : Z := List.last dims 1.

(** Complex elements of the half spectrum of a real array of extents [dims]. *)
Definition half_elems (dims : list Z) : Z :=
  Z.quot (prodZ dims) (last_dim dims) * (Z.quot (last_dim dims) 2 + 1).

(** Doubles one signal occupies on the input and on the output side. *)
Definition in_signal (k : kind) (dims : list Z) : Z :=
  match k with
  | R2C => prodZ dims
  | C2R => 2 * half_elems dims
  | C2C _ => 2 * prodZ dims
  end.

Definition out_signal (k : kind) (dims : list Z) : Z :=
  match k with
  | R2C => 2 * half_elems dims
  | C2R => prodZ dims
  | C2C _ => 2 * prodZ dims
  end.

(** Doubles per unit of [idist]/[odist]: the distances count elements of
    the array's own type. *)
Definition in_unit (k : kind) : Z :=
  match k with R2C => 1 | _ => 2 end.

Definition out_unit (k : kind) : Z :=
  match k with C2R => 1 | _ => 2 end.

(** Doubles of the input and output arrays a plan touches. *)
Definition in_cells (p : fftw_plan) : nat :=
  Z.to_nat ((pl_howmany p - 1) * pl_idist p * in_unit (pl_kind p)
            + in_signal (pl_kind p) (pl_dims p)).

Definition out_cells (p : fftw_plan) : nat :=
  Z.to_nat ((pl_howmany p - 1) * pl_odist p * out_unit (pl_kind p)
            + out_signal (pl_kind p) (pl_dims p)).

(** The planner overwrites its arrays unless told to estimate or to use
    wisdom only (the comment in [cmvfft_r2c] quotes FFTW's manual). *)
Definition planner_overwrites (flags : Z) : bool :=
  negb (Z.testbit flags 6 || Z.testbit flags 21).

(** The numerical side of FFTW, the library the wrappers are linked
    against: what a transform computes, what running it leaves in its
    input array and what the planner's measurements leave in an array
    are left open, so every property below holds for any such library. *)
Class FFTW : Type := MkFFTW {
  (** double [k] of the output array, from the plan and the input array *)
  fftw_kernel : fftw_plan -> list cell -> nat -> float;
  (** double [k] of the input array once the plan has run
      ([FFTW_DESTROY_INPUT]) *)
  fftw_clobber : fftw_plan -> list cell -> nat -> cell;
  (** double [k] of an array the planner has used for its measurements *)
  fftw_scribble : fftw_plan -> list cell -> nat -> cell
}.

(** ** Calls and machine state *)

Inductive event : Type :=
  | EvMalloc (bytes : Z) (p : ptr)
  | EvPlan (p : fftw_plan) (input : option (list cell))
  | EvMemcpy (dst src : ptr) (bytes : Z)
  | EvExecute (p : fftw_plan) (input : option (list cell))
  | EvDestroy (p : fftw_plan)
  | EvFree (p : ptr).

Record state : Type := MkState {
  heap : gmap block (list cell);
  avail : Z;
  trace : list event
}.

Inductive outcome (A : Type) : Type :=
  | Ok (a : A)
  | Fault.
Arguments Ok {A} a.
Arguments Fault {A}.

Definition M (A : Type) : Type := state -> outcome A * state.

Definition ret {A} (a : A) : M A := fun st => (Ok a, st).

Definition bind {A B} (c : M A) (k : A -> M B) : M B :=
  fun st =>
    match c st with
    | (Ok a, st') => k a st'
    | (Fault, st') => (Fault, st')
    end.

Definition fault {A} : M A := fun st => (Fault, st).

Notation "'let*' x ':=' c 'in' k" := (bind c (fun x => k))
  (at level 10, x name, c at level 100, k at level 200).
Notation "c ;; k" := (bind c (fun _ => k))
  (at level 100, k at level 200, right associativity).

Definition log (e : event) : M unit :=
  fun st => (Ok tt, MkState (heap st) (avail st) (trace st ++ [e])).


(** ** Reading and writing arrays *)

(** The first [k] doubles behind [p], when [p] points to that many. *)
Definition snapshot (h : gmap block (list cell)) (p : ptr) (k : nat)
  : option (list cell) :=
  match p with
  | NULL => None
  | Ptr b =>
      match h !! b with
      | Some l => if (k <=? length l)%nat then Some (take k l) else None
      | None => None
      end
  end.

(** Overwrite the first [length new] doubles behind [p]. *)
Definition overwrite (h : gmap block (list cell)) (p : ptr) (new : list cell)
  : option (gmap block (list cell)) :=
  match p with
  | NULL => None
  | Ptr b =>
      match h !! b with
      | Some l =>
          if (length new <=? length l)%nat
          then Some (<[b := new ++ drop (length new) l]> h)
          else None
      | None => None
      end
  end.

Definition read_cells (p : ptr) (k : nat) : M (list cell) :=
  fun st =>
    match snapshot (heap st) p k with
    | Some l => (Ok l, st)
    | None => (Fault, st)
    end.

Definition write_cells (p : ptr) (new : list cell) : M unit :=
  fun st =>
    match overwrite (heap st) p new with
    | Some h => (Ok tt, MkState h (avail st) (trace st))
    | None => (Fault, st)
    end.

(** [p[i]] for a [double* p], as an rvalue and as an lvalue. *)
Definition load (p : ptr) (i : Z) : M cell :=
  fun st =>
    match p with
    | NULL => (Fault, st)
    | Ptr b =>
        match heap st !! b with
        | Some l =>
            if i <? 0 then (Fault, st)
            else match l !! Z.to_nat i with
                 | Some c => (Ok c, st)
                 | None => (Fault, st)
                 end
        | None => (Fault, st)
        end
    end.

Definition store (p : ptr) (i : Z) (c : cell) : M unit :=
  fun st =>
    match p with
    | NULL => (Fault, st)
    | Ptr b =>
        match heap st !! b with
        | Some l =>
            if (i <? 0) || (Z.of_nat (length l) <=? i) then (Fault, st)
            else (Ok tt,
                  MkState (<[b := <[Z.to_nat i := c]> l]> (heap st))
                          (avail st) (trace st))
        | None => (Fault, st)
        end
    end.

(** [int] multiplication; overflow is undefined. *)
Definition int_mul (a b : Z) : M Z :=
  if in_int (a * b) then ret (a * b) else fault.

(** ** The C library *)

(** [malloc] serves a request while the allocator has that many bytes
    left; the new block is distinct from every live one and its doubles
    are unwritten. On failure it returns [NULL]. *)
Definition malloc (bytes : Z) : M ptr :=
  fun st =>
    if bytes <=? avail st then
      let b := fresh (dom (heap st)) in
      (Ok (Ptr b),
       MkState (<[b := replicate (Z.to_nat (bytes / sizeof_double)) None]>
                  (heap st))
               (avail st - bytes)
               (trace st ++ [EvMalloc bytes (Ptr b)]))
    else
      (Ok NULL,
       MkState (heap st) (avail st) (trace st ++ [EvMalloc bytes NULL])).

Definition memcpy (dst src : ptr) (bytes : Z) : M unit :=
  log (EvMemcpy dst src bytes);;
  let* l := read_cells src (Z.to_nat (bytes / sizeof_double)) in
  write_cells dst l.

Definition free (p : ptr) : M unit :=
  log (EvFree p);;
  fun st =>
    match p with
    | NULL => (Ok tt, st)
    | Ptr b =>
        match heap st !! b with
        | Some l =>
            (Ok tt,
             MkState (delete b (heap st))
                     (avail st + sizeof_double * Z.of_nat (length l))
                     (trace st))
        | None => (Fault, st)
        end
    end.

(** ** The FFTW calls *)

Definition tabulate {A} (k : nat) (f : nat -> A) : list A :=
  map f (seq 0 k).

Section Wrappers.
Context `{Lib : FFTW}.

(** Making a plan. With a measuring effort the planner runs transforms
    on the two arrays and leaves in them what it pleases; it faults when
    an array is missing or too short. With [FFTW_ESTIMATE] the arrays are
    not touched. This describes the planner on the geometry it plans,
    extents and batch count of at least one; the properties that say a
    call returns are stated for that geometry. *)
Definition make_plan (p : fftw_plan) : M fftw_plan :=
  fun st =>
    (log (EvPlan p (snapshot (heap st) (pl_in p) (in_cells p)));;
     if planner_overwrites (pl_flags p) then
       let* i := read_cells (pl_in p) (in_cells p) in
       write_cells (pl_in p) (tabulate (in_cells p) (fftw_scribble p i));;
       let* o := read_cells (pl_out p) (out_cells p) in
       write_cells (pl_out p) (tabulate (out_cells p) (fftw_scribble p o));;
       ret p
     else ret p) st.

Definition fftw_plan_dft_r2c_1d (n : Z) (inp out : ptr) (flags : Z)
  : M fftw_plan :=
  make_plan (MkPlan R2C [n] 1 inp 0 out 0 flags).

Definition fftw_plan_dft_c2r_1d (n : Z) (inp out : ptr) (flags : Z)
  : M fftw_plan :=
  make_plan (MkPlan C2R [n] 1 inp 0 out 0 flags).

Definition fftw_plan_dft_1d (n : Z) (inp out : ptr) (sign flags : Z)
  : M fftw_plan :=
  make_plan (MkPlan (C2C sign) [n] 1 inp 0 out 0 flags).

Definition fftw_plan_dft_r2c_2d (nx ny : Z) (inp out : ptr) (flags : Z)
  : M fftw_plan :=
  make_plan (MkPlan R2C [nx; ny] 1 inp 0 out 0 flags).

Definition fftw_plan_dft_2d (nx ny : Z) (inp out : ptr) (sign flags : Z)
  : M fftw_plan :=
  make_plan (MkPlan (C2C sign) [nx; ny] 1 inp 0 out 0 flags).

Definition fftw_plan_dft_r2c_3d (nx ny nz : Z) (inp out : ptr) (flags : Z)
  : M fftw_plan :=
  make_plan (MkPlan R2C [nx; ny; nz] 1 inp 0 out 0 flags).

Definition fftw_plan_dft_3d (nx ny nz : Z) (inp out : ptr) (sign flags : Z)
  : M fftw_plan :=
  make_plan (MkPlan (C2C sign) [nx; ny; nz] 1 inp 0 out 0 flags).

Definition fftw_plan_dft (rank : Z) (n : list Z) (inp out : ptr)
  (sign flags : Z) : M fftw_plan :=
  make_plan (MkPlan (C2C sign) (take (Z.to_nat rank) n) 1 inp 0 out 0 flags).

(** The batched planners. The wrappers always pass no embedding
    ([NULL]) and stride 1, that is contiguous signals [idist] (resp.
    [odist]) elements apart; the plan records nothing else. *)
Definition fftw_plan_many_dft_r2c (rank : Z) (n : list Z) (howmany : Z)
  (inp inembed : ptr) (istride idist : Z)
  (out onembed : ptr) (ostride odist : Z) (flags : Z) : M fftw_plan :=
  make_plan
    (MkPlan R2C (take (Z.to_nat rank) n) howmany inp idist out odist flags).

Definition fftw_plan_many_dft_c2r (rank : Z) (n : list Z) (howmany : Z)
  (inp inembed : ptr) (istride idist : Z)
  (out onembed : ptr) (ostride odist : Z) (flags : Z) : M fftw_plan :=
  make_plan
    (MkPlan C2R (take (Z.to_nat rank) n) howmany inp idist out odist flags).

Definition fftw_plan_many_dft (rank : Z) (n : list Z) (howmany : Z)
  (inp inembed : ptr) (istride idist : Z)
  (out onembed : ptr) (ostride odist : Z) (sign flags : Z) : M fftw_plan :=
  make_plan
    (MkPlan (C2C sign) (take (Z.to_nat rank) n) howmany inp idist out odist
            flags).

(** Running a plan: the output array receives the transform of the input
    array; the input array may be destroyed ([FFTW_DESTROY_INPUT] is set
    in every plan of the wrappers). *)
Definition fftw_execute (p : fftw_plan) : M unit :=
  fun st =>
    (log (EvExecute p (snapshot (heap st) (pl_in p) (in_cells p)));;
     let* i := read_cells (pl_in p) (in_cells p) in
     write_cells (pl_in p) (tabulate (in_cells p) (fftw_clobber p i));;
     write_cells (pl_out p)
       (tabulate (out_cells p) (fun k => Some (fftw_kernel p i k)))) st.

Definition fftw_destroy_plan (p : fftw_plan) : M unit :=
  log (EvDestroy p).

(** ** The entry points of [ffts.cpp]

    Arguments arrive as pointers to [int]; the model takes the values. *)

Definition is_null (p : ptr) : bool :=
  match p with NULL => true | Ptr _ => false end.

(** One round of the conjugate fill: [res[i] = conj(res[n - i])], on the
    two doubles of each complex element. *)
Definition herm_body (n : Z) (res : ptr) (i : Z) : M unit :=
  let resptr1 := 2 * i in
  let resptr2 := 2 * (n - i) in
  let* re := load res resptr2 in
  store res resptr1 re;;
  let* im := load res (resptr2 + 1) in
  store res (resptr1 + 1) (opp <$> im).

(** [for(i = ..; i < *n; i++)] with [k] rounds left: from [i = nc] the
    loop makes [n - nc] rounds, none when that is negative. *)
Fixpoint herm_loop (k : nat) (n : Z) (res : ptr) (i : Z) : M unit :=
  match k with
  | O => ret tt
  | S k' => herm_body n res i;; herm_loop k' n res (i + 1)
  end.

Definition cfft_r2c (n : Z) (data res : ptr) (retHermConj fftwplanopt : Z)
  : M unit :=
  let nc := Z.quot n 2 + 1 in
  let effort := fftw_efforts fftwplanopt in
  let* pd :=
    (if effort =? FFTW_ESTIMATE then
       let* p := fftw_plan_dft_r2c_1d n data res
                   (Z.lor FFTW_DESTROY_INPUT effort) in
       ret (p, NULL)
     else
       let* data_copy := malloc (size_mul (to_size_t n) sizeof_double) in
       let* p := fftw_plan_dft_r2c_1d n data_copy res
                   (Z.lor FFTW_DESTROY_INPUT effort) in
       memcpy data_copy data (size_mul (to_size_t n) sizeof_double);;
       ret (p, data_copy)) in
  let p := fst pd in
  let data_copy := snd pd in
  fftw_execute p;;
  (if retHermConj =? 1 then herm_loop (Z.to_nat (n - nc)) n res nc
   else ret tt);;
  fftw_destroy_plan p;;
  if is_null data_copy then ret tt else free data_copy.

Definition cfft_c2r (n : Z) (data res : ptr) : M unit :=
  let* p := fftw_plan_dft_c2r_1d n data res
              (Z.lor FFTW_DESTROY_INPUT FFTW_ESTIMATE) in
  fftw_execute p;;
  fftw_destroy_plan p.

Definition cfft_c2c (n : Z) (data res : ptr) (inverse : Z) : M unit :=
  let sign := if inverse =? 1 then FFTW_BACKWARD else FFTW_FORWARD in
  let* p := fftw_plan_dft_1d n data res sign
              (Z.lor FFTW_DESTROY_INPUT FFTW_ESTIMATE) in
  fftw_execute p;;
  fftw_destroy_plan p.

Definition cmvfft_r2c (n m : Z) (data res : ptr) (fftwplanopt : Z) : M unit :=
  let nc := Z.quot n 2 + 1 in
  let effort := fftw_efforts fftwplanopt in
  let* pd :=
    (if effort =? FFTW_ESTIMATE then
       let* p := fftw_plan_many_dft_r2c 1 [n] m data NULL 1
                   n res NULL 1 nc (Z.lor FFTW_DESTROY_INPUT effort) in
       ret (p, NULL)
     else
       let* nm := int_mul n m in
       let* data_copy := malloc (size_mul (to_size_t nm) sizeof_double) in
       let* p := fftw_plan_many_dft_r2c 1 [n] m data_copy NULL 1
                   n res NULL 1 nc (Z.lor FFTW_DESTROY_INPUT effort) in
       let* nm' := int_mul n m in
       memcpy data_copy data (size_mul (to_size_t nm') sizeof_double);;
       ret (p, data_copy)) in
  let p := fst pd in
  let data_copy := snd pd in
  fftw_execute p;;
  fftw_destroy_plan p;;
  if is_null data_copy then ret tt else free data_copy.

Definition cmvfft_c2r (n m : Z) (data res : ptr) (fftwplanopt : Z) : M unit :=
  let nc := Z.quot n 2 + 1 in
  let effort := fftw_efforts fftwplanopt in
  let* pd :=
    (if effort =? FFTW_ESTIMATE then
       let* p := fftw_plan_many_dft_c2r 1 [n] m data NULL 1
                   nc res NULL 1 n (Z.lor FFTW_DESTROY_INPUT effort) in
       ret (p, NULL)
     else
       let* nm := int_mul n m in
       let* data_copy :=
         malloc (size_mul (to_size_t nm) sizeof_fftw_complex) in
       let* p := fftw_plan_many_dft_c2r 1 [n] m data_copy NULL 1
                   nc res NULL 1 n (Z.lor FFTW_DESTROY_INPUT effort) in
       memcpy data_copy data (size_mul (to_size_t n) sizeof_fftw_complex);;
       ret (p, data_copy)) in
  let p := fst pd in
  let data_copy := snd pd in
  fftw_execute p;;
  fftw_destroy_plan p;;
  if is_null data_copy then ret tt else free data_copy.

Definition cmvfft_c2c (n m : Z) (data res : ptr) (inverse fftwplanopt : Z)
  : M unit :=
  let sign := if inverse =? 1 then FFTW_BACKWARD else FFTW_FORWARD in
  let effort := fftw_efforts fftwplanopt in
  let* pd :=
    (if effort =? FFTW_ESTIMATE then
       let* p := fftw_plan_many_dft 1 [n] m data NULL 1 n res
                   NULL 1 n sign (Z.lor FFTW_DESTROY_INPUT effort) in
       ret (p, NULL)
     else
       let* nm := int_mul n m in
       let* data_copy :=
         malloc (size_mul (to_size_t nm) sizeof_fftw_complex) in
       let* p := fftw_plan_many_dft 1 [n] m data_copy NULL 1 n res
                   NULL 1 n sign (Z.lor FFTW_DESTROY_INPUT effort) in
       memcpy data_copy data (size_mul (to_size_t n) sizeof_fftw_complex);;
       ret (p, data_copy)) in
  let p := fst pd in
  let data_copy := snd pd in
  fftw_execute p;;
  fftw_destroy_plan p;;
  if is_null data_copy then ret tt else free data_copy.

Definition cfft_r2c_2d (nx ny : Z) (data res : ptr) : M unit :=
  let* p := fftw_plan_dft_r2c_2d nx ny data res
              (Z.lor FFTW_DESTROY_INPUT FFTW_ESTIMATE) in
  fftw_execute p;;
  fftw_destroy_plan p.

Definition cfft_c2c_2d (nx ny : Z) (data res : ptr) (inverse : Z) : M unit :=
  let sign := if inverse =? 1 then FFTW_BACKWARD else FFTW_FORWARD in
  let* p := fftw_plan_dft_2d nx ny data res sign
              (Z.lor FFTW_DESTROY_INPUT FFTW_ESTIMATE) in
  fftw_execute p;;
  fftw_destroy_plan p.

Definition cfft_r2c_3d (nx ny nz : Z) (data res : ptr) : M unit :=
  let* p := fftw_plan_dft_r2c_3d nx ny nz data res
              (Z.lor FFTW_DESTROY_INPUT FFTW_ESTIMATE) in
  fftw_execute p;;
  fftw_destroy_plan p.

Definition cfft_c2c_3d (nx ny nz : Z) (data res : ptr) (inverse : Z)
  : M unit :=
  let sign := if inverse =? 1 then FFTW_BACKWARD else FFTW_FORWARD in
  let* p := fftw_plan_dft_3d nx ny nz data res sign
              (Z.lor FFTW_DESTROY_INPUT FFTW_ESTIMATE) in
  fftw_execute p;;
  fftw_destroy_plan p.

Definition cfft_c2c_xd (r : Z) (n : list Z) (data res : ptr) (inverse : Z)
  : M unit :=
  let sign := if inverse =? 1 then FFTW_BACKWARD else FFTW_FORWARD in
  let* p := fftw_plan_dft r n data res sign
              (Z.lor FFTW_DESTROY_INPUT FFTW_ESTIMATE) in
  fftw_execute p;;
  fftw_destroy_plan p.

End Wrappers.

(** ** A stand-in FFTW for running the wrappers

    The copy kernel: output double [k] is input double [k] (an unwritten
    double reads as zero). For signals of length one this is the discrete
    Fourier transform itself, which is the identity there. The planner
    of the stand-in leaves unwritten memory unwritten and the executor
    leaves its input alone. *)
Definition copy_fftw : FFTW :=
  {| fftw_kernel := fun _ inp k => default zero (default None (inp !! k));
     fftw_clobber := fun _ inp k => default None (inp !! k);
     fftw_scribble := fun _ arr k => default None (arr !! k) |}.

Definition run {A} (c : M A) (h : gmap block (list cell)) (mem : Z)
  : outcome A * state :=
  c (MkState h mem []).

(** A caller's heap for the examples: block 1 holds the input
    [1, 0, 2, 0] (four reals, or the two complex numbers 1 and 2), block 2
    is an output array of eight unwritten doubles. *)
Definition demo_heap : gmap block (list cell) :=
  {[ 1%positive := [Some 1%float; Some 0%float; Some 2%float; Some 0%float];
     2%positive := replicate 8 None ]}.

(** ** Vocabulary of the properties *)

(** The sign a direction flag asks for: true is the backward transform. *)
Definition direction (inverse : bool) : Z :=
  if inverse then FFTW_BACKWARD else FFTW_FORWARD.

(** The signs of the complex-to-complex plans made along a trace. *)
Definition plan_signs (tr : list event) : list Z :=
  omap (fun e =>
          match e with
          | EvPlan p _ =>
              match pl_kind p with C2C s => Some s | _ => None end
          | _ => None
          end) tr.


(** Calls that come after the copy: they neither allocate, plan nor copy. *)
Definition quiet_event (e : event) : Prop :=
  match e with
  | EvExecute _ _ | EvDestroy _ | EvFree _ => True
  | _ => False
  end.

(** A computation that, whatever its outcome, adds only such calls to
    the trace. *)
Definition emits_quietly {A} (c : M A) : Prop :=
  forall st, exists evs,
    trace (snd (c st)) = trace st ++ evs /\ Forall quiet_event evs.


(** A computation that, whatever its outcome, leaves block [b] as it
    was; [Q] holds of the value it returns. *)
Definition keeps_post {A} (b : block) (c : M A) (Q : A -> Prop) : Prop :=
  forall st (l : list cell), heap st !! b = Some l ->
    heap (snd (c st)) !! b = Some l /\
    forall a, fst (c st) = Ok a -> Q a.

(** A run that makes the one plan [p] on the caller's arrays, executes
    it and destroys it: the plan is destroyed exactly when the execution
    returned, which it does exactly when both arrays are there and long
    enough; nothing is allocated. *)
Definition one_plan_run (c : M unit) (p : fftw_plan)
  (h : gmap block (list cell)) (mem : Z) : Prop :=
  let seen := snapshot h (pl_in p) (in_cells p) in
  exists o h',
    run c h mem
    = (o,
       MkState h' mem
         ([EvPlan p seen; EvExecute p seen]
          ++ match o with Ok _ => [EvDestroy p] | Fault => [] end)) /\
    (o = Ok tt <->
     is_Some seen /\ is_Some (snapshot h (pl_out p) (out_cells p))).

(** No call into the planner or the executor along a trace. *)
Definition no_planning (tr : list event) : Prop :=
  forall e, In e tr ->
    match e with
    | EvPlan _ _ | EvExecute _ _ => False
    | _ => True
    end.

(** Complex element [i] of an array of doubles, and conjugation. *)
Definition complex_at (l : list cell) (i : Z) : option (cell * cell) :=
  if i <? 0 then None
  else match l !! Z.to_nat (2 * i), l !! Z.to_nat (2 * i + 1) with
       | Some re, Some im => Some (re, im)
       | _, _ => None
       end.

Definition conj (z : cell * cell) : cell * cell :=
  (fst z, opp <$> snd z).

(** What one round of the conjugate fill does to the output array. *)
Definition herm_step (n : Z) (buf : list cell) (i : Z) : list cell :=
  let b1 := <[Z.to_nat (2 * i) := default None (buf !! Z.to_nat (2 * (n - i)))]> buf in
  <[Z.to_nat (2 * i + 1) :=
      opp <$> default None (b1 !! Z.to_nat (2 * (n - i) + 1))]> b1.

(** [F] still has the half spectrum of [buf]: same length, same doubles
    below element [nc]. *)
Definition keeps_half (n : Z) (F buf : list cell) : Prop :=
  length F = length buf /\
  forall j, (j < Z.to_nat (2 * (Z.quot n 2 + 1)))%nat -> F !! j = buf !! j.

(** The values [i] takes in [for(i = nc; i < *n; i++)]. *)
Definition herm_indices (n : Z) : list Z :=
  let nc := Z.quot n 2 + 1 in
  map (fun k => nc + Z.of_nat k) (seq 0 (Z.to_nat (n - nc))).

(** The conjugate fill run over the indices [l], in the order of [l]. *)
Definition herm_fold (n : Z) (res : ptr) (l : list Z) : M unit :=
  foldr (fun i k => herm_body n res i;; k) (ret tt) l.

(** The plan [cfft_r2c] makes on the array [inp]. *)
Definition r2c_plan (n : Z) (inp res : ptr) (fftwplanopt : Z) : fftw_plan :=
  MkPlan R2C [n] 1 inp 0 res 0
         (Z.lor FFTW_DESTROY_INPUT (fftw_efforts fftwplanopt)).

(** The plans of the batched entry points on the array [inp]. *)
Definition mv_r2c_plan (n m : Z) (inp res : ptr) (fftwplanopt : Z)
  : fftw_plan :=
  MkPlan R2C [n] m inp n res (Z.quot n 2 + 1)
         (Z.lor FFTW_DESTROY_INPUT (fftw_efforts fftwplanopt)).

Definition mv_c2r_plan (n m : Z) (inp res : ptr) (fftwplanopt : Z)
  : fftw_plan :=
  MkPlan C2R [n] m inp (Z.quot n 2 + 1) res n
         (Z.lor FFTW_DESTROY_INPUT (fftw_efforts fftwplanopt)).

Definition mv_c2c_plan (n m : Z) (inp res : ptr) (inverse fftwplanopt : Z)
  : fftw_plan :=
  MkPlan (C2C (if inverse =? 1 then FFTW_BACKWARD else FFTW_FORWARD))
         [n] m inp n res n
         (Z.lor FFTW_DESTROY_INPUT (fftw_efforts fftwplanopt)).

(** * Properties *)

(** ** The monad and the primitives *)

Lemma bind_eq {A B} (c : M A) (k : A -> M B) st o st' :
  c st = (o, st') ->
  bind c k st = match o with Ok a => k a st' | Fault => (Fault, st') end.
Proof. unfold bind. intros ->. by destruct o. Qed.

Lemma bind_assoc {A B C} (c : M A) (k1 : A -> M B) (k2 : B -> M C) st :
  bind (bind c k1) k2 st = bind c (fun a => bind (k1 a) k2) st.
Proof. unfold bind. by destruct (c st) as [[a|] st']. Qed.

Lemma bind_ret {A B} (a : A) (k : A -> M B) st : bind (ret a) k st = k a st.
Proof. reflexivity. Qed.

Lemma bind_log {B} (e : event) (k : unit -> M B) h a t :
  bind (log e) k (MkState h a t) = k tt (MkState h a (t ++ [e])).
Proof. reflexivity. Qed.

Lemma length_tabulate {A} k (f : nat -> A) : length (tabulate k f) = k.
Proof. unfold tabulate. by rewrite length_map, length_seq. Qed.

Lemma snapshot_ok h b l k :
  h !! b = Some l -> (k <= length l)%nat ->
  snapshot h (Ptr b) k = Some (take k l).
Proof.
  intros Hb Hk. unfold snapshot. rewrite Hb.
  destruct (Nat.leb_spec k (length l)); [done | lia].
Qed.

Lemma overwrite_ok h b l new :
  h !! b = Some l -> (length new <= length l)%nat ->
  overwrite h (Ptr b) new = Some (<[b := new ++ drop (length new) l]> h).
Proof.
  intros Hb Hk. unfold overwrite. rewrite Hb.
  destruct (Nat.leb_spec (length new) (length l)); [done | lia].
Qed.

Lemma read_cells_ok h a t b l k :
  h !! b = Some l -> (k <= length l)%nat ->
  read_cells (Ptr b) k (MkState h a t) = (Ok (take k l), MkState h a t).
Proof.
  intros Hb Hk. unfold read_cells. cbn [heap].
  by rewrite (snapshot_ok _ _ _ _ Hb Hk).
Qed.

Lemma write_cells_ok h a t b l new :
  h !! b = Some l -> (length new <= length l)%nat ->
  write_cells (Ptr b) new (MkState h a t)
  = (Ok tt, MkState (<[b := new ++ drop (length new) l]> h) a t).
Proof.
  intros Hb Hk. unfold write_cells. cbn [heap avail trace].
  by rewrite (overwrite_ok _ _ _ _ Hb Hk).
Qed.


Lemma malloc_ok h a t bytes :
  bytes <= a ->
  malloc bytes (MkState h a t)
  = (Ok (Ptr (fresh (dom h))),
     MkState (<[fresh (dom h) :=
                  replicate (Z.to_nat (bytes / sizeof_double)) None]> h)
             (a - bytes) (t ++ [EvMalloc bytes (Ptr (fresh (dom h)))])).
Proof.
  intros Hb. unfold malloc. cbn [heap avail trace].
  destruct (Z.leb_spec bytes a); [done | lia].
Qed.

Lemma malloc_fail h a t bytes :
  a < bytes ->
  malloc bytes (MkState h a t)
  = (Ok NULL, MkState h a (t ++ [EvMalloc bytes NULL])).
Proof.
  intros Hb. unfold malloc. cbn [heap avail trace].
  destruct (Z.leb_spec bytes a); [lia | done].
Qed.

Lemma fresh_block_unused (h : gmap block (list cell)) :
  h !! fresh (dom h) = None.
Proof. apply not_elem_of_dom, is_fresh. Qed.

Lemma fresh_block_ne (h : gmap block (list cell)) b l :
  h !! b = Some l -> fresh (dom h) <> b.
Proof. intros Hb E. rewrite <- E, fresh_block_unused in Hb. done. Qed.

Lemma memcpy_ok h a t bd bs (ld ls : list cell) bytes :
  h !! bs = Some ls -> h !! bd = Some ld ->
  (Z.to_nat (bytes / sizeof_double) <= length ls)%nat ->
  (Z.to_nat (bytes / sizeof_double) <= length ld)%nat ->
  memcpy (Ptr bd) (Ptr bs) bytes (MkState h a t)
  = (Ok tt,
     MkState (<[bd := take (Z.to_nat (bytes / sizeof_double)) ls
                      ++ drop (Z.to_nat (bytes / sizeof_double)) ld]> h)
             a (t ++ [EvMemcpy (Ptr bd) (Ptr bs) bytes])).
Proof.
  intros Hs Hd Ks Kd. unfold memcpy. rewrite bind_log.
  rewrite (bind_eq _ _ _ _ _ (read_cells_ok _ _ _ _ _ _ Hs Ks)).
  rewrite (write_cells_ok _ _ _ _ ld) by (rewrite ?length_take; lia || done).
  rewrite length_take. by rewrite Nat.min_l by lia.
Qed.

Lemma free_ok h a t b (l : list cell) :
  h !! b = Some l ->
  free (Ptr b) (MkState h a t)
  = (Ok tt,
     MkState (delete b h) (a + sizeof_double * Z.of_nat (length l))
             (t ++ [EvFree (Ptr b)])).
Proof.
  intros Hb. unfold free. rewrite bind_log. cbn [heap avail trace].
  by rewrite Hb.
Qed.

Section PrimitiveFacts.
Context `{Lib : FFTW}.

Lemma make_plan_estimate p h a t :
  planner_overwrites (pl_flags p) = false ->
  make_plan p (MkState h a t)
  = (Ok p,
     MkState h a (t ++ [EvPlan p (snapshot h (pl_in p) (in_cells p))])).
Proof.
  intros Hf. unfold make_plan. cbn [heap]. rewrite bind_log.
  by rewrite Hf.
Qed.

Lemma make_plan_measure p h a t bi bo (li lo : list cell) :
  planner_overwrites (pl_flags p) = true ->
  pl_in p = Ptr bi -> pl_out p = Ptr bo -> bi <> bo ->
  h !! bi = Some li -> (in_cells p <= length li)%nat ->
  h !! bo = Some lo -> (out_cells p <= length lo)%nat ->
  make_plan p (MkState h a t)
  = (Ok p,
     MkState
       (<[bo := tabulate (out_cells p)
                  (fftw_scribble p (take (out_cells p) lo))
                ++ drop (out_cells p) lo]>
          (<[bi := tabulate (in_cells p)
                     (fftw_scribble p (take (in_cells p) li))
                   ++ drop (in_cells p) li]> h))
       a (t ++ [EvPlan p (Some (take (in_cells p) li))])).
Proof.
  intros Hf Hi Ho Hne Hbi Ki Hbo Ko. unfold make_plan. cbn [heap]. rewrite bind_log.
  rewrite Hf, Hi, Ho.
  rewrite (bind_eq _ _ _ _ _ (read_cells_ok _ _ _ _ _ _ Hbi Ki)).
  rewrite (bind_eq _ _ _ (Ok tt) _
             (write_cells_ok _ _ _ _ li _ Hbi
                ltac:(rewrite length_tabulate; done))).
  rewrite length_tabulate.
  assert (Hbo' : (<[bi := tabulate (in_cells p)
                     (fftw_scribble p (take (in_cells p) li))
                   ++ drop (in_cells p) li]> h) !! bo = Some lo)
    by (by rewrite lookup_insert_ne).
  rewrite (bind_eq _ _ _ _ _ (read_cells_ok _ _ _ _ _ _ Hbo' Ko)).
  rewrite (bind_eq _ _ _ (Ok tt) _
             (write_cells_ok _ _ _ _ lo _ Hbo'
                ltac:(rewrite length_tabulate; done))).
  rewrite length_tabulate. unfold ret.
  by rewrite (snapshot_ok _ _ _ _ Hbi Ki).
Qed.

(** With a measuring effort and no input array the planner faults. *)
Lemma make_plan_null p h a t :
  planner_overwrites (pl_flags p) = true ->
  pl_in p = NULL ->
  make_plan p (MkState h a t)
  = (Fault, MkState h a (t ++ [EvPlan p None])).
Proof.
  intros Hf Hi. unfold make_plan. cbn [heap]. rewrite bind_log.
  by rewrite Hf, Hi.
Qed.

Lemma fftw_execute_ok p h a t bi bo (li lo : list cell) :
  pl_in p = Ptr bi -> pl_out p = Ptr bo ->
  h !! bi = Some li -> (in_cells p <= length li)%nat ->
  h !! bo = Some lo -> (out_cells p <= length lo)%nat ->
  exists lo',
    length lo' = length lo /\ (bi <> bo -> lo' = lo) /\
    fftw_execute p (MkState h a t)
    = (Ok tt,
       MkState
         (<[bo := tabulate (out_cells p)
                    (fun k => Some (fftw_kernel p (take (in_cells p) li) k))
                  ++ drop (out_cells p) lo']>
            (<[bi := tabulate (in_cells p)
                       (fftw_clobber p (take (in_cells p) li))
                     ++ drop (in_cells p) li]> h))
         a (t ++ [EvExecute p (Some (take (in_cells p) li))])).
Proof.
  intros Hi Ho Hbi Ki Hbo Ko.
  set (h1 := <[bi := tabulate (in_cells p)
                       (fftw_clobber p (take (in_cells p) li))
                     ++ drop (in_cells p) li]> h).
  assert (exists lo', h1 !! bo = Some lo' /\ length lo' = length lo
                      /\ (bi <> bo -> lo' = lo)) as (lo' & Hbo' & Hlen & Hsame).
  { destruct (decide (bi = bo)) as [->|Hne].
    - eexists. split; [apply lookup_insert_eq|]. split; [|done].
      rewrite length_app, length_drop, length_tabulate.
      simplify_eq. lia.
    - exists lo. unfold h1. by rewrite lookup_insert_ne. }
  exists lo'. split; [done|]. split; [done|].
  unfold fftw_execute. cbn [heap]. rewrite bind_log.
  rewrite Hi, Ho.
  rewrite (bind_eq _ _ _ _ _ (read_cells_ok _ _ _ _ _ _ Hbi Ki)).
  rewrite (bind_eq _ _ _ (Ok tt) _
             (write_cells_ok _ _ _ _ li _ Hbi
                ltac:(rewrite length_tabulate; done))).
  rewrite length_tabulate. fold h1.
  rewrite (write_cells_ok _ _ _ _ lo')
    by (rewrite ?length_tabulate; first [done | lia]).
  rewrite length_tabulate.
  by rewrite (snapshot_ok _ _ _ _ Hbi Ki).
Qed.

End PrimitiveFacts.

(** ** The conjugate fill *)

Lemma half_bounds n : 1 <= n -> 2 * (Z.quot n 2) <= n < 2 * (Z.quot n 2) + 2.
Proof.
  intros Hn. rewrite Z.quot_div_nonneg by lia.
  pose proof (Z.div_mod n 2 ltac:(lia)).
  pose proof (Z.mod_pos_bound n 2 ltac:(lia)). lia.
Qed.

Lemma load_ok h a t b (l : list cell) i c :
  h !! b = Some l -> 0 <= i -> l !! Z.to_nat i = Some c ->
  load (Ptr b) i (MkState h a t) = (Ok c, MkState h a t).
Proof.
  intros Hb Hi Hc. unfold load. cbn [heap]. rewrite Hb.
  destruct (Z.ltb_spec i 0); [lia|]. by rewrite Hc.
Qed.

Lemma store_ok h a t b (l : list cell) i c :
  h !! b = Some l -> 0 <= i < Z.of_nat (length l) ->
  store (Ptr b) i c (MkState h a t)
  = (Ok tt, MkState (<[b := <[Z.to_nat i := c]> l]> h) a t).
Proof.
  intros Hb Hi. unfold store. cbn [heap avail trace]. rewrite Hb.
  destruct (Z.ltb_spec i 0); [lia|].
  destruct (Z.leb_spec (Z.of_nat (length l)) i); [lia|]. done.
Qed.

Lemma lookup_default (l : list cell) k :
  (k < length l)%nat -> l !! k = Some (default None (l !! k)).
Proof.
  intros Hk. destruct (lookup_lt_is_Some_2 l k Hk) as [c ->]. done.
Qed.

Lemma length_herm_step n buf i : length (herm_step n buf i) = length buf.
Proof. unfold herm_step. by rewrite !length_insert. Qed.

Lemma herm_body_ok h a t b (buf : list cell) n i :
  h !! b = Some buf -> 0 < i < n -> 2 * n <= Z.of_nat (length buf) ->
  herm_body n (Ptr b) i (MkState h a t)
  = (Ok tt, MkState (<[b := herm_step n buf i]> h) a t).
Proof.
  intros Hb Hi Hlen. unfold herm_body.
  assert (Hre : buf !! Z.to_nat (2 * (n - i))
                = Some (default None (buf !! Z.to_nat (2 * (n - i)))))
    by (apply lookup_default; lia).
  assert (Hs1 : 0 <= 2 * (n - i)) by lia.
  rewrite (bind_eq _ _ _ _ _ (load_ok _ a t _ _ _ _ Hb Hs1 Hre)).
  assert (Hi1 : 0 <= 2 * i < Z.of_nat (length buf)) by lia.
  rewrite (bind_eq _ _ _ _ _ (store_ok _ a t _ _ _ _ Hb Hi1)).
  set (b1 := <[Z.to_nat (2 * i) :=
                 default None (buf !! Z.to_nat (2 * (n - i)))]> buf).
  assert (Hb1 : (<[b := b1]> h) !! b = Some b1) by apply lookup_insert_eq.
  assert (Hl1 : length b1 = length buf) by apply length_insert.
  assert (Him : b1 !! Z.to_nat (2 * (n - i) + 1)
                = Some (default None (b1 !! Z.to_nat (2 * (n - i) + 1))))
    by (apply lookup_default; lia).
  assert (Hs2 : 0 <= 2 * (n - i) + 1) by lia.
  rewrite (bind_eq _ _ _ _ _ (load_ok _ a t _ _ _ _ Hb1 Hs2 Him)).
  assert (Hi2 : 0 <= 2 * i + 1 < Z.of_nat (length b1)) by lia.
  rewrite (store_ok _ a t _ _ _ _ Hb1 Hi2).
  by rewrite insert_insert_eq.
Qed.

Lemma herm_fold_ok n b l : forall h a t (buf : list cell),
  Forall (fun i => 0 < i < n) l ->
  h !! b = Some buf -> 2 * n <= Z.of_nat (length buf) ->
  herm_fold n (Ptr b) l (MkState h a t)
  = (Ok tt, MkState (<[b := foldl (herm_step n) buf l]> h) a t).
Proof.
  induction l as [|i l IH]; intros h a t buf Hl Hb Hlen; simpl.
  - unfold ret. by rewrite insert_id.
  - apply Forall_cons in Hl as [Hi Hl].
    rewrite (bind_eq _ _ _ _ _ (herm_body_ok _ _ _ _ _ _ _ Hb Hi Hlen)).
    rewrite (IH _ _ _ (herm_step n buf i)); [|done|apply lookup_insert_eq|].
    + by rewrite insert_insert_eq.
    + by rewrite length_herm_step.
Qed.

Lemma herm_loop_fold n res k : forall i,
  herm_loop k n res i
  = herm_fold n res (map (fun j => i + Z.of_nat j) (seq 0 k)).
Proof.
  induction k as [|k IH]; intros i; [done|].
  assert (Hs : map (fun j => i + Z.of_nat j) (seq 1 k)
               = map (fun j => i + 1 + Z.of_nat j) (seq 0 k)).
  { rewrite <- seq_shift, map_map. apply map_ext. intros j. lia. }
  cbn [herm_loop seq map]. rewrite Hs, IH, Z.add_0_r. done.
Qed.

Lemma herm_loop_indices n res :
  herm_loop (Z.to_nat (n - (Z.quot n 2 + 1))) n res (Z.quot n 2 + 1)
  = herm_fold n res (herm_indices n).
Proof. apply herm_loop_fold. Qed.

Lemma elem_of_herm_indices n i :
  i ∈ herm_indices n <-> Z.quot n 2 + 1 <= i < n.
Proof.
  unfold herm_indices. rewrite list_elem_of_In, in_map_iff. split.
  - intros (k & <- & Hk). apply in_seq in Hk. lia.
  - intros Hi. exists (Z.to_nat (i - (Z.quot n 2 + 1))). split; [lia|].
    apply in_seq. lia.
Qed.

(** One round writes elements [2i] and [2i+1] and nothing else. *)
Lemma herm_step_re n (F : list cell) i :
  0 <= i -> 2 * i + 1 < Z.of_nat (length F) ->
  herm_step n F i !! Z.to_nat (2 * i)
  = Some (default None (F !! Z.to_nat (2 * (n - i)))).
Proof.
  intros H0 Hlen. unfold herm_step.
  rewrite list_lookup_insert_ne by lia.
  apply list_lookup_insert_eq. lia.
Qed.

Lemma herm_step_im n (F : list cell) i :
  0 <= i <= n -> 2 * i + 1 < Z.of_nat (length F) ->
  herm_step n F i !! Z.to_nat (2 * i + 1)
  = Some (opp <$> default None (F !! Z.to_nat (2 * (n - i) + 1))).
Proof.
  intros H0 Hlen. unfold herm_step.
  rewrite list_lookup_insert_eq by (rewrite length_insert; lia).
  by rewrite list_lookup_insert_ne by lia.
Qed.

Lemma herm_step_other n (F : list cell) i j :
  j <> Z.to_nat (2 * i) -> j <> Z.to_nat (2 * i + 1) ->
  herm_step n F i !! j = F !! j.
Proof.
  intros H1 H2. unfold herm_step.
  by rewrite !list_lookup_insert_ne by done.
Qed.

Lemma keeps_half_step n F buf i :
  Z.quot n 2 + 1 <= i ->
  keeps_half n F buf -> keeps_half n (herm_step n F i) buf.
Proof.
  intros Hi [Hl Hlow]. split; [by rewrite length_herm_step|].
  intros j Hj. rewrite herm_step_other by lia. by apply Hlow.
Qed.

Lemma herm_fill_pointwise n (buf : list cell) l : forall F,
  1 <= n -> 2 * n <= Z.of_nat (length buf) ->
  Forall (fun i => Z.quot n 2 + 1 <= i < n) l ->
  keeps_half n F buf ->
  keeps_half n (foldl (herm_step n) F l) buf /\
  (forall i, i ∈ l ->
     foldl (herm_step n) F l !! Z.to_nat (2 * i)
     = Some (default None (buf !! Z.to_nat (2 * (n - i)))) /\
     foldl (herm_step n) F l !! Z.to_nat (2 * i + 1)
     = Some (opp <$> default None (buf !! Z.to_nat (2 * (n - i) + 1)))) /\
  (forall j,
     (forall i, i ∈ l -> j <> Z.to_nat (2 * i) /\ j <> Z.to_nat (2 * i + 1)) ->
     foldl (herm_step n) F l !! j = F !! j).
Proof.
  intros F Hn Hlen Hl. revert F.
  pose proof (half_bounds n Hn) as Hh.
  induction Hl as [|i l Hi Hl IH]; intros F HF; cbn [foldl].
  - split; [done|]. split; [|done]. intros i Hi. by apply elem_of_nil in Hi.
  - pose proof (keeps_half_step n F buf i (proj1 Hi) HF) as HF'.
    destruct (IH _ HF') as (Hk & Hw & Ho). destruct HF as [HlF HlowF].
    split; [done|]. split.
    + intros i' Hi'. destruct (decide (i' ∈ l)) as [Hin|Hnin]; [by apply Hw|].
      apply elem_of_cons in Hi' as [->|]; [|done].
      rewrite !Ho.
      * rewrite herm_step_re, herm_step_im by lia.
        by rewrite !HlowF by lia.
      * intros i' Hi'. apply (Forall_forall (A:=Z)) with (x := i') in Hl;
          [|done]. cbv beta in Hl.
        split; intros E; first [lia | assert (i' = i) by lia; by subst].
      * intros i' Hi'. apply (Forall_forall (A:=Z)) with (x := i') in Hl;
          [|done]. cbv beta in Hl.
        split; intros E; first [lia | assert (i' = i) by lia; by subst].
    + intros j Hj. rewrite Ho.
      * destruct (Hj i ltac:(left)) as [H1 H2]. by apply herm_step_other.
      * intros i' Hi'. apply Hj. by right.
Qed.

Lemma keeps_half_refl n buf : keeps_half n buf buf.
Proof. by split. Qed.

(** The filled array depends on which indices were visited, not on the
    order of the visits. *)
Lemma herm_fill_order n (buf : list cell) l1 l2 :
  1 <= n -> 2 * n <= Z.of_nat (length buf) ->
  Forall (fun i => Z.quot n 2 + 1 <= i < n) l1 ->
  (forall i, i ∈ l1 <-> i ∈ l2) ->
  foldl (herm_step n) buf l1 = foldl (herm_step n) buf l2.
Proof.
  intros Hn Hlen Hl1 Hsame.
  assert (Hl2 : Forall (fun i => Z.quot n 2 + 1 <= i < n) l2).
  { apply Forall_forall. intros i Hi. apply Hsame in Hi.
    by apply (Forall_forall (A:=Z)) with (x := i) in Hl1. }
  destruct (herm_fill_pointwise n buf l1 buf Hn Hlen Hl1 (keeps_half_refl _ _))
    as (_ & Hw1 & Ho1).
  destruct (herm_fill_pointwise n buf l2 buf Hn Hlen Hl2 (keeps_half_refl _ _))
    as (_ & Hw2 & Ho2).
  apply list_eq. intros j.
  destruct (decide (Exists (fun i => j = Z.to_nat (2 * i)
                                     \/ j = Z.to_nat (2 * i + 1)) l1))
    as [Hex|Hnex].
  - apply Exists_exists in Hex as (i & Hi & Hj).
    destruct (Hw1 i Hi) as [R1 I1].
    destruct (Hw2 i (proj1 (Hsame i) Hi)) as [R2 I2].
    destruct Hj as [-> | ->]; congruence.
  - assert (Hno : forall i, i ∈ l1 ->
                    j <> Z.to_nat (2 * i) /\ j <> Z.to_nat (2 * i + 1)).
    { intros i Hi. split; intros E; apply Hnex, Exists_exists;
        exists i; split; auto. }
    rewrite Ho1 by done. rewrite Ho2; [done|].
    intros i Hi. apply Hno. by apply Hsame.
Qed.

(** ** Array extents of the plans *)

Lemma efforts_estimate opt : opt <= 0 -> fftw_efforts opt = FFTW_ESTIMATE.
Proof. intros H. unfold fftw_efforts. by destruct (Z.leb_spec opt 0); [|lia]. Qed.

Lemma efforts_above opt :
  0 < opt ->
  (fftw_efforts opt =? FFTW_ESTIMATE) = false /\
  planner_overwrites (Z.lor FFTW_DESTROY_INPUT (fftw_efforts opt)) = true.
Proof.
  intros H. unfold fftw_efforts. destruct (Z.leb_spec opt 0); [lia|].
  by repeat case_match.
Qed.

Lemma quot_same_pos n : 1 <= n -> Z.quot (n * 1) n = 1.
Proof. intros H. rewrite Z.mul_1_r. apply Z.quot_same. lia. Qed.

Lemma in_cells_real n m i idist o odist f :
  1 <= m ->
  in_cells (MkPlan R2C [n] m i idist o odist f)
  = Z.to_nat ((m - 1) * idist + n).
Proof. intros Hm. unfold in_cells. cbn. f_equal. lia. Qed.

Lemma out_cells_half n m i idist o odist f :
  1 <= n ->
  out_cells (MkPlan R2C [n] m i idist o odist f)
  = Z.to_nat (2 * ((m - 1) * odist + (Z.quot n 2 + 1))).
Proof.
  intros Hn. unfold out_cells, out_signal, half_elems, last_dim, prodZ.
  cbn [pl_kind pl_dims pl_howmany pl_odist out_unit List.last fold_right].
  rewrite quot_same_pos by done. f_equal. lia.
Qed.

Lemma in_cells_half n m i idist o odist f :
  1 <= n ->
  in_cells (MkPlan C2R [n] m i idist o odist f)
  = Z.to_nat (2 * ((m - 1) * idist + (Z.quot n 2 + 1))).
Proof.
  intros Hn. unfold in_cells, in_signal, half_elems, last_dim, prodZ.
  cbn [pl_kind pl_dims pl_howmany pl_idist in_unit List.last fold_right].
  rewrite quot_same_pos by done. f_equal. lia.
Qed.

Lemma out_cells_real n m i idist o odist f :
  out_cells (MkPlan C2R [n] m i idist o odist f)
  = Z.to_nat ((m - 1) * odist + n).
Proof. unfold out_cells. cbn. f_equal. lia. Qed.

Lemma scratch_bytes k unit :
  0 <= k <= INT_MAX -> 0 < unit <= 16 ->
  size_mul (to_size_t k) unit = k * unit.
Proof.
  intros Hk Hu. unfold size_mul, to_size_t, SIZE_MOD, INT_MAX in *.
  rewrite (Z.mod_small k) by lia. apply Z.mod_small. nia.
Qed.

(** ** The calls on a heap with a scratch block

    Along the scratch-copy branch the heap is the caller's heap [h] with
    the output block [r] and the scratch block [s] updated. *)

Lemma free_scratch (H : gmap block (list cell)) a t s (S : list cell) :
  H !! s = None ->
  free (Ptr s) (MkState (<[s := S]> H) a t)
  = (Ok tt,
     MkState H (a + sizeof_double * Z.of_nat (length S))
             (t ++ [EvFree (Ptr s)])).
Proof.
  intros Hs. rewrite (free_ok _ _ _ _ S) by apply lookup_insert_eq.
  by rewrite delete_insert_eq, delete_id.
Qed.

Lemma memcpy_to_scratch h a t s r d (S R D : list cell) bytes :
  d <> s ->
  (<[r := R]> h) !! d = Some D ->
  (Z.to_nat (bytes / sizeof_double) <= length D)%nat ->
  (Z.to_nat (bytes / sizeof_double) <= length S)%nat ->
  memcpy (Ptr s) (Ptr d) bytes (MkState (<[s := S]> (<[r := R]> h)) a t)
  = (Ok tt,
     MkState (<[s := take (Z.to_nat (bytes / sizeof_double)) D
                     ++ drop (Z.to_nat (bytes / sizeof_double)) S]>
                (<[r := R]> h))
             a (t ++ [EvMemcpy (Ptr s) (Ptr d) bytes])).
Proof.
  intros Hds Hd KD KS.
  rewrite (memcpy_ok _ _ _ _ _ S D); [|by rewrite lookup_insert_ne
                                      |apply lookup_insert_eq|done|done].
  by rewrite insert_insert_eq.
Qed.

Lemma herm_on_scratch n h a t s r (S R : list cell) l :
  s <> r ->
  Forall (fun i => 0 < i < n) l -> 2 * n <= Z.of_nat (length R) ->
  herm_fold n (Ptr r) l (MkState (<[s := S]> (<[r := R]> h)) a t)
  = (Ok tt,
     MkState (<[s := S]> (<[r := foldl (herm_step n) R l]> h)) a t).
Proof.
  intros Hsr Hl HR.
  rewrite (herm_fold_ok _ _ _ _ _ _ R Hl); [|by simplify_map_eq|done].
  by rewrite (insert_insert_ne _ r s), insert_insert_eq by done.
Qed.

Section ScratchFacts.
Context `{Lib : FFTW}.

Lemma plan_on_scratch p h a t s r (S R : list cell) :
  planner_overwrites (pl_flags p) = true ->
  pl_in p = Ptr s -> pl_out p = Ptr r -> s <> r ->
  (in_cells p <= length S)%nat -> (out_cells p <= length R)%nat ->
  make_plan p (MkState (<[s := S]> (<[r := R]> h)) a t)
  = (Ok p,
     MkState
       (<[s := tabulate (in_cells p) (fftw_scribble p (take (in_cells p) S))
               ++ drop (in_cells p) S]>
          (<[r := tabulate (out_cells p)
                     (fftw_scribble p (take (out_cells p) R))
                   ++ drop (out_cells p) R]> h))
       a (t ++ [EvPlan p (Some (take (in_cells p) S))])).
Proof.
  intros Hf Hi Ho Hsr KS KR.
  rewrite (make_plan_measure p _ a t s r S R Hf Hi Ho Hsr);
    [|by simplify_map_eq|done|by simplify_map_eq|done].
  do 2 f_equal.
  rewrite insert_insert_eq.
  rewrite (insert_insert_ne _ s r) by done.
  rewrite insert_insert_eq.
  by rewrite (insert_insert_ne _ r s) by done.
Qed.

Lemma execute_on_scratch p h a t s r (S R : list cell) :
  pl_in p = Ptr s -> pl_out p = Ptr r -> s <> r ->
  (in_cells p <= length S)%nat -> (out_cells p <= length R)%nat ->
  fftw_execute p (MkState (<[s := S]> (<[r := R]> h)) a t)
  = (Ok tt,
     MkState
       (<[s := tabulate (in_cells p) (fftw_clobber p (take (in_cells p) S))
               ++ drop (in_cells p) S]>
          (<[r := tabulate (out_cells p)
                     (fun k => Some (fftw_kernel p (take (in_cells p) S) k))
                   ++ drop (out_cells p) R]> h))
       a (t ++ [EvExecute p (Some (take (in_cells p) S))])).
Proof.
  intros Hi Ho Hsr KS KR.
  destruct (fftw_execute_ok p (<[s := S]> (<[r := R]> h)) a t s r S R Hi Ho)
    as (R' & _ & HR' & ->); [by simplify_map_eq|done|by simplify_map_eq|done|].
  rewrite (HR' Hsr). do 2 f_equal.
  rewrite insert_insert_eq.
  rewrite (insert_insert_ne _ s r) by done.
  rewrite insert_insert_eq.
  by rewrite (insert_insert_ne _ r s) by done.
Qed.

(** The four calls of the scratch-copy branch, from [malloc] to
    [fftw_execute], for a plan [p] on the scratch block [s]: [k1] doubles
    are allocated and [k2] doubles copied from the caller's block [d]. *)
Lemma scratch_steps p h mem s r d (ld lr : list cell) (k1 k2 : nat) B1 B2 :
  s = fresh (dom h) ->
  pl_in p = Ptr s -> pl_out p = Ptr r ->
  planner_overwrites (pl_flags p) = true ->
  h !! d = Some ld -> h !! r = Some lr -> d <> r ->
  Z.to_nat (B1 / sizeof_double) = k1 -> Z.to_nat (B2 / sizeof_double) = k2 ->
  B1 <= mem ->
  (in_cells p <= k1)%nat -> (k2 <= k1)%nat -> (k2 <= length ld)%nat ->
  (out_cells p <= length lr)%nat ->
  let ic := in_cells p in
  let oc := out_cells p in
  let S0 : list cell := replicate k1 None in
  let S2 := tabulate ic (fftw_scribble p (replicate ic None))
            ++ replicate (k1 - ic) None in
  let R2 := tabulate oc (fftw_scribble p (take oc lr)) ++ drop oc lr in
  let S3 := take k2 ld ++ drop k2 S2 in
  let S4 := tabulate ic (fftw_clobber p (take ic S3)) ++ drop ic S3 in
  let R4 := tabulate oc (fun k => Some (fftw_kernel p (take ic S3) k))
            ++ drop oc R2 in
  let t1 := [EvMalloc B1 (Ptr s)] in
  let t2 := [EvMalloc B1 (Ptr s); EvPlan p (Some (replicate ic None))] in
  let t3 := [EvMalloc B1 (Ptr s); EvPlan p (Some (replicate ic None));
             EvMemcpy (Ptr s) (Ptr d) B2] in
  let t4 := [EvMalloc B1 (Ptr s); EvPlan p (Some (replicate ic None));
             EvMemcpy (Ptr s) (Ptr d) B2; EvExecute p (Some (take ic S3))] in
  malloc B1 (MkState h mem [])
  = (Ok (Ptr s), MkState (<[s := S0]> (<[r := lr]> h)) (mem - B1) t1) /\
  make_plan p (MkState (<[s := S0]> (<[r := lr]> h)) (mem - B1) t1)
  = (Ok p, MkState (<[s := S2]> (<[r := R2]> h)) (mem - B1) t2) /\
  memcpy (Ptr s) (Ptr d) B2 (MkState (<[s := S2]> (<[r := R2]> h)) (mem - B1) t2)
  = (Ok tt, MkState (<[s := S3]> (<[r := R2]> h)) (mem - B1) t3) /\
  fftw_execute p (MkState (<[s := S3]> (<[r := R2]> h)) (mem - B1) t3)
  = (Ok tt, MkState (<[s := S4]> (<[r := R4]> h)) (mem - B1) t4) /\
  length S4 = k1 /\ length R4 = length lr /\ (<[r := R4]> h) !! s = None.
Proof.
  intros -> Hi Ho Hfl Hd Hr Hdr Hk1 Hk2 Hmem Kic Kk2 Kld Koc.
  intros ic oc S0 S2 R2 S3 S4 R4 t1 t2 t3 t4.
  set (s := fresh (dom h)) in *.
  assert (Hsr : s <> r) by (by apply (fresh_block_ne h r lr)).
  assert (Hds : d <> s) by (apply not_eq_sym; by apply (fresh_block_ne h d ld)).
  assert (Hs : h !! s = None) by apply fresh_block_unused.
  assert (HlS0 : length S0 = k1) by apply length_replicate.
  assert (HlS2 : length S2 = k1)
    by (unfold S2; rewrite length_app, length_tabulate, length_replicate; lia).
  assert (HlS3 : length S3 = k1)
    by (unfold S3; rewrite length_app, length_take, length_drop; lia).
  assert (HlR2 : length R2 = length lr)
    by (unfold R2; rewrite length_app, length_tabulate, length_drop; lia).
  split; [|split; [|split; [|split; [|split; [|split]]]]].
  - rewrite (malloc_ok h mem [] B1 Hmem). fold s. rewrite Hk1. fold S0.
    by rewrite (insert_id h r lr Hr).
  - rewrite (plan_on_scratch p h _ t1 s r S0 lr Hfl Hi Ho Hsr)
      by (fold ic oc; lia).
    fold ic oc. unfold S0. rewrite take_replicate, drop_replicate.
    by rewrite Nat.min_l by lia.
  - rewrite (memcpy_to_scratch h _ t2 s r d S2 R2 ld B2 Hds)
      by (rewrite ?lookup_insert_ne by done; rewrite ?Hk2; first [done|lia]).
    by rewrite Hk2.
  - rewrite (execute_on_scratch p h _ t3 s r S3 R2 Hi Ho Hsr)
      by (fold ic oc; lia).
    done.
  - unfold S4. rewrite length_app, length_tabulate, length_drop. lia.
  - unfold R4. rewrite length_app, length_tabulate, length_drop. lia.
  - by rewrite lookup_insert_ne.
Qed.

End ScratchFacts.

(** ** Runs of [cfft_r2c] *)

Section Runs.
Context `{Lib : FFTW}.

Lemma cfft_r2c_estimate_run n d r herm opt h mem (ld lr : list cell) :
  opt <= 0 -> 1 <= n ->
  h !! d = Some ld -> n <= Z.of_nat (length ld) ->
  h !! r = Some lr -> 2 * (Z.quot n 2 + 1) <= Z.of_nat (length lr) ->
  (herm = 1 -> 2 * n <= Z.of_nat (length lr)) ->
  let p := r2c_plan n (Ptr d) (Ptr r) opt in
  let nn := Z.to_nat n in
  let oc := Z.to_nat (2 * (Z.quot n 2 + 1)) in
  exists lr',
    length lr' = length lr /\ (d <> r -> lr' = lr) /\
    let bins := tabulate oc (fun k => Some (fftw_kernel p (take nn ld) k))
                ++ drop oc lr' in
    run (cfft_r2c n (Ptr d) (Ptr r) herm opt) h mem
    = (Ok tt,
       MkState
         (<[r := if herm =? 1 then foldl (herm_step n) bins (herm_indices n)
                 else bins]>
            (<[d := tabulate nn (fftw_clobber p (take nn ld)) ++ drop nn ld]>
               h))
         mem
         [EvPlan p (Some (take nn ld)); EvExecute p (Some (take nn ld));
          EvDestroy p]).
Proof.
  intros Hopt Hn Hd Kd Hr Kr Kherm p nn oc.
  assert (Hic : in_cells p = nn)
    by (unfold p, r2c_plan; rewrite in_cells_real by lia; f_equal; lia).
  assert (Hoc : out_cells p = oc)
    by (unfold p, r2c_plan; rewrite out_cells_half by lia; f_equal; lia).
  assert (Hfl : planner_overwrites (pl_flags p) = false)
    by (unfold p, r2c_plan; cbn [pl_flags];
        by rewrite (efforts_estimate opt Hopt)).
  pose proof (make_plan_estimate p h mem [] Hfl) as Hplan.
  rewrite (snapshot_ok _ _ _ _ Hd) in Hplan by (rewrite Hic; lia).
  rewrite Hic in Hplan. cbn [app] in Hplan.
  destruct (fftw_execute_ok p h mem [EvPlan p (Some (take nn ld))] d r ld lr
              eq_refl eq_refl Hd ltac:(lia) Hr ltac:(lia))
    as (lr' & Hlen & Hsame & Hexec).
  rewrite Hic, Hoc in Hexec. cbn [app] in Hexec.
  exists lr'. split; [done|]. split; [done|]. intros bins. fold bins in Hexec.
  unfold run, cfft_r2c, fftw_plan_dft_r2c_1d.
  fold (r2c_plan n (Ptr d) (Ptr r) opt). fold p.
  rewrite (efforts_estimate opt Hopt), Z.eqb_refl.
  rewrite bind_assoc, (bind_eq _ _ _ _ _ Hplan), bind_ret.
  cbn [fst snd is_null].
  rewrite (bind_eq _ _ _ _ _ Hexec).
  destruct (Z.eqb_spec herm 1) as [E1|E1].
  - rewrite herm_loop_indices.
    erewrite bind_eq; cycle 1.
    { apply herm_fold_ok with (buf := bins).
      - apply Forall_forall. intros i Hi. apply elem_of_herm_indices in Hi.
        pose proof (half_bounds n Hn). lia.
      - apply lookup_insert_eq.
      - unfold bins. rewrite length_app, length_tabulate, length_drop.
        specialize (Kherm E1). lia. }
    rewrite insert_insert_eq. unfold fftw_destroy_plan.
    rewrite bind_log. done.
  - rewrite bind_ret. unfold fftw_destroy_plan. rewrite bind_log. done.
Qed.



Lemma cfft_r2c_scratch_run n d r herm opt h mem (ld lr : list cell) :
  0 < opt -> 1 <= n <= INT_MAX ->
  h !! d = Some ld -> n <= Z.of_nat (length ld) ->
  h !! r = Some lr -> 2 * (Z.quot n 2 + 1) <= Z.of_nat (length lr) ->
  (herm = 1 -> 2 * n <= Z.of_nat (length lr)) ->
  n * 8 <= mem ->
  let s := fresh (dom h) in
  let p := r2c_plan n (Ptr s) (Ptr r) opt in
  let nn := Z.to_nat n in
  let oc := Z.to_nat (2 * (Z.quot n 2 + 1)) in
  exists D rest : list cell,
    length D = length ld /\ (d <> r -> D = ld) /\
    length rest = (length lr - oc)%nat /\
    let bins := tabulate oc (fun k => Some (fftw_kernel p (take nn D) k))
                ++ rest in
    run (cfft_r2c n (Ptr d) (Ptr r) herm opt) h mem
    = (Ok tt,
       MkState
         (<[r := if herm =? 1 then foldl (herm_step n) bins (herm_indices n)
                 else bins]> h)
         mem
         [EvMalloc (n * 8) (Ptr s); EvPlan p (Some (replicate nn None));
          EvMemcpy (Ptr s) (Ptr d) (n * 8); EvExecute p (Some (take nn D));
          EvDestroy p; EvFree (Ptr s)]).
Proof.
  intros Hopt Hn Hd Kd Hr Kr Kherm Hmem s p nn oc.
  assert (Hsr : s <> r) by (by apply (fresh_block_ne h r lr)).
  assert (Hds : d <> s) by (apply not_eq_sym; by apply (fresh_block_ne h d ld)).
  assert (Hs : h !! s = None) by apply fresh_block_unused.
  assert (Hic : in_cells p = nn)
    by (unfold p, r2c_plan; rewrite in_cells_real by lia; f_equal; lia).
  assert (Hoc : out_cells p = oc)
    by (unfold p, r2c_plan; rewrite out_cells_half by lia; f_equal; lia).
  destruct (efforts_above opt Hopt) as [Hne Hfl].
  assert (Hbytes : size_mul (to_size_t n) sizeof_double = n * 8)
    by (apply scratch_bytes; unfold INT_MAX in *; lia).
  assert (Hk : Z.to_nat (n * 8 / sizeof_double) = nn)
    by (unfold sizeof_double; by rewrite Z.div_mul).
  (* malloc *)
  pose proof (malloc_ok h mem [] (n * 8) Hmem) as Hmalloc.
  fold s in Hmalloc. rewrite Hk in Hmalloc. cbn [app] in Hmalloc.
  set (S0 := replicate nn None : list cell) in *.
  assert (Hh0 : <[s := S0]> h = <[s := S0]> (<[r := lr]> h))
    by (by rewrite (insert_id h r lr Hr)).
  rewrite Hh0 in Hmalloc.
  (* the planner, on the unwritten scratch block *)
  pose proof (plan_on_scratch p h (mem - n * 8) [EvMalloc (n * 8) (Ptr s)]
                s r S0 lr Hfl eq_refl eq_refl Hsr) as Hplan.
  rewrite Hic, Hoc in Hplan.
  specialize (Hplan ltac:(unfold S0; rewrite length_replicate; lia)
                    ltac:(lia)).
  rewrite (take_ge S0), (drop_ge S0) in Hplan
    by (unfold S0; rewrite length_replicate; lia).
  cbn [app] in Hplan. rewrite app_nil_r in Hplan.
  set (S2 := tabulate nn (fftw_scribble p S0)) in *.
  set (R2 := tabulate oc (fftw_scribble p (take oc lr)) ++ drop oc lr) in *.
  assert (HlR2 : length R2 = length lr)
    by (unfold R2; rewrite length_app, length_tabulate, length_drop; lia).
  (* memcpy *)
  assert (exists D, (<[r := R2]> h) !! d = Some D /\ length D = length ld
                    /\ (d <> r -> D = ld)) as (D & HD & HlD & HDsame).
  { destruct (decide (d = r)) as [->|Hdr].
    - exists R2. rewrite lookup_insert_eq. split; [done|].
      split; [|done]. rewrite HlR2. by simplify_eq.
    - exists ld. by rewrite lookup_insert_ne. }
  pose proof (memcpy_to_scratch h (mem - n * 8)
                [EvMalloc (n * 8) (Ptr s); EvPlan p (Some S0)]
                s r d S2 R2 D (n * 8) Hds HD) as Hcopy.
  rewrite Hk in Hcopy.
  specialize (Hcopy ltac:(lia)
                    ltac:(unfold S2; rewrite length_tabulate; lia)).
  rewrite (drop_ge S2) in Hcopy by (unfold S2; rewrite length_tabulate; lia).
  rewrite app_nil_r in Hcopy. cbn [app] in Hcopy.
  assert (HlS3 : length (take nn D) = nn) by (rewrite length_take; lia).
  (* execute *)
  pose proof (execute_on_scratch p h (mem - n * 8)
                [EvMalloc (n * 8) (Ptr s); EvPlan p (Some S0);
                 EvMemcpy (Ptr s) (Ptr d) (n * 8)]
                s r (take nn D) R2 eq_refl eq_refl Hsr) as Hexec.
  rewrite Hic, Hoc in Hexec.
  specialize (Hexec ltac:(lia) ltac:(lia)).
  rewrite (take_ge (take nn D)), (drop_ge (take nn D)) in Hexec by lia.
  rewrite app_nil_r in Hexec. cbn [app] in Hexec.
  exists D, (drop oc R2). split; [done|]. split; [done|].
  split; [rewrite length_drop; lia|]. intros bins. fold bins in Hexec.
  (* the entry point *)
  unfold run, cfft_r2c, fftw_plan_dft_r2c_1d.
  rewrite Hne, Hbytes.
  rewrite !bind_assoc, (bind_eq _ _ _ _ _ Hmalloc).
  fold (r2c_plan n (Ptr s) (Ptr r) opt). fold p.
  rewrite !bind_assoc, (bind_eq _ _ _ _ _ Hplan).
  rewrite !bind_assoc, (bind_eq _ _ _ _ _ Hcopy), bind_ret.
  cbn [fst snd is_null].
  rewrite (bind_eq _ _ _ _ _ Hexec).
  set (S4 := tabulate nn (fftw_clobber p (take nn D))).
  assert (HlS4 : mem - n * 8 + sizeof_double * Z.of_nat (length S4) = mem)
    by (unfold S4, sizeof_double; rewrite length_tabulate; lia).
  destruct (Z.eqb_spec herm 1) as [E1|E1].
  - rewrite herm_loop_indices.
    erewrite bind_eq; cycle 1.
    { apply herm_on_scratch; [done| |].
      - apply Forall_forall. intros i Hi. apply elem_of_herm_indices in Hi.
        pose proof (half_bounds n ltac:(lia)). lia.
      - unfold bins. rewrite length_app, length_tabulate, length_drop.
        specialize (Kherm E1). lia. }
    unfold fftw_destroy_plan. rewrite bind_log.
    rewrite free_scratch by (by rewrite lookup_insert_ne).
    by rewrite HlS4.
  - rewrite bind_ret. unfold fftw_destroy_plan. rewrite bind_log.
    rewrite free_scratch by (by rewrite lookup_insert_ne).
    by rewrite HlS4.
Qed.

(** ** Runs of the batched entry points *)

Lemma int_mul_ok a b : 0 <= a * b <= INT_MAX -> int_mul a b = ret (a * b).
Proof.
  intros H. unfold int_mul, in_int, INT_MIN, INT_MAX in *.
  destruct (Z.leb_spec (- 2 ^ 31) (a * b)); [|lia].
  destruct (Z.leb_spec (a * b) (2 ^ 31 - 1)); [done|lia].
Qed.

Lemma cmvfft_r2c_scratch_run n m d r opt h mem (ld lr : list cell) :
  0 < opt -> 1 <= n -> 1 <= m -> n * m <= INT_MAX ->
  h !! d = Some ld -> n * m <= Z.of_nat (length ld) ->
  h !! r = Some lr -> 2 * ((Z.quot n 2 + 1) * m) <= Z.of_nat (length lr) ->
  d <> r -> n * m * 8 <= mem ->
  let s := fresh (dom h) in
  let p := mv_r2c_plan n m (Ptr s) (Ptr r) opt in
  let nm := Z.to_nat (n * m) in
  let oc := Z.to_nat (2 * ((Z.quot n 2 + 1) * m)) in
  exists rest : list cell,
    length rest = (length lr - oc)%nat /\
    run (cmvfft_r2c n m (Ptr d) (Ptr r) opt) h mem
    = (Ok tt,
       MkState
         (<[r := tabulate oc (fun k => Some (fftw_kernel p (take nm ld) k))
                 ++ rest]> h)
         mem
         [EvMalloc (n * m * 8) (Ptr s); EvPlan p (Some (replicate nm None));
          EvMemcpy (Ptr s) (Ptr d) (n * m * 8);
          EvExecute p (Some (take nm ld)); EvDestroy p; EvFree (Ptr s)]).
Proof.
  intros Hopt Hn Hm Hnm Hd Kd Hr Kr Hdr Hmem s p nm oc.
  assert (Hpos : 0 <= n * m) by nia.
  assert (Hic : in_cells p = nm).
  { unfold p, mv_r2c_plan. rewrite in_cells_real by lia. unfold nm.
    f_equal. ring. }
  assert (Hoc : out_cells p = oc).
  { unfold p, mv_r2c_plan. rewrite out_cells_half by lia. unfold oc.
    f_equal. ring. }
  destruct (efforts_above opt Hopt) as [Hne Hfl].
  assert (Hbytes : size_mul (to_size_t (n * m)) sizeof_double = n * m * 8)
    by (apply scratch_bytes; unfold INT_MAX in *; lia).
  assert (Hk : Z.to_nat (n * m * 8 / sizeof_double) = nm)
    by (unfold sizeof_double; by rewrite Z.div_mul).
  pose proof (scratch_steps p h mem s r d ld lr nm nm
                (n * m * 8) (n * m * 8) eq_refl eq_refl eq_refl Hfl Hd Hr Hdr
                Hk Hk Hmem ltac:(lia) ltac:(lia) ltac:(lia) ltac:(lia))
    as Hsteps.
  cbv zeta in Hsteps. rewrite !Hic, !Hoc, !Nat.sub_diag in Hsteps.
  cbn [replicate] in Hsteps. rewrite !app_nil_r in Hsteps.
  rewrite !(drop_ge (tabulate nm _)) in Hsteps
    by (rewrite length_tabulate; lia).
  rewrite !app_nil_r in Hsteps.
  rewrite !(take_ge (take nm ld)), !(drop_ge (take nm ld)) in Hsteps
    by (rewrite length_take; lia).
  rewrite !app_nil_r in Hsteps.
  destruct Hsteps as (Hmalloc & Hplan & Hcopy & Hexec & HlS4 & HlR4 & Hs4).
  eexists. split; cycle 1.
  - unfold run, cmvfft_r2c, fftw_plan_many_dft_r2c.
    change (take (Z.to_nat 1) [n]) with [n].
    fold (mv_r2c_plan n m (Ptr s) (Ptr r) opt). fold p.
    rewrite Hne, (int_mul_ok n m) by lia.
    rewrite !bind_assoc, bind_ret, Hbytes.
    rewrite !bind_assoc, (bind_eq _ _ _ _ _ Hmalloc).
    fold (mv_r2c_plan n m (Ptr s) (Ptr r) opt). fold p.
    rewrite !bind_assoc, (bind_eq _ _ _ _ _ Hplan).
    rewrite !bind_assoc, bind_ret, Hbytes.
    rewrite !bind_assoc, (bind_eq _ _ _ _ _ Hcopy), bind_ret.
    cbn [fst snd is_null].
    rewrite (bind_eq _ _ _ _ _ Hexec).
    unfold fftw_destroy_plan. rewrite bind_log.
    rewrite free_scratch by done. cbn [app].
    rewrite HlS4. unfold sizeof_double. do 3 f_equal. lia.
  - rewrite length_drop, length_app, length_tabulate, length_drop. lia.
Qed.

Lemma cmvfft_c2r_scratch_run n m d r opt h mem (ld lr : list cell) :
  0 < opt -> 1 <= n -> 1 <= m -> n * m <= INT_MAX ->
  h !! d = Some ld -> 2 * n <= Z.of_nat (length ld) ->
  h !! r = Some lr -> n * m <= Z.of_nat (length lr) ->
  d <> r -> n * m * 16 <= mem ->
  let s := fresh (dom h) in
  let p := mv_c2r_plan n m (Ptr s) (Ptr r) opt in
  let ic := Z.to_nat (2 * ((Z.quot n 2 + 1) * m)) in
  let nm := Z.to_nat (n * m) in
  let n2 := Z.to_nat (2 * n) in
  let seen := take ic (take n2 ld
                       ++ drop n2 (tabulate ic
                                     (fftw_scribble p (replicate ic None))
                                   ++ replicate (2 * nm - ic) None)) in
  exists rest : list cell,
    length rest = (length lr - nm)%nat /\
    run (cmvfft_c2r n m (Ptr d) (Ptr r) opt) h mem
    = (Ok tt,
       MkState
         (<[r := tabulate nm (fun k => Some (fftw_kernel p seen k)) ++ rest]>
            h)
         mem
         [EvMalloc (n * m * 16) (Ptr s); EvPlan p (Some (replicate ic None));
          EvMemcpy (Ptr s) (Ptr d) (n * 16);
          EvExecute p (Some seen); EvDestroy p; EvFree (Ptr s)]).
Proof.
  intros Hopt Hn Hm Hnm Hd Kd Hr Kr Hdr Hmem s p ic nm n2 seen.
  assert (Hpos : 0 <= n * m) by nia.
  pose proof (half_bounds n Hn) as Hh.
  assert (Hic : in_cells p = ic).
  { unfold p, mv_c2r_plan. rewrite in_cells_half by lia. unfold ic.
    f_equal. ring. }
  assert (Hoc : out_cells p = nm).
  { unfold p, mv_c2r_plan. rewrite out_cells_real. unfold nm.
    f_equal. ring. }
  destruct (efforts_above opt Hopt) as [Hne Hfl].
  assert (Hb1 : size_mul (to_size_t (n * m)) sizeof_fftw_complex = n * m * 16)
    by (apply scratch_bytes; unfold INT_MAX in *; lia).
  assert (Hb2 : size_mul (to_size_t n) sizeof_fftw_complex = n * 16)
    by (apply scratch_bytes; unfold INT_MAX in *; nia).
  assert (Hk1 : Z.to_nat (n * m * 16 / sizeof_double) = (2 * nm)%nat).
  { unfold sizeof_double, nm.
    replace (n * m * 16) with (2 * (n * m) * 8) by ring.
    rewrite Z.div_mul by done. lia. }
  assert (Hk2 : Z.to_nat (n * 16 / sizeof_double) = n2).
  { unfold sizeof_double, n2. replace (n * 16) with (2 * n * 8) by ring.
    by rewrite Z.div_mul. }
  assert (Hcm : (Z.quot n 2 + 1) * m <= n * m)
    by (apply Z.mul_le_mono_nonneg_r; lia).
  assert (Hnm1 : n * 1 <= n * m) by (apply Z.mul_le_mono_nonneg_l; lia).
  assert (Kic : (ic <= 2 * nm)%nat) by (unfold ic, nm; lia).
  assert (Kn2 : (n2 <= 2 * nm)%nat) by (unfold n2, nm; lia).
  pose proof (scratch_steps p h mem s r d ld lr (2 * nm)%nat n2
                (n * m * 16) (n * 16) eq_refl eq_refl eq_refl Hfl Hd Hr Hdr
                Hk1 Hk2 Hmem ltac:(lia) ltac:(lia) ltac:(lia) ltac:(lia))
    as Hsteps.
  cbv zeta in Hsteps. rewrite !Hic, !Hoc in Hsteps. fold seen in Hsteps.
  destruct Hsteps as (Hmalloc & Hplan & Hcopy & Hexec & HlS4 & HlR4 & Hs4).
  eexists. split; cycle 1.
  - unfold run, cmvfft_c2r, fftw_plan_many_dft_c2r.
    change (take (Z.to_nat 1) [n]) with [n].
    fold (mv_c2r_plan n m (Ptr s) (Ptr r) opt). fold p.
    rewrite Hne, (int_mul_ok n m) by lia. rewrite Hb2.
    rewrite !bind_assoc, bind_ret, Hb1.
    rewrite !bind_assoc, (bind_eq _ _ _ _ _ Hmalloc).
    fold (mv_c2r_plan n m (Ptr s) (Ptr r) opt). fold p.
    rewrite !bind_assoc, (bind_eq _ _ _ _ _ Hplan).
    rewrite !bind_assoc, (bind_eq _ _ _ _ _ Hcopy), bind_ret.
    cbn [fst snd is_null].
    rewrite (bind_eq _ _ _ _ _ Hexec).
    unfold fftw_destroy_plan. rewrite bind_log.
    rewrite free_scratch by done. cbn [app].
    rewrite HlS4. unfold sizeof_double. do 3 f_equal. lia.
  - rewrite length_drop, length_app, length_tabulate, length_drop. lia.
Qed.

End Runs.

(** ** Traces, whatever the outcome *)

Lemma emits_ret {A} (a : A) : emits_quietly (ret a).
Proof. intros st. exists []. by rewrite app_nil_r. Qed.

Lemma emits_bind {A B} (c : M A) (k : A -> M B) :
  emits_quietly c -> (forall a, emits_quietly (k a)) ->
  emits_quietly (bind c k).
Proof.
  intros Hc Hk st. destruct (Hc st) as (e1 & E1 & Q1). unfold bind.
  destruct (c st) as [[a|] st1]; cbn [snd] in *.
  - destruct (Hk a st1) as (e2 & E2 & Q2). exists (e1 ++ e2).
    rewrite E2, E1, app_assoc. split; [done|]. by apply Forall_app.
  - by exists e1.
Qed.

Lemma emits_log e : quiet_event e -> emits_quietly (log e).
Proof. intros He st. exists [e]. split; [done|]. by apply Forall_singleton. Qed.

Lemma emits_read_cells p k : emits_quietly (read_cells p k).
Proof.
  intros st. exists []. rewrite app_nil_r. unfold read_cells.
  by destruct (snapshot _ _ _).
Qed.

Lemma emits_write_cells p l : emits_quietly (write_cells p l).
Proof.
  intros st. exists []. rewrite app_nil_r. unfold write_cells.
  by destruct (overwrite _ _ _).
Qed.



Lemma emits_free p : emits_quietly (free p).
Proof.
  unfold free. apply emits_bind; [by apply emits_log|]. intros _ st.
  exists []. rewrite app_nil_r. by repeat case_match.
Qed.



Lemma plan_signs_quiet evs : Forall quiet_event evs -> plan_signs evs = [].
Proof.
  induction 1 as [|e evs He _ IH]; [done|]. by destruct e.
Qed.

Lemma plan_signs_app t1 t2 :
  plan_signs (t1 ++ t2) = plan_signs t1 ++ plan_signs t2.
Proof. apply omap_app. Qed.

Lemma memcpy_shape dst src bytes h a t :
  exists o h',
    memcpy dst src bytes (MkState h a t)
    = (o, MkState h' a (t ++ [EvMemcpy dst src bytes])).
Proof.
  unfold memcpy. rewrite bind_log. unfold bind, read_cells, write_cells.
  cbn [heap avail trace].
  destruct (snapshot h src _) as [l|]; cbn [heap avail trace];
    [|eexists _, _; reflexivity].
  destruct (overwrite h dst l); eexists _, _; reflexivity.
Qed.


Section Shapes.
Context `{Lib : FFTW}.

Lemma make_plan_shape p h a t :
  exists o h',
    make_plan p (MkState h a t)
    = (o, MkState h' a (t ++ [EvPlan p (snapshot h (pl_in p) (in_cells p))]))
    /\ (o = Fault \/ o = Ok p).
Proof.
  unfold make_plan. cbn [heap]. rewrite bind_log.
  destruct (planner_overwrites _); [|eexists _, _; split; [done|by right]].
  unfold bind, read_cells, write_cells, ret. cbn [heap avail trace].
  repeat (case_match; simplify_eq/=);
    eexists _, _; (split; [done|]); auto.
Qed.

Lemma emits_execute p : emits_quietly (fftw_execute p).
Proof.
  intros st. unfold fftw_execute.
  refine (emits_bind _ _ _ _ st); [by apply emits_log|]. intros _.
  repeat first [apply emits_bind; [|intros ?] | apply emits_read_cells
               | apply emits_write_cells].
Qed.

Lemma emits_destroy p : emits_quietly (fftw_destroy_plan p).
Proof. by apply emits_log. Qed.


Lemma emits_after_copy' p data_copy :
  emits_quietly (fftw_execute p;; fftw_destroy_plan p;;
                 if is_null data_copy then ret tt else free data_copy).
Proof.
  apply emits_bind; [apply emits_execute|]. intros _.
  apply emits_bind; [apply emits_destroy|]. intros _.
  destruct (is_null data_copy); [apply emits_ret | apply emits_free].
Qed.

End Shapes.

(** ** Blocks a computation leaves alone *)

Lemma keeps_bind {A B} b (c : M A) (k : A -> M B) Q R :
  keeps_post b c Q -> (forall a, Q a -> keeps_post b (k a) R) ->
  keeps_post b (bind c k) R.
Proof.
  intros Hc Hk st l Hl. destruct (Hc st l Hl) as [H1 HQ]. unfold bind.
  destruct (c st) as [[a|] st1]; cbn [fst snd] in *.
  - apply (Hk a (HQ a eq_refl) st1 l H1).
  - split; [done|]. intros a [=].
Qed.

Lemma keeps_weaken {A} b (c : M A) (Q R : A -> Prop) :
  keeps_post b c Q -> (forall a, Q a -> R a) -> keeps_post b c R.
Proof.
  intros Hc HQR st l Hl. destruct (Hc st l Hl) as [H1 HQ].
  split; [done|]. intros a Ha. by apply HQR, HQ.
Qed.

Lemma keeps_ret {A} b (a : A) : keeps_post b (ret a) (fun x => x = a).
Proof. intros st l Hl. split; [done|]. by intros a' [= <-]. Qed.

Lemma keeps_fault {A} b (Q : A -> Prop) : keeps_post b fault Q.
Proof. intros st l Hl. split; [done|]. intros a [=]. Qed.

Lemma keeps_log b e : keeps_post b (log e) (fun _ => True).
Proof. intros st l Hl. by split. Qed.

Lemma keeps_int_mul b x y : keeps_post b (int_mul x y) (fun _ => True).
Proof.
  unfold int_mul. destruct (in_int _); [|apply keeps_fault].
  eapply keeps_weaken; [apply keeps_ret|done].
Qed.

Lemma keeps_read_cells b p k : keeps_post b (read_cells p k) (fun _ => True).
Proof.
  intros st l Hl. unfold read_cells. by destruct (snapshot _ _ _).
Qed.

Lemma keeps_write_cells b p new :
  p <> Ptr b -> keeps_post b (write_cells p new) (fun _ => True).
Proof.
  intros Hp st l Hl. unfold write_cells, overwrite.
  destruct p as [|b']; [done|].
  destruct (heap st !! b') as [l'|]; [|done].
  destruct (_ <=? _)%nat; [|done]. cbn [snd heap].
  split; [|done]. rewrite lookup_insert_ne; [done|congruence].
Qed.

Lemma keeps_load b p i : keeps_post b (load p i) (fun _ => True).
Proof. intros st l Hl. unfold load. by repeat case_match. Qed.

Lemma keeps_store b p i c :
  p <> Ptr b -> keeps_post b (store p i c) (fun _ => True).
Proof.
  intros Hp st l Hl. unfold store. repeat case_match; try done.
  cbn [snd heap]. split; [|done]. rewrite lookup_insert_ne; [done|congruence].
Qed.

Lemma keeps_malloc b bytes : keeps_post b (malloc bytes) (fun p => p <> Ptr b).
Proof.
  intros st l Hl. unfold malloc. destruct (_ <=? _); cbn [fst snd heap].
  - pose proof (fresh_block_ne _ _ _ Hl) as Hne.
    split; [by rewrite lookup_insert_ne|]. intros a [= <-]. congruence.
  - split; [done|]. by intros a [= <-].
Qed.

Lemma keeps_memcpy b dst src bytes :
  dst <> Ptr b -> keeps_post b (memcpy dst src bytes) (fun _ => True).
Proof.
  intros Hd. unfold memcpy.
  eapply keeps_bind; [apply keeps_log|]. intros _ _.
  eapply keeps_bind; [apply keeps_read_cells|]. intros cells _.
  by apply keeps_write_cells.
Qed.

Lemma keeps_free b p : p <> Ptr b -> keeps_post b (free p) (fun _ => True).
Proof.
  intros Hp. unfold free.
  eapply keeps_bind; [apply keeps_log|]. intros _ _ st l Hl.
  repeat case_match; try done. cbn [snd heap]. split; [|done].
  rewrite lookup_delete_ne; [done|congruence].
Qed.

Lemma keeps_herm_loop b k : forall n res i,
  res <> Ptr b -> keeps_post b (herm_loop k n res i) (fun _ => True).
Proof.
  induction k as [|k IH]; intros n res i Hres; cbn [herm_loop].
  - eapply keeps_weaken; [apply keeps_ret|done].
  - eapply keeps_bind; [|intros _ _; by apply IH]. unfold herm_body.
    eapply keeps_bind; [apply keeps_load|]. intros re _.
    eapply keeps_bind; [by apply keeps_store|]. intros _ _.
    eapply keeps_bind; [apply keeps_load|]. intros im _.
    by apply keeps_store.
Qed.

Section Frames.
Context `{Lib : FFTW}.

Lemma keeps_make_plan b p :
  pl_in p <> Ptr b -> pl_out p <> Ptr b ->
  keeps_post b (make_plan p) (fun a => a = p).
Proof.
  intros Hi Ho st l Hl. unfold make_plan.
  refine (keeps_bind b _ _ (fun _ => True) _ (keeps_log b _) _ st l Hl).
  intros _ _. destruct (planner_overwrites _); [|apply keeps_ret].
  eapply keeps_bind; [apply keeps_read_cells|]. intros i _.
  eapply keeps_bind; [by apply keeps_write_cells|]. intros _ _.
  eapply keeps_bind; [apply keeps_read_cells|]. intros o _.
  eapply keeps_bind; [by apply keeps_write_cells|]. intros _ _.
  apply keeps_ret.
Qed.

Lemma keeps_execute b p :
  pl_in p <> Ptr b -> pl_out p <> Ptr b ->
  keeps_post b (fftw_execute p) (fun _ => True).
Proof.
  intros Hi Ho st l Hl. unfold fftw_execute.
  refine (keeps_bind b _ _ (fun _ => True) _ (keeps_log b _) _ st l Hl).
  intros _ _.
  eapply keeps_bind; [apply keeps_read_cells|]. intros i _.
  eapply keeps_bind; [by apply keeps_write_cells|]. intros _ _.
  by apply keeps_write_cells.
Qed.

(** What follows the scratch-copy branch leaves every block but the
    scratch and the output block alone. *)
Lemma keeps_after_copy b p (mid : M unit) data_copy :
  pl_in p = data_copy -> data_copy <> Ptr b -> pl_out p <> Ptr b ->
  keeps_post b mid (fun _ => True) ->
  keeps_post b (fftw_execute p;; mid;; fftw_destroy_plan p;;
                if is_null data_copy then ret tt else free data_copy)
             (fun _ => True).
Proof.
  intros Hi Hdc Ho Hmid.
  eapply keeps_bind; [apply keeps_execute; congruence|]. intros _ _.
  eapply keeps_bind; [exact Hmid|]. intros _ _.
  eapply keeps_bind; [apply keeps_log|]. intros _ _.
  destruct (is_null data_copy); [|by apply keeps_free].
  eapply keeps_weaken; [apply keeps_ret|done].
Qed.

Lemma cfft_r2c_keeps_input n d res herm opt :
  0 < opt -> res <> Ptr d ->
  keeps_post d (cfft_r2c n (Ptr d) res herm opt) (fun _ => True).
Proof.
  intros Hopt Hres. destruct (efforts_above opt Hopt) as [Hne _].
  unfold cfft_r2c, fftw_plan_dft_r2c_1d. rewrite Hne.
  eapply keeps_bind with
    (Q := fun pd => pl_in (fst pd) = snd pd /\ snd pd <> Ptr d
                    /\ pl_out (fst pd) = res).
  - eapply keeps_bind; [apply keeps_malloc|]. intros dc Hdc.
    eapply keeps_bind; [by apply keeps_make_plan|]. intros p ->.
    eapply keeps_bind; [by apply keeps_memcpy|]. intros _ _.
    eapply keeps_weaken; [apply keeps_ret|]. by intros pd ->.
  - intros [p dc] (Hi & Hdc & Ho). cbn [fst snd] in *.
    pose proof (keeps_after_copy d p
                  (if herm =? 1
                   then herm_loop (Z.to_nat (n - (Z.quot n 2 + 1))) n res
                          (Z.quot n 2 + 1)
                   else ret tt) dc Hi Hdc ltac:(congruence)) as Hrest.
    unfold fftw_destroy_plan in *. apply Hrest.
    destruct (herm =? 1); [by apply keeps_herm_loop|].
    eapply keeps_weaken; [apply keeps_ret|done].
Qed.

Lemma cmvfft_r2c_keeps_input n m d res opt :
  0 < opt -> res <> Ptr d ->
  keeps_post d (cmvfft_r2c n m (Ptr d) res opt) (fun _ => True).
Proof.
  intros Hopt Hres. destruct (efforts_above opt Hopt) as [Hne _].
  unfold cmvfft_r2c, fftw_plan_many_dft_r2c. rewrite Hne.
  eapply keeps_bind with
    (Q := fun pd => pl_in (fst pd) = snd pd /\ snd pd <> Ptr d
                    /\ pl_out (fst pd) = res).
  - eapply keeps_bind; [apply keeps_int_mul|]. intros nm _.
    eapply keeps_bind; [apply keeps_malloc|]. intros dc Hdc.
    eapply keeps_bind; [by apply keeps_make_plan|]. intros p ->.
    eapply keeps_bind; [apply keeps_int_mul|]. intros nm' _.
    eapply keeps_bind; [by apply keeps_memcpy|]. intros _ _.
    eapply keeps_weaken; [apply keeps_ret|]. by intros pd ->.
  - intros [p dc] (Hi & Hdc & Ho). cbn [fst snd] in *.
    eapply keeps_bind; [apply keeps_execute; congruence|]. intros _ _.
    eapply keeps_bind; [apply keeps_log|]. intros _ _.
    destruct (is_null dc); [|by apply keeps_free].
    eapply keeps_weaken; [apply keeps_ret|done].
Qed.

End Frames.

Lemma plan_signs_then_quiet {A} (c : M A) st :
  emits_quietly c ->
  plan_signs (trace (snd (c st))) = plan_signs (trace st).
Proof.
  intros Hc. destruct (Hc st) as (evs & -> & Hq).
  by rewrite plan_signs_app, (plan_signs_quiet evs Hq), app_nil_r.
Qed.

Lemma lookup_tabulate {A} k (f : nat -> A) j :
  (j < k)%nat -> tabulate k f !! j = Some (f j).
Proof.
  intros Hj. unfold tabulate. rewrite list_lookup_fmap.
  by rewrite lookup_seq_lt.
Qed.

(** When the half spectrum holds written values [f], the fill leaves in
    every upper element the written conjugate of its mirror, and the
    mirror is still the value of the half spectrum. *)
Lemma herm_fill_written n (bins : list cell) (f : nat -> float) i :
  1 <= n -> 2 * n <= Z.of_nat (length bins) ->
  (forall j, (j < Z.to_nat (2 * (Z.quot n 2 + 1)))%nat ->
     bins !! j = Some (Some (f j))) ->
  Z.quot n 2 + 1 <= i < n ->
  let out := foldl (herm_step n) bins (herm_indices n) in
  complex_at out (n - i)
  = Some (Some (f (Z.to_nat (2 * (n - i)))),
          Some (f (Z.to_nat (2 * (n - i) + 1)))) /\
  complex_at out i
  = Some (Some (f (Z.to_nat (2 * (n - i)))),
          Some (opp (f (Z.to_nat (2 * (n - i) + 1))))).
Proof.
  intros Hn Hlen Hf Hi out.
  pose proof (half_bounds n Hn) as Hh.
  assert (Hidx : Forall (fun i => Z.quot n 2 + 1 <= i < n) (herm_indices n))
    by (apply Forall_forall; intros j Hj; by apply elem_of_herm_indices).
  destruct (herm_fill_pointwise n bins (herm_indices n) bins Hn Hlen Hidx
              (keeps_half_refl _ _)) as ((_ & Hlow) & Hw & _).
  destruct (Hw i (proj2 (elem_of_herm_indices n i) Hi)) as [Hre Him].
  fold out in Hlow, Hre, Him.
  assert (Hb1 : bins !! Z.to_nat (2 * (n - i))
                = Some (Some (f (Z.to_nat (2 * (n - i))))))
    by (apply Hf; lia).
  assert (Hb2 : bins !! Z.to_nat (2 * (n - i) + 1)
                = Some (Some (f (Z.to_nat (2 * (n - i) + 1)))))
    by (apply Hf; lia).
  split.
  - unfold complex_at. destruct (Z.ltb_spec (n - i) 0); [lia|].
    rewrite !Hlow by lia. by rewrite Hb1, Hb2.
  - unfold complex_at. destruct (Z.ltb_spec i 0); [lia|].
    by rewrite Hre, Him, Hb1, Hb2.
Qed.

(** * The claims *)

(** C8: the effort-level mapper is a total function of the integer code:
    a code below or equal to zero gives fastest-guess ([FFTW_ESTIMATE]),
    1 gives measure, 2 gives patient and every other code, so every code
    from 3 on, gives exhaustive; the result always is one of the four
    tiers. *)
Theorem fftw_efforts_mapping (c : Z) :
  (c <= 0 -> fftw_efforts c = FFTW_ESTIMATE
             /\ effort_of_flag (fftw_efforts c) = Some FastestGuess) /\
  (c = 1 -> fftw_efforts c = FFTW_MEASURE
            /\ effort_of_flag (fftw_efforts c) = Some Measure) /\
  (c = 2 -> fftw_efforts c = FFTW_PATIENT
            /\ effort_of_flag (fftw_efforts c) = Some Patient) /\
  (3 <= c -> fftw_efforts c = FFTW_EXHAUSTIVE
             /\ effort_of_flag (fftw_efforts c) = Some Exhaustive) /\
  is_Some (effort_of_flag (fftw_efforts c)).
Proof.
  unfold fftw_efforts.
  destruct (Z.leb_spec c 0); [|destruct (Z.eqb_spec c 1);
                               [|destruct (Z.eqb_spec c 2)]];
    repeat split; intros; first [lia | done | by eexists].
Qed.

Lemma fftw_efforts_mapping_witness :
  fftw_efforts (-4) = FFTW_ESTIMATE /\ fftw_efforts 1 = FFTW_MEASURE /\
  fftw_efforts 2 = FFTW_PATIENT /\ fftw_efforts 9 = FFTW_EXHAUSTIVE.
Proof.
  split; [apply (fftw_efforts_mapping (-4)); lia|].
  split; [apply (fftw_efforts_mapping 1); lia|].
  split; [apply (fftw_efforts_mapping 2); lia|].
  apply (fftw_efforts_mapping 9); lia.
Defined.

(** C10: in the conjugate fill of [cfft_r2c], for every [n >= 1] the loop
    visits exactly the indices [i] with [n/2+1 <= i < n]; the element it
    reads, [n - i], lies in [1, n/2] and is never one the loop writes;
    on an output array of [n] complex elements the loop runs without a
    fault, and visiting the same indices in any other order leaves the
    same state. *)
Theorem herm_loop_reads_lower_half (n : Z) :
  1 <= n ->
  let nc := Z.quot n 2 + 1 in
  (forall i, i ∈ herm_indices n <-> nc <= i < n) /\
  (forall i, nc <= i < n ->
     1 <= n - i <= Z.quot n 2 /\ (n - i) ∉ herm_indices n) /\
  (forall h a t b (buf : list cell) (l : list Z),
     h !! b = Some buf -> 2 * n <= Z.of_nat (length buf) ->
     l ≡ₚ herm_indices n ->
     herm_loop (Z.to_nat (n - nc)) n (Ptr b) nc (MkState h a t)
     = (Ok tt,
        MkState (<[b := foldl (herm_step n) buf (herm_indices n)]> h) a t) /\
     herm_fold n (Ptr b) l (MkState h a t)
     = herm_loop (Z.to_nat (n - nc)) n (Ptr b) nc (MkState h a t)).
Proof.
  intros Hn nc. pose proof (half_bounds n Hn) as Hh.
  split; [apply elem_of_herm_indices|]. split.
  - intros i Hi. split; [unfold nc in Hi; lia|].
    rewrite elem_of_herm_indices. unfold nc in Hi. lia.
  - intros h a t b buf l Hb Hlen Hperm.
    assert (Hpos : forall l', (forall i, i ∈ l' -> i ∈ herm_indices n) ->
                     Forall (fun i => 0 < i < n) l').
    { intros l' Hl'. apply Forall_forall. intros i Hi.
      apply Hl', elem_of_herm_indices in Hi. lia. }
    assert (Hrun : herm_loop (Z.to_nat (n - nc)) n (Ptr b) nc (MkState h a t)
            = (Ok tt,
               MkState (<[b := foldl (herm_step n) buf (herm_indices n)]> h)
                       a t)).
    { unfold nc. rewrite herm_loop_indices.
      apply herm_fold_ok; [by apply Hpos|done|done]. }
    split; [done|]. rewrite Hrun.
    rewrite (herm_fold_ok n b l h a t buf); [|apply Hpos|done|done].
    + do 3 f_equal. apply herm_fill_order; [done|done| |].
      * apply Forall_forall. intros i Hi. apply elem_of_herm_indices.
        by rewrite <- Hperm.
      * intros i. by rewrite Hperm.
    + intros i Hi. by rewrite <- Hperm.
Qed.

Lemma herm_loop_reads_lower_half_witness :
  [4; 3] ≡ₚ herm_indices 5 /\
  herm_fold 5 (Ptr 1%positive) [4; 3]
    (MkState {[ 1%positive := replicate 10 (Some one) ]} 0 [])
  = herm_loop 2 5 (Ptr 1%positive) 3
      (MkState {[ 1%positive := replicate 10 (Some one) ]} 0 []).
Proof.
  assert (Hp : [4; 3] ≡ₚ herm_indices 5) by apply Permutation_swap.
  split; [exact Hp|].
  destruct (herm_loop_reads_lower_half 5 ltac:(lia)) as (_ & _ & H).
  apply (H {[ 1%positive := replicate 10 (Some one) ]} 0 [] 1%positive
           (replicate 10 (Some one)) [4; 3]);
    [reflexivity | simpl; lia | exact Hp].
Defined.

(** C5: with an effort above fastest-guess, [cfft_r2c] and [cmvfft_r2c]
    leave the caller's input block exactly as it was, whatever the
    outcome of the call: the planner and the executor only ever get the
    scratch block and the output block. The output array is a block of
    its own (not the input block). *)
Theorem scratch_copy_keeps_input n m d (res : ptr) herm opt h mem
    (ld : list cell) `{Lib : FFTW} :
  0 < opt -> res <> Ptr d -> h !! d = Some ld ->
  heap (snd (run (cfft_r2c n (Ptr d) res herm opt) h mem)) !! d = Some ld /\
  heap (snd (run (cmvfft_r2c n m (Ptr d) res opt) h mem)) !! d = Some ld.
Proof.
  intros Hopt Hres Hd. split.
  - by apply (cfft_r2c_keeps_input n d res herm opt Hopt Hres
                (MkState h mem []) ld).
  - by apply (cmvfft_r2c_keeps_input n m d res opt Hopt Hres
                (MkState h mem []) ld).
Qed.

Lemma scratch_copy_keeps_input_witness :
  fst (run (cfft_r2c (Lib := copy_fftw) 4 (Ptr 1%positive) (Ptr 2%positive)
              1 1) demo_heap 100) = Ok tt /\
  heap (snd (run (cfft_r2c (Lib := copy_fftw) 4 (Ptr 1%positive)
                    (Ptr 2%positive) 1 1) demo_heap 100)) !! 1%positive
  = Some [Some 1%float; Some 0%float; Some 2%float; Some 0%float] /\
  heap (snd (run (cmvfft_r2c (Lib := copy_fftw) 2 2 (Ptr 1%positive)
                    (Ptr 2%positive) 1) demo_heap 100)) !! 1%positive
  = Some [Some 1%float; Some 0%float; Some 2%float; Some 0%float].
Proof.
  split; [vm_compute; reflexivity|].
  apply (scratch_copy_keeps_input 4 2 1%positive (Ptr 2%positive) 1 1
           demo_heap 100
           [Some 1%float; Some 0%float; Some 2%float; Some 0%float]
           (Lib := copy_fftw));
    [lia | discriminate | reflexivity].
Defined.

(** C2, as the code has it: with an effort above fastest-guess, when the
    scratch allocation fails [cfft_r2c] does not notice: it makes the plan
    all the same, handing the planner the null pointer as input array;
    the call faults there, so nothing is copied and no plan is run. *)
Theorem alloc_failure_reaches_planner n data res herm opt h mem
    `{Lib : FFTW} :
  0 < opt -> mem < size_mul (to_size_t n) sizeof_double ->
  run (cfft_r2c n data res herm opt) h mem
  = (Fault,
     MkState h mem
       [EvMalloc (size_mul (to_size_t n) sizeof_double) NULL;
        EvPlan (r2c_plan n NULL res opt) None]).
Proof.
  intros Hopt Hmem. destruct (efforts_above opt Hopt) as [Hne Hfl].
  unfold run, cfft_r2c, fftw_plan_dft_r2c_1d. rewrite Hne.
  rewrite !bind_assoc, (bind_eq _ _ _ _ _ (malloc_fail h mem [] _ Hmem)).
  fold (r2c_plan n NULL res opt).
  rewrite !bind_assoc.
  by rewrite (bind_eq _ _ _ _ _
                (make_plan_null (r2c_plan n NULL res opt) h mem _ Hfl eq_refl)).
Qed.

Lemma alloc_failure_reaches_planner_witness :
  run (cfft_r2c (Lib := copy_fftw) 4 (Ptr 1%positive) (Ptr 2%positive) 0 1)
      demo_heap 0
  = (Fault,
     MkState demo_heap 0
       [EvMalloc 32 NULL;
        EvPlan (r2c_plan 4 NULL (Ptr 2%positive) 1) None]).
Proof.
  apply (alloc_failure_reaches_planner 4 (Ptr 1%positive) (Ptr 2%positive)
           0 1 demo_heap 0 (Lib := copy_fftw)); [lia | vm_compute; reflexivity].
Defined.

(** C2, as stated, fails: [malloc] returns [NULL] and the planner is
    called nevertheless. *)
Lemma alloc_failure_not_detected :
  In (EvMalloc 32 NULL)
     (trace (snd (run (cfft_r2c (Lib := copy_fftw) 4 (Ptr 1%positive)
                         (Ptr 2%positive) 0 1) demo_heap 0))) /\
  ~ no_planning
      (trace (snd (run (cfft_r2c (Lib := copy_fftw) 4 (Ptr 1%positive)
                          (Ptr 2%positive) 0 1) demo_heap 0))).
Proof.
  assert (E : trace (snd (run (cfft_r2c (Lib := copy_fftw) 4 (Ptr 1%positive)
                                 (Ptr 2%positive) 0 1) demo_heap 0))
              = [EvMalloc 32 NULL;
                 EvPlan (r2c_plan 4 NULL (Ptr 2%positive) 1) None])
    by (vm_compute; reflexivity).
  rewrite E. split; [by left|].
  intros H. apply (H (EvPlan (r2c_plan 4 NULL (Ptr 2%positive) 1) None)).
  right. by left.
Qed.

Section Order.
Context `{Lib : FFTW}.


End Order.



(** C9: in each complex-to-complex entry point the direction flag picks
    the sign of the plan: a true flag plans the backward transform, a false
    flag the forward one. ([cmvfft_c2c] makes no plan at all when [n * m]
    overflows [int] on its scratch-copy branch.) *)
Theorem direction_flag_selects_sign `{Lib : FFTW} (inverse : bool)
    n nx ny nz r dims m data res opt h mem :
  plan_signs (trace (snd (run (cfft_c2c n data res (Z.b2z inverse)) h mem)))
  = [direction inverse] /\
  plan_signs (trace (snd (run (cfft_c2c_2d nx ny data res (Z.b2z inverse))
                            h mem)))
  = [direction inverse] /\
  plan_signs (trace (snd (run (cfft_c2c_3d nx ny nz data res
                                 (Z.b2z inverse)) h mem)))
  = [direction inverse] /\
  plan_signs (trace (snd (run (cfft_c2c_xd r dims data res (Z.b2z inverse))
                            h mem)))
  = [direction inverse] /\
  (plan_signs (trace (snd (run (cmvfft_c2c n m data res (Z.b2z inverse) opt)
                             h mem)))
   = [direction inverse]
   \/ in_int (n * m) = false
      /\ run (cmvfft_c2c n m data res (Z.b2z inverse) opt) h mem
         = (Fault, MkState h mem [])).
Proof.
  assert (Hsign : (if Z.b2z inverse =? 1 then FFTW_BACKWARD else FFTW_FORWARD)
                  = direction inverse) by (by destruct inverse).
  assert (Hsimple : forall p,
            pl_flags p = Z.lor FFTW_DESTROY_INPUT FFTW_ESTIMATE ->
            pl_kind p = C2C (direction inverse) ->
            plan_signs
              (trace (snd ((let* p' := make_plan p in
                            fftw_execute p';; fftw_destroy_plan p')
                             (MkState h mem []))))
            = [direction inverse]).
  { intros p Hf Hk.
    rewrite (bind_eq _ _ _ _ _
               (make_plan_estimate p h mem [] ltac:(by rewrite Hf))).
    rewrite plan_signs_then_quiet.
    - cbn. by rewrite Hk.
    - apply emits_bind; [apply emits_execute|]. intros _. apply emits_destroy. }
  unfold run, cfft_c2c, cfft_c2c_2d, cfft_c2c_3d, cfft_c2c_xd, cmvfft_c2c.
  rewrite Hsign.
  do 4 (split; [by apply Hsimple|]).
  unfold fftw_plan_many_dft. change (take (Z.to_nat 1) [n]) with [n].
  destruct (Z.leb_spec opt 0) as [Hopt|Hopt].
  - left. rewrite (efforts_estimate opt Hopt), Z.eqb_refl.
    rewrite bind_assoc.
    match goal with
    | |- context [make_plan ?p] =>
        rewrite (bind_eq _ _ _ _ _ (make_plan_estimate p h mem [] eq_refl))
    end.
    rewrite bind_ret. cbn [fst snd is_null].
    rewrite plan_signs_then_quiet; [done|].
    apply (emits_after_copy' _ NULL).
  - destruct (efforts_above opt Hopt) as [Hne Hfl]. rewrite Hne.
    unfold int_mul. destruct (in_int (n * m)); [left|right; by cbn].
    rewrite !bind_assoc, bind_ret.
    destruct (Z.leb_spec (size_mul (to_size_t (n * m)) sizeof_fftw_complex)
                mem) as [Hmem|Hmem].
    + rewrite !bind_assoc, (bind_eq _ _ _ _ _ (malloc_ok h mem [] _ Hmem)).
      set (s := fresh (dom h)). rewrite !bind_assoc.
      match goal with
      | |- context [bind (make_plan ?p) _ (MkState ?h' ?a' ?t')] =>
          destruct (make_plan_shape p h' a' t') as (o & h1 & E1 & Ho)
      end.
      rewrite (bind_eq _ _ _ _ _ E1).
      destruct Ho as [-> | ->]; [done|]. rewrite !bind_assoc.
      match goal with
      | |- context [bind (memcpy ?d' ?s' ?b') _ (MkState ?h' ?a' ?t')] =>
          destruct (memcpy_shape d' s' b' h' a' t') as (o & h2 & E2)
      end.
      rewrite (bind_eq _ _ _ _ _ E2).
      destruct o as [[]|]; [|done].
      rewrite bind_ret. rewrite plan_signs_then_quiet; [done|].
      apply emits_after_copy'.
    + rewrite !bind_assoc, (bind_eq _ _ _ _ _ (malloc_fail h mem [] _ Hmem)).
      rewrite !bind_assoc.
      match goal with
      | |- context [make_plan ?p] =>
          by rewrite (bind_eq _ _ _ _ _
                        (make_plan_null p h mem _ Hfl eq_refl))
      end.
Qed.

(** C4: a call of [cfft_r2c] with the reconstruction flag set, on an
    input of [n] reals and an output array of [n] complex elements (and,
    above fastest-guess, enough memory for the scratch copy), returns, and
    afterwards every output element [i] with [n/2+1 <= i < n] is the
    conjugate of element [n - i]: both elements hold written values, the
    real parts are the same and the imaginary part of element [i] is the
    negated imaginary part of element [n - i]. The mirrored element
    [n - i] is the one the transform put there: the transform of the [n]
    reals [seen] it ran on, which are the caller's unless the call is in
    place with an effort above fastest-guess. *)
Theorem cfft_r2c_conjugate_fill `{Lib : FFTW} n d r opt h mem
    (ld lr : list cell) :
  1 <= n <= INT_MAX ->
  h !! d = Some ld -> n <= Z.of_nat (length ld) ->
  h !! r = Some lr -> 2 * n <= Z.of_nat (length lr) ->
  (0 < opt -> n * 8 <= mem) ->
  let p := r2c_plan n (if opt <=? 0 then Ptr d else Ptr (fresh (dom h)))
             (Ptr r) opt in
  exists st' out seen,
    run (cfft_r2c n (Ptr d) (Ptr r) 1 opt) h mem = (Ok tt, st') /\
    heap st' !! r = Some out /\
    length seen = Z.to_nat n /\
    (d <> r \/ opt <= 0 -> seen = take (Z.to_nat n) ld) /\
    forall i, Z.quot n 2 + 1 <= i < n ->
      let re := fftw_kernel p seen (Z.to_nat (2 * (n - i))) in
      let im := fftw_kernel p seen (Z.to_nat (2 * (n - i) + 1)) in
      complex_at out (n - i) = Some (Some re, Some im) /\
      complex_at out i = Some (Some re, Some (opp im)) /\
      complex_at out i = conj <$> complex_at out (n - i).
Proof.
  intros Hn Hd Kd Hr Kr Hmem p.
  pose proof (half_bounds n ltac:(lia)) as Hh.
  assert (Hfill : forall (bins : list cell) (f : nat -> float),
            2 * n <= Z.of_nat (length bins) ->
            (forall j, (j < Z.to_nat (2 * (Z.quot n 2 + 1)))%nat ->
               bins !! j = Some (Some (f j))) ->
            forall i, Z.quot n 2 + 1 <= i < n ->
              let out := foldl (herm_step n) bins (herm_indices n) in
              complex_at out (n - i)
              = Some (Some (f (Z.to_nat (2 * (n - i)))),
                      Some (f (Z.to_nat (2 * (n - i) + 1)))) /\
              complex_at out i
              = Some (Some (f (Z.to_nat (2 * (n - i)))),
                      Some (opp (f (Z.to_nat (2 * (n - i) + 1))))) /\
              complex_at out i = conj <$> complex_at out (n - i)).
  { intros bins f Hlb Hf i Hi out.
    destruct (herm_fill_written n bins f i ltac:(lia) Hlb Hf Hi) as [Hm Hu].
    fold out in Hm, Hu. split; [done|]. split; [done|].
    by rewrite Hu, Hm. }
  destruct (Z.leb_spec opt 0) as [Hopt|Hopt].
  - destruct (cfft_r2c_estimate_run n d r 1 opt h mem ld lr Hopt ltac:(lia)
                Hd Kd Hr ltac:(lia) ltac:(done))
      as (lr' & Hlen & _ & Hrun).
    cbv zeta in Hrun. rewrite Z.eqb_refl in Hrun.
    eexists _, _. exists (take (Z.to_nat n) ld).
    split; [exact Hrun|]. cbn [heap].
    split; [apply lookup_insert_eq|].
    split; [rewrite length_take; lia|]. split; [done|].
    intros i Hi. cbv zeta. apply Hfill; [| |exact Hi].
    + rewrite length_app, length_tabulate, length_drop. lia.
    + intros j Hj. rewrite lookup_app_l by (by rewrite length_tabulate).
      by rewrite lookup_tabulate.
  - destruct (cfft_r2c_scratch_run n d r 1 opt h mem ld lr Hopt Hn Hd Kd Hr
                ltac:(lia) ltac:(done) (Hmem Hopt))
      as (D & rest & HlD & HD & Hrest & Hrun).
    cbv zeta in Hrun. rewrite Z.eqb_refl in Hrun.
    eexists _, _. exists (take (Z.to_nat n) D).
    split; [exact Hrun|]. cbn [heap].
    split; [apply lookup_insert_eq|].
    split; [rewrite length_take; lia|].
    split; [intros [Hdr|Ho]; [by rewrite (HD Hdr)|lia]|].
    intros i Hi. cbv zeta. apply Hfill; [| |exact Hi].
    + rewrite length_app, length_tabulate, Hrest. lia.
    + intros j Hj. rewrite lookup_app_l by (by rewrite length_tabulate).
      by rewrite lookup_tabulate.
Qed.

Lemma cfft_r2c_conjugate_fill_witness :
  exists st' out seen,
    run (cfft_r2c (Lib := copy_fftw) 4 (Ptr 1%positive) (Ptr 2%positive) 1 1)
        demo_heap 100 = (Ok tt, st') /\
    heap st' !! 2%positive = Some out /\
    length seen = 4%nat /\
    (1%positive <> 2%positive \/ 1 <= 0 ->
     seen = [Some 1%float; Some 0%float; Some 2%float; Some 0%float]) /\
    forall i, Z.quot 4 2 + 1 <= i < 4 ->
      let re := fftw_kernel (FFTW := copy_fftw)
                  (r2c_plan 4 (Ptr 3%positive) (Ptr 2%positive) 1) seen
                  (Z.to_nat (2 * (4 - i))) in
      let im := fftw_kernel (FFTW := copy_fftw)
                  (r2c_plan 4 (Ptr 3%positive) (Ptr 2%positive) 1) seen
                  (Z.to_nat (2 * (4 - i) + 1)) in
      complex_at out (4 - i) = Some (Some re, Some im) /\
      complex_at out i = Some (Some re, Some (opp im)) /\
      complex_at out i = conj <$> complex_at out (4 - i).
Proof.
  apply (cfft_r2c_conjugate_fill (Lib := copy_fftw) 4 1%positive 2%positive 1
           demo_heap 100
           [Some 1%float; Some 0%float; Some 2%float; Some 0%float]
           (replicate 8 None));
    [vm_compute; split; discriminate | reflexivity | simpl; lia
    | reflexivity | simpl; lia | lia].
Defined.

(** C6: for a batch of [m > 1] signals and an effort above
    fastest-guess, [cmvfft_c2r] allocates a scratch array of [n * m]
    complex elements and copies [n] complex elements of the caller's
    input into it; the transform then runs on [2 * (n/2+1) * m] doubles
    of which only the first [2 * n] are the caller's: the others are what
    the planner left in memory that was never written. *)
Theorem cmvfft_c2r_copies_one_signal `{Lib : FFTW} n m d r opt h mem
    (ld lr : list cell) :
  0 < opt -> 1 <= n -> 1 < m -> n * m <= INT_MAX ->
  h !! d = Some ld ->
  2 * ((Z.quot n 2 + 1) * m) <= Z.of_nat (length ld) ->
  h !! r = Some lr -> n * m <= Z.of_nat (length lr) ->
  d <> r -> n * m * 16 <= mem ->
  let s := fresh (dom h) in
  let p := mv_c2r_plan n m (Ptr s) (Ptr r) opt in
  let ic := Z.to_nat (2 * ((Z.quot n 2 + 1) * m)) in
  let n2 := Z.to_nat (2 * n) in
  let seen := take n2 ld
              ++ drop n2 (tabulate ic (fftw_scribble p (replicate ic None))) in
  (n2 < ic)%nat /\ length seen = ic /\
  exists out,
    run (cmvfft_c2r n m (Ptr d) (Ptr r) opt) h mem
    = (Ok tt,
       MkState (<[r := out]> h) mem
         [EvMalloc (n * m * 16) (Ptr s); EvPlan p (Some (replicate ic None));
          EvMemcpy (Ptr s) (Ptr d) (n * 16); EvExecute p (Some seen);
          EvDestroy p; EvFree (Ptr s)]).
Proof.
  intros Hopt Hn Hm Hnm Hd Kd Hr Kr Hdr Hmem s p ic n2 seen.
  pose proof (half_bounds n Hn) as Hh.
  assert (Hcm : (Z.quot n 2 + 1) * 2 <= (Z.quot n 2 + 1) * m)
    by (apply Z.mul_le_mono_nonneg_l; lia).
  assert (Hlt : (n2 < ic)%nat) by (unfold n2, ic; lia).
  assert (Hseen : length seen = ic).
  { unfold seen. rewrite length_app, length_take, length_drop, length_tabulate.
    lia. }
  split; [done|]. split; [done|].
  destruct (cmvfft_c2r_scratch_run n m d r opt h mem ld lr Hopt Hn
              ltac:(lia) Hnm Hd ltac:(lia) Hr Kr Hdr Hmem)
    as (rest & _ & Hrun).
  cbv zeta in Hrun. fold s p ic n2 in Hrun.
  assert (Hsame : take ic
                    (take n2 ld
                     ++ drop n2 (tabulate ic
                                   (fftw_scribble p (replicate ic None))
                                 ++ replicate (2 * Z.to_nat (n * m) - ic) None))
                  = seen).
  { rewrite drop_app_le by (rewrite length_tabulate; lia).
    rewrite app_assoc. fold seen.
    by rewrite take_app_length' by done. }
  rewrite Hsame in Hrun. eexists. exact Hrun.
Qed.

Lemma cmvfft_c2r_copies_one_signal_witness :
  exists out,
    run (cmvfft_c2r (Lib := copy_fftw) 1 2 (Ptr 1%positive) (Ptr 2%positive) 1)
        demo_heap 100
    = (Ok tt,
       MkState (<[2%positive := out]> demo_heap) 100
         [EvMalloc 32 (Ptr 3%positive);
          EvPlan (mv_c2r_plan 1 2 (Ptr 3%positive) (Ptr 2%positive) 1)
                 (Some [None; None; None; None]);
          EvMemcpy (Ptr 3%positive) (Ptr 1%positive) 16;
          EvExecute (mv_c2r_plan 1 2 (Ptr 3%positive) (Ptr 2%positive) 1)
                    (Some [Some 1%float; Some 0%float; None; None]);
          EvDestroy (mv_c2r_plan 1 2 (Ptr 3%positive) (Ptr 2%positive) 1);
          EvFree (Ptr 3%positive)]).
Proof.
  destruct (cmvfft_c2r_copies_one_signal (Lib := copy_fftw) 1 2 1%positive
              2%positive 1 demo_heap 100
              [Some 1%float; Some 0%float; Some 2%float; Some 0%float]
              (replicate 8 None))
    as (_ & _ & out & H);
    [lia | lia | lia | vm_compute; discriminate | reflexivity
    | vm_compute; discriminate | reflexivity | vm_compute; discriminate
    | discriminate | lia |].
  exists out. exact H.
Defined.

Lemma cells_complex sg n m i o f :
  in_cells (MkPlan (C2C sg) [n] m i n o n f) = Z.to_nat (2 * (n * m)) /\
  out_cells (MkPlan (C2C sg) [n] m i n o n f) = Z.to_nat (2 * (n * m)).
Proof. unfold in_cells, out_cells. cbn. split; f_equal; ring. Qed.

(** C3, what the code does: for a batch of [m > 1] signals and an effort
    above fastest-guess, [cmvfft_c2c] allocates a scratch array of [n * m]
    complex elements but copies only [n] of the caller's [n * m] complex
    elements into it: the transform runs on [2 * n * m] doubles of which
    only the first [2 * n] are the caller's. *)
Theorem cmvfft_c2c_copies_one_signal `{Lib : FFTW} n m d r inverse opt h mem
    (ld lr : list cell) :
  0 < opt -> 1 <= n -> 1 < m -> n * m <= INT_MAX ->
  h !! d = Some ld -> 2 * (n * m) <= Z.of_nat (length ld) ->
  h !! r = Some lr -> 2 * (n * m) <= Z.of_nat (length lr) ->
  d <> r -> n * m * 16 <= mem ->
  let s := fresh (dom h) in
  let p := mv_c2c_plan n m (Ptr s) (Ptr r) inverse opt in
  let ic := Z.to_nat (2 * (n * m)) in
  let n2 := Z.to_nat (2 * n) in
  let seen := take n2 ld
              ++ drop n2 (tabulate ic (fftw_scribble p (replicate ic None))) in
  (n2 < ic)%nat /\ length seen = ic /\
  exists out,
    run (cmvfft_c2c n m (Ptr d) (Ptr r) inverse opt) h mem
    = (Ok tt,
       MkState (<[r := out]> h) mem
         [EvMalloc (n * m * 16) (Ptr s); EvPlan p (Some (replicate ic None));
          EvMemcpy (Ptr s) (Ptr d) (n * 16); EvExecute p (Some seen);
          EvDestroy p; EvFree (Ptr s)]).
Proof.
  intros Hopt Hn Hm Hnm Hd Kd Hr Kr Hdr Hmem s p ic n2 seen.
  assert (Hpos : 0 <= n * m) by nia.
  assert (Hn2m : n * 2 <= n * m) by (apply Z.mul_le_mono_nonneg_l; lia).
  assert (Hlt : (n2 < ic)%nat) by (unfold n2, ic; lia).
  assert (Hseen : length seen = ic).
  { unfold seen. rewrite length_app, length_take, length_drop, length_tabulate.
    lia. }
  split; [done|]. split; [done|].
  destruct (cells_complex
              (if inverse =? 1 then FFTW_BACKWARD else FFTW_FORWARD) n m
              (Ptr s) (Ptr r)
              (Z.lor FFTW_DESTROY_INPUT (fftw_efforts opt))) as [Hic Hoc].
  fold (mv_c2c_plan n m (Ptr s) (Ptr r) inverse opt) in Hic, Hoc.
  fold p ic in Hic, Hoc.
  destruct (efforts_above opt Hopt) as [Hne Hfl].
  assert (Hb1 : size_mul (to_size_t (n * m)) sizeof_fftw_complex = n * m * 16)
    by (apply scratch_bytes; unfold INT_MAX in *; lia).
  assert (Hb2 : size_mul (to_size_t n) sizeof_fftw_complex = n * 16)
    by (apply scratch_bytes; unfold INT_MAX in *; nia).
  assert (Hk1 : Z.to_nat (n * m * 16 / sizeof_double) = ic).
  { unfold sizeof_double, ic.
    replace (n * m * 16) with (2 * (n * m) * 8) by ring.
    by rewrite Z.div_mul. }
  assert (Hk2 : Z.to_nat (n * 16 / sizeof_double) = n2).
  { unfold sizeof_double, n2. replace (n * 16) with (2 * n * 8) by ring.
    by rewrite Z.div_mul. }
  pose proof (scratch_steps p h mem s r d ld lr ic n2
                (n * m * 16) (n * 16) eq_refl eq_refl eq_refl Hfl Hd Hr Hdr
                Hk1 Hk2 Hmem ltac:(lia) ltac:(lia) ltac:(lia) ltac:(lia))
    as Hsteps.
  cbv zeta in Hsteps. rewrite !Hic, !Hoc, !Nat.sub_diag in Hsteps.
  cbn [replicate] in Hsteps. rewrite !app_nil_r in Hsteps.
  fold seen in Hsteps. rewrite !(take_ge seen) in Hsteps by lia.
  destruct Hsteps as (Hmalloc & Hplan & Hcopy & Hexec & HlS4 & HlR4 & Hs4).
  eexists.
  unfold run, cmvfft_c2c, fftw_plan_many_dft.
  change (take (Z.to_nat 1) [n]) with [n].
  fold (mv_c2c_plan n m (Ptr s) (Ptr r) inverse opt). fold p.
  rewrite Hne, (int_mul_ok n m) by lia. rewrite Hb2.
  rewrite !bind_assoc, bind_ret, Hb1.
  rewrite !bind_assoc, (bind_eq _ _ _ _ _ Hmalloc).
  fold (mv_c2c_plan n m (Ptr s) (Ptr r) inverse opt). fold p.
  rewrite !bind_assoc, (bind_eq _ _ _ _ _ Hplan).
  rewrite !bind_assoc, (bind_eq _ _ _ _ _ Hcopy), bind_ret.
  cbn [fst snd is_null].
  rewrite (bind_eq _ _ _ _ _ Hexec).
  unfold fftw_destroy_plan. rewrite bind_log.
  rewrite free_scratch by done. cbn [app].
  rewrite HlS4. unfold sizeof_double. do 3 f_equal. lia.
Qed.

(** C3 at [n = 1], [m = 2], effort 1, on the input [1, 2] (complex): 32
    bytes are allocated, 16 are copied, and the transform runs on
    [1, unwritten]. *)
Lemma cmvfft_c2c_copies_one_signal_witness :
  exists out,
    run (cmvfft_c2c (Lib := copy_fftw) 1 2 (Ptr 1%positive) (Ptr 2%positive)
           0 1) demo_heap 100
    = (Ok tt,
       MkState (<[2%positive := out]> demo_heap) 100
         [EvMalloc 32 (Ptr 3%positive);
          EvPlan (mv_c2c_plan 1 2 (Ptr 3%positive) (Ptr 2%positive) 0 1)
                 (Some [None; None; None; None]);
          EvMemcpy (Ptr 3%positive) (Ptr 1%positive) 16;
          EvExecute (mv_c2c_plan 1 2 (Ptr 3%positive) (Ptr 2%positive) 0 1)
                    (Some [Some 1%float; Some 0%float; None; None]);
          EvDestroy (mv_c2c_plan 1 2 (Ptr 3%positive) (Ptr 2%positive) 0 1);
          EvFree (Ptr 3%positive)]).
Proof.
  destruct (cmvfft_c2c_copies_one_signal (Lib := copy_fftw) 1 2 1%positive
              2%positive 0 1 demo_heap 100
              [Some 1%float; Some 0%float; Some 2%float; Some 0%float]
              (replicate 8 None))
    as (_ & _ & out & H);
    [lia | lia | lia | vm_compute; discriminate | reflexivity
    | vm_compute; discriminate | reflexivity | vm_compute; discriminate
    | discriminate | lia |].
  exists out. exact H.
Defined.

(** C7, where the code breaks it: the result of [cmvfft_c2c] depends on
    the effort level. On a batch of two signals of length one, the complex
    numbers 1 and 2, where the transform is the identity, the output is
    [1, 2] with effort 0 and [1, 0] with effort 1: the second signal never
    reaches the scratch array. *)
Theorem cmvfft_c2c_effort_changes_result :
  take 4 <$> heap (snd (run (cmvfft_c2c (Lib := copy_fftw) 1 2
                               (Ptr 1%positive) (Ptr 2%positive) 0 0)
                          demo_heap 100)) !! 2%positive
  = Some [Some 1%float; Some 0%float; Some 2%float; Some 0%float] /\
  take 4 <$> heap (snd (run (cmvfft_c2c (Lib := copy_fftw) 1 2
                               (Ptr 1%positive) (Ptr 2%positive) 0 1)
                          demo_heap 100)) !! 2%positive
  = Some [Some 1%float; Some 0%float; Some 0%float; Some 0%float] /\
  heap (snd (run (cmvfft_c2c (Lib := copy_fftw) 1 2
                    (Ptr 1%positive) (Ptr 2%positive) 0 0)
               demo_heap 100)) !! 2%positive
  <> heap (snd (run (cmvfft_c2c (Lib := copy_fftw) 1 2
                       (Ptr 1%positive) (Ptr 2%positive) 0 1)
                  demo_heap 100)) !! 2%positive.
Proof.
  split; [vm_compute; reflexivity|]. split; [vm_compute; reflexivity|].
  intros E.
  apply (f_equal (fun o : option (list cell) =>
                    match o with
                    | Some [_; _; Some x; _; _; _; _; _] =>
                        PrimFloat.eqb x zero
                    | _ => false
                    end)) in E.
  vm_compute in E. discriminate E.
Qed.

(** * Further properties of the entry points *)

Lemma efforts_branch opt :
  (fftw_efforts opt =? FFTW_ESTIMATE) = (opt <=? 0) /\
  planner_overwrites (Z.lor FFTW_DESTROY_INPUT (fftw_efforts opt))
  = (0 <? opt).
Proof.
  destruct (Z.leb_spec opt 0) as [H|H].
  - rewrite (efforts_estimate opt H). split; [done|].
    destruct (Z.ltb_spec 0 opt); [lia|done].
  - destruct (efforts_above opt H) as [-> ->]. split; [done|].
    destruct (Z.ltb_spec 0 opt); [done|lia].
Qed.

(** X1: the scratch-copy branch is taken exactly when the planner may
    overwrite its arrays: [fftw_efforts] returns [FFTW_ESTIMATE] exactly
    for the codes [<= 0], the flags [FFTW_DESTROY_INPUT | effort] let the
    planner overwrite exactly for the codes [> 0], and they always carry
    [FFTW_DESTROY_INPUT] and never [FFTW_WISDOM_ONLY]. *)
Theorem scratch_branch_iff_planner_overwrites (opt : Z) :
  (fftw_efforts opt = FFTW_ESTIMATE <-> opt <= 0) /\
  (planner_overwrites (Z.lor FFTW_DESTROY_INPUT (fftw_efforts opt)) = true
   <-> 0 < opt) /\
  Z.testbit (Z.lor FFTW_DESTROY_INPUT (fftw_efforts opt)) 0 = true /\
  Z.testbit (Z.lor FFTW_DESTROY_INPUT (fftw_efforts opt)) 21 = false.
Proof.
  destruct (efforts_branch opt) as [H1 H2]. split; [|split].
  - rewrite <- Z.eqb_eq, H1. apply Z.leb_le.
  - rewrite H2. apply Z.ltb_lt.
  - unfold fftw_efforts. by repeat case_match.
Qed.

(** X2: a call of [cfft_r2c] on an input of [n] reals and a separate
    output array returns, and the first [n/2+1] complex elements of the
    output are the transform of the caller's [n] reals, with or without
    the reconstruction flag and in both effort branches (the plan is on
    the caller's array for codes [<= 0] and on the scratch copy above). *)
Theorem cfft_r2c_half_spectrum `{Lib : FFTW} n d r herm opt h mem
    (ld lr : list cell) :
  1 <= n <= INT_MAX ->
  h !! d = Some ld -> n <= Z.of_nat (length ld) ->
  h !! r = Some lr -> 2 * (Z.quot n 2 + 1) <= Z.of_nat (length lr) ->
  (herm = 1 -> 2 * n <= Z.of_nat (length lr)) ->
  d <> r -> (0 < opt -> n * 8 <= mem) ->
  let p := r2c_plan n (if opt <=? 0 then Ptr d else Ptr (fresh (dom h)))
             (Ptr r) opt in
  exists st' out,
    run (cfft_r2c n (Ptr d) (Ptr r) herm opt) h mem = (Ok tt, st') /\
    heap st' !! r = Some out /\ length out = length lr /\
    forall j, (j < Z.to_nat (2 * (Z.quot n 2 + 1)))%nat ->
      out !! j = Some (Some (fftw_kernel p (take (Z.to_nat n) ld) j)).
Proof.
  intros Hn Hd Kd Hr Kr Kherm Hdr Hmem p.
  pose proof (half_bounds n ltac:(lia)) as Hh.
  assert (Hfill : forall bins : list cell,
            length bins = length lr ->
            (forall j, (j < Z.to_nat (2 * (Z.quot n 2 + 1)))%nat ->
               bins !! j
               = Some (Some (fftw_kernel p (take (Z.to_nat n) ld) j))) ->
            let out := if herm =? 1
                       then foldl (herm_step n) bins (herm_indices n)
                       else bins in
            length out = length lr /\
            forall j, (j < Z.to_nat (2 * (Z.quot n 2 + 1)))%nat ->
              out !! j
              = Some (Some (fftw_kernel p (take (Z.to_nat n) ld) j))).
  { intros bins Hlb Hb out. unfold out.
    destruct (Z.eqb_spec herm 1) as [E|E]; [|done].
    assert (Hidx : Forall (fun i => Z.quot n 2 + 1 <= i < n) (herm_indices n))
      by (apply Forall_forall; intros j Hj; by apply elem_of_herm_indices).
    destruct (herm_fill_pointwise n bins (herm_indices n) bins ltac:(lia)
                ltac:(rewrite Hlb; auto) Hidx (keeps_half_refl _ _))
      as ((Hl & Hlow) & _ & _).
    split; [congruence|]. intros j Hj. rewrite Hlow by done. by apply Hb. }
  destruct (Z.leb_spec opt 0) as [Hopt|Hopt].
  - destruct (cfft_r2c_estimate_run n d r herm opt h mem ld lr Hopt
                ltac:(lia) Hd Kd Hr Kr Kherm) as (lr' & Hlen & _ & Hrun).
    cbv zeta in Hrun. eexists _, _. split; [exact Hrun|]. cbn [heap].
    split; [apply lookup_insert_eq|]. apply Hfill.
    + rewrite length_app, length_tabulate, length_drop. lia.
    + intros j Hj. rewrite lookup_app_l by (by rewrite length_tabulate).
      by rewrite lookup_tabulate.
  - destruct (cfft_r2c_scratch_run n d r herm opt h mem ld lr Hopt Hn Hd Kd
                Hr Kr Kherm (Hmem Hopt))
      as (D & rest & _ & HD & Hrest & Hrun).
    cbv zeta in Hrun. rewrite (HD Hdr) in Hrun.
    eexists _, _. split; [exact Hrun|]. cbn [heap].
    split; [apply lookup_insert_eq|]. apply Hfill.
    + rewrite length_app, length_tabulate, Hrest. lia.
    + intros j Hj. rewrite lookup_app_l by (by rewrite length_tabulate).
      by rewrite lookup_tabulate.
Qed.

Lemma cfft_r2c_half_spectrum_witness :
  exists st' out,
    run (cfft_r2c (Lib := copy_fftw) 4 (Ptr 1%positive) (Ptr 2%positive) 0 2)
        demo_heap 100 = (Ok tt, st') /\
    heap st' !! 2%positive = Some out /\ length out = 8%nat /\
    forall j, (j < 6)%nat ->
      out !! j
      = Some (Some (fftw_kernel (FFTW := copy_fftw)
                      (r2c_plan 4 (Ptr 3%positive) (Ptr 2%positive) 2)
                      [Some 1%float; Some 0%float; Some 2%float; Some 0%float]
                      j)).
Proof.
  apply (cfft_r2c_half_spectrum (Lib := copy_fftw) 4 1%positive 2%positive
           0 2 demo_heap 100
           [Some 1%float; Some 0%float; Some 2%float; Some 0%float]
           (replicate 8 None));
    [vm_compute; split; discriminate | reflexivity | vm_compute; discriminate
    | reflexivity | vm_compute; discriminate | discriminate | discriminate
    | lia].
Defined.

(** X3: with an effort code [<= 0], [cfft_r2c] works on the caller's own
    input array: it makes the plan on it, runs it and destroys it, and
    calls neither [malloc], [memcpy] nor [free]; afterwards the first [n]
    doubles of the input are whatever the transform left there and the
    doubles behind them are as before. *)
Theorem cfft_r2c_estimate_in_place `{Lib : FFTW} n d r herm opt h mem
    (ld lr : list cell) :
  opt <= 0 -> 1 <= n ->
  h !! d = Some ld -> n <= Z.of_nat (length ld) ->
  h !! r = Some lr -> 2 * (Z.quot n 2 + 1) <= Z.of_nat (length lr) ->
  (herm = 1 -> 2 * n <= Z.of_nat (length lr)) ->
  d <> r ->
  let p := r2c_plan n (Ptr d) (Ptr r) opt in
  let nn := Z.to_nat n in
  exists st',
    run (cfft_r2c n (Ptr d) (Ptr r) herm opt) h mem = (Ok tt, st') /\
    trace st' = [EvPlan p (Some (take nn ld)); EvExecute p (Some (take nn ld));
                 EvDestroy p] /\
    avail st' = mem /\ dom (heap st') = dom h /\
    heap st' !! d
    = Some (tabulate nn (fftw_clobber p (take nn ld)) ++ drop nn ld).
Proof.
  intros Hopt Hn Hd Kd Hr Kr Kherm Hdr p nn.
  destruct (cfft_r2c_estimate_run n d r herm opt h mem ld lr Hopt Hn Hd Kd
              Hr Kr Kherm) as (lr' & _ & _ & Hrun).
  cbv zeta in Hrun. eexists. split; [exact Hrun|]. cbn [heap avail trace].
  split; [done|]. split; [done|]. split.
  - rewrite dom_insert_lookup_L by (rewrite lookup_insert_ne; eauto).
    apply dom_insert_lookup_L. eauto.
  - rewrite lookup_insert_ne by done. apply lookup_insert_eq.
Qed.

Lemma cfft_r2c_estimate_in_place_witness :
  exists st',
    run (cfft_r2c (Lib := copy_fftw) 4 (Ptr 1%positive) (Ptr 2%positive) 1 0)
        demo_heap 0 = (Ok tt, st') /\
    trace st'
    = [EvPlan (r2c_plan 4 (Ptr 1%positive) (Ptr 2%positive) 0)
         (Some [Some 1%float; Some 0%float; Some 2%float; Some 0%float]);
       EvExecute (r2c_plan 4 (Ptr 1%positive) (Ptr 2%positive) 0)
         (Some [Some 1%float; Some 0%float; Some 2%float; Some 0%float]);
       EvDestroy (r2c_plan 4 (Ptr 1%positive) (Ptr 2%positive) 0)] /\
    avail st' = 0.
Proof.
  destruct (cfft_r2c_estimate_in_place (Lib := copy_fftw) 4 1%positive
              2%positive 1 0 demo_heap 0
              [Some 1%float; Some 0%float; Some 2%float; Some 0%float]
              (replicate 8 None))
    as (st' & Hrun & Htr & Hav & _);
    [lia | lia | reflexivity | vm_compute; discriminate | reflexivity
    | vm_compute; discriminate | intros _; vm_compute; discriminate
    | discriminate |].
  exists st'. split; [exact Hrun|]. split; [exact Htr|exact Hav].
Defined.

(** X4: with an effort code [> 0], a call of [cfft_r2c] that finds room
    for its scratch copy returns with the scratch block freed: the heap
    is the caller's heap with a new content of the output block and
    nothing else changed, and the allocator has all its bytes back. *)
Theorem cfft_r2c_releases_scratch `{Lib : FFTW} n d r herm opt h mem
    (ld lr : list cell) :
  0 < opt -> 1 <= n <= INT_MAX ->
  h !! d = Some ld -> n <= Z.of_nat (length ld) ->
  h !! r = Some lr -> 2 * (Z.quot n 2 + 1) <= Z.of_nat (length lr) ->
  (herm = 1 -> 2 * n <= Z.of_nat (length lr)) ->
  n * 8 <= mem ->
  exists st' out,
    run (cfft_r2c n (Ptr d) (Ptr r) herm opt) h mem = (Ok tt, st') /\
    heap st' = <[r := out]> h /\ length out = length lr /\
    avail st' = mem /\
    last (trace st') = Some (EvFree (Ptr (fresh (dom h)))).
Proof.
  intros Hopt Hn Hd Kd Hr Kr Kherm Hmem.
  pose proof (half_bounds n ltac:(lia)) as Hh.
  destruct (cfft_r2c_scratch_run n d r herm opt h mem ld lr Hopt Hn Hd Kd
              Hr Kr Kherm Hmem) as (D & rest & _ & _ & Hrest & Hrun).
  cbv zeta in Hrun. eexists _, _. split; [exact Hrun|]. cbn [heap avail trace].
  split; [done|]. split; [|done].
  assert (Hb : length (tabulate (Z.to_nat (2 * (Z.quot n 2 + 1)))
                         (fun k => Some (fftw_kernel
                                           (r2c_plan n (Ptr (fresh (dom h)))
                                              (Ptr r) opt)
                                           (take (Z.to_nat n) D) k))
                       ++ rest) = length lr)
    by (rewrite length_app, length_tabulate, Hrest; lia).
  destruct (Z.eqb_spec herm 1) as [E|E]; [|done].
  assert (Hidx : Forall (fun i => Z.quot n 2 + 1 <= i < n) (herm_indices n))
    by (apply Forall_forall; intros j Hj; by apply elem_of_herm_indices).
  destruct (herm_fill_pointwise n _ (herm_indices n) _ ltac:(lia)
              ltac:(rewrite Hb; auto) Hidx (keeps_half_refl _ _))
    as ((Hl & _) & _ & _).
  congruence.
Qed.

Lemma cfft_r2c_releases_scratch_witness :
  exists st' out,
    run (cfft_r2c (Lib := copy_fftw) 4 (Ptr 1%positive) (Ptr 2%positive) 1 3)
        demo_heap 32 = (Ok tt, st') /\
    heap st' = <[2%positive := out]> demo_heap /\ avail st' = 32.
Proof.
  destruct (cfft_r2c_releases_scratch (Lib := copy_fftw) 4 1%positive
              2%positive 1 3 demo_heap 32
              [Some 1%float; Some 0%float; Some 2%float; Some 0%float]
              (replicate 8 None))
    as (st' & out & Hrun & Hh & _ & Hav & _);
    [lia | vm_compute; split; discriminate | reflexivity
    | vm_compute; discriminate | reflexivity | vm_compute; discriminate
    | intros _; vm_compute; discriminate | lia |].
  exists st', out. split; [exact Hrun|]. split; [exact Hh|exact Hav].
Defined.

(** X5: with an effort code [> 0], [cmvfft_r2c] copies the whole batch:
    it allocates [n * m] doubles, copies [n * m] doubles and runs the
    transform on the caller's [n * m] reals; it returns with the scratch
    block freed, the allocator budget restored and only the output block
    changed. *)
Theorem cmvfft_r2c_copies_whole_batch `{Lib : FFTW} n m d r opt h mem
    (ld lr : list cell) :
  0 < opt -> 1 <= n -> 1 <= m -> n * m <= INT_MAX ->
  h !! d = Some ld -> n * m <= Z.of_nat (length ld) ->
  h !! r = Some lr -> 2 * ((Z.quot n 2 + 1) * m) <= Z.of_nat (length lr) ->
  d <> r -> n * m * 8 <= mem ->
  let s := fresh (dom h) in
  let p := mv_r2c_plan n m (Ptr s) (Ptr r) opt in
  let nm := Z.to_nat (n * m) in
  exists out,
    run (cmvfft_r2c n m (Ptr d) (Ptr r) opt) h mem
    = (Ok tt,
       MkState (<[r := out]> h) mem
         [EvMalloc (n * m * 8) (Ptr s); EvPlan p (Some (replicate nm None));
          EvMemcpy (Ptr s) (Ptr d) (n * m * 8);
          EvExecute p (Some (take nm ld)); EvDestroy p; EvFree (Ptr s)]) /\
    length out = length lr /\
    forall j, (j < Z.to_nat (2 * ((Z.quot n 2 + 1) * m)))%nat ->
      out !! j = Some (Some (fftw_kernel p (take nm ld) j)).
Proof.
  intros Hopt Hn Hm Hnm Hd Kd Hr Kr Hdr Hmem s p nm.
  destruct (cmvfft_r2c_scratch_run n m d r opt h mem ld lr Hopt Hn Hm Hnm
              Hd Kd Hr Kr Hdr Hmem) as (rest & Hrest & Hrun).
  cbv zeta in Hrun. eexists. split; [exact Hrun|]. split.
  - rewrite length_app, length_tabulate, Hrest. lia.
  - intros j Hj. rewrite lookup_app_l by (by rewrite length_tabulate).
    by rewrite lookup_tabulate.
Qed.

Lemma cmvfft_r2c_copies_whole_batch_witness :
  exists out,
    run (cmvfft_r2c (Lib := copy_fftw) 2 2 (Ptr 1%positive) (Ptr 2%positive) 1)
        demo_heap 100
    = (Ok tt,
       MkState (<[2%positive := out]> demo_heap) 100
         [EvMalloc 32 (Ptr 3%positive);
          EvPlan (mv_r2c_plan 2 2 (Ptr 3%positive) (Ptr 2%positive) 1)
                 (Some [None; None; None; None]);
          EvMemcpy (Ptr 3%positive) (Ptr 1%positive) 32;
          EvExecute (mv_r2c_plan 2 2 (Ptr 3%positive) (Ptr 2%positive) 1)
            (Some [Some 1%float; Some 0%float; Some 2%float; Some 0%float]);
          EvDestroy (mv_r2c_plan 2 2 (Ptr 3%positive) (Ptr 2%positive) 1);
          EvFree (Ptr 3%positive)]).
Proof.
  destruct (cmvfft_r2c_copies_whole_batch (Lib := copy_fftw) 2 2 1%positive
              2%positive 1 demo_heap 100
              [Some 1%float; Some 0%float; Some 2%float; Some 0%float]
              (replicate 8 None))
    as (out & Hrun & _);
    [lia | lia | lia | vm_compute; discriminate | reflexivity
    | vm_compute; discriminate | reflexivity | vm_compute; discriminate
    | discriminate | lia |].
  exists out. exact Hrun.
Defined.

(** The scratch-copy branch of [cmvfft_c2c] for any batch count. *)
Lemma cmvfft_c2c_scratch_run `{Lib : FFTW} n m d r inverse opt h mem
    (ld lr : list cell) :
  0 < opt -> 1 <= n -> 1 <= m -> n * m <= INT_MAX ->
  h !! d = Some ld -> 2 * (n * m) <= Z.of_nat (length ld) ->
  h !! r = Some lr -> 2 * (n * m) <= Z.of_nat (length lr) ->
  d <> r -> n * m * 16 <= mem ->
  let s := fresh (dom h) in
  let p := mv_c2c_plan n m (Ptr s) (Ptr r) inverse opt in
  let ic := Z.to_nat (2 * (n * m)) in
  let n2 := Z.to_nat (2 * n) in
  let seen := take n2 ld
              ++ drop n2 (tabulate ic (fftw_scribble p (replicate ic None))) in
  run (cmvfft_c2c n m (Ptr d) (Ptr r) inverse opt) h mem
  = (Ok tt,
     MkState
       (<[r := tabulate ic (fun k => Some (fftw_kernel p seen k))
               ++ drop ic lr]> h)
       mem
       [EvMalloc (n * m * 16) (Ptr s); EvPlan p (Some (replicate ic None));
        EvMemcpy (Ptr s) (Ptr d) (n * 16); EvExecute p (Some seen);
        EvDestroy p; EvFree (Ptr s)]).
Proof.
  intros Hopt Hn Hm Hnm Hd Kd Hr Kr Hdr Hmem s p ic n2 seen.
  assert (Hpos : 0 <= n * m) by nia.
  assert (Hn2m : n * 1 <= n * m) by (apply Z.mul_le_mono_nonneg_l; lia).
  assert (Hle : (n2 <= ic)%nat) by (unfold n2, ic; lia).
  assert (Hseen : length seen = ic).
  { unfold seen. rewrite length_app, length_take, length_drop, length_tabulate.
    lia. }
  destruct (cells_complex
              (if inverse =? 1 then FFTW_BACKWARD else FFTW_FORWARD) n m
              (Ptr s) (Ptr r)
              (Z.lor FFTW_DESTROY_INPUT (fftw_efforts opt))) as [Hic Hoc].
  fold (mv_c2c_plan n m (Ptr s) (Ptr r) inverse opt) in Hic, Hoc.
  fold p ic in Hic, Hoc.
  destruct (efforts_above opt Hopt) as [Hne Hfl].
  assert (Hb1 : size_mul (to_size_t (n * m)) sizeof_fftw_complex = n * m * 16)
    by (apply scratch_bytes; unfold INT_MAX in *; lia).
  assert (Hb2 : size_mul (to_size_t n) sizeof_fftw_complex = n * 16)
    by (apply scratch_bytes; unfold INT_MAX in *; nia).
  assert (Hk1 : Z.to_nat (n * m * 16 / sizeof_double) = ic).
  { unfold sizeof_double, ic.
    replace (n * m * 16) with (2 * (n * m) * 8) by ring.
    by rewrite Z.div_mul. }
  assert (Hk2 : Z.to_nat (n * 16 / sizeof_double) = n2).
  { unfold sizeof_double, n2. replace (n * 16) with (2 * n * 8) by ring.
    by rewrite Z.div_mul. }
  pose proof (scratch_steps p h mem s r d ld lr ic n2
                (n * m * 16) (n * 16) eq_refl eq_refl eq_refl Hfl Hd Hr Hdr
                Hk1 Hk2 Hmem ltac:(lia) ltac:(lia) ltac:(lia) ltac:(lia))
    as Hsteps.
  cbv zeta in Hsteps. rewrite !Hic, !Hoc, !Nat.sub_diag in Hsteps.
  cbn [replicate] in Hsteps. rewrite !app_nil_r in Hsteps.
  fold seen in Hsteps. rewrite !(take_ge seen) in Hsteps by lia.
  rewrite !drop_app_length' in Hsteps by (by rewrite length_tabulate).
  destruct Hsteps as (Hmalloc & Hplan & Hcopy & Hexec & HlS4 & HlR4 & Hs4).
  unfold run, cmvfft_c2c, fftw_plan_many_dft.
  change (take (Z.to_nat 1) [n]) with [n].
  fold (mv_c2c_plan n m (Ptr s) (Ptr r) inverse opt). fold p.
  rewrite Hne, (int_mul_ok n m) by lia. rewrite Hb2.
  rewrite !bind_assoc, bind_ret, Hb1.
  rewrite !bind_assoc, (bind_eq _ _ _ _ _ Hmalloc).
  fold (mv_c2c_plan n m (Ptr s) (Ptr r) inverse opt). fold p.
  rewrite !bind_assoc, (bind_eq _ _ _ _ _ Hplan).
  rewrite !bind_assoc, (bind_eq _ _ _ _ _ Hcopy), bind_ret.
  cbn [fst snd is_null].
  rewrite (bind_eq _ _ _ _ _ Hexec).
  unfold fftw_destroy_plan. rewrite bind_log.
  rewrite free_scratch by done. cbn [app].
  rewrite HlS4. unfold sizeof_double. do 3 f_equal. lia.
Qed.

(** X6: for a single signal ([m = 1]) and an effort code [> 0],
    [cmvfft_c2c] copies the caller's whole input into the scratch array:
    the transform runs on the caller's [n] complex elements and the first
    [n] complex elements of the output are their transform; the short
    copy only shows for [m > 1]. *)
Theorem cmvfft_c2c_single_signal_complete `{Lib : FFTW} n d r inverse opt
    h mem (ld lr : list cell) :
  0 < opt -> 1 <= n <= INT_MAX ->
  h !! d = Some ld -> 2 * n <= Z.of_nat (length ld) ->
  h !! r = Some lr -> 2 * n <= Z.of_nat (length lr) ->
  d <> r -> n * 16 <= mem ->
  let s := fresh (dom h) in
  let p := mv_c2c_plan n 1 (Ptr s) (Ptr r) inverse opt in
  let n2 := Z.to_nat (2 * n) in
  exists st' out,
    run (cmvfft_c2c n 1 (Ptr d) (Ptr r) inverse opt) h mem = (Ok tt, st') /\
    In (EvExecute p (Some (take n2 ld))) (trace st') /\
    heap st' !! r = Some out /\
    forall j, (j < n2)%nat ->
      out !! j = Some (Some (fftw_kernel p (take n2 ld) j)).
Proof.
  intros Hopt Hn Hd Kd Hr Kr Hdr Hmem s p n2.
  pose proof (cmvfft_c2c_scratch_run n 1 d r inverse opt h mem ld lr Hopt
                ltac:(lia) ltac:(lia) ltac:(lia) Hd ltac:(lia) Hr ltac:(lia)
                Hdr ltac:(lia)) as Hrun.
  cbv zeta in Hrun. rewrite Z.mul_1_r in Hrun. fold s p n2 in Hrun.
  rewrite (drop_ge (tabulate n2 _)) in Hrun by (by rewrite length_tabulate).
  rewrite !app_nil_r in Hrun.
  eexists _, _. split; [exact Hrun|]. cbn [heap trace].
  split; [do 3 right; by left|]. split; [apply lookup_insert_eq|].
  intros j Hj. rewrite lookup_app_l by (by rewrite length_tabulate).
  by rewrite lookup_tabulate.
Qed.

Lemma cmvfft_c2c_single_signal_complete_witness :
  exists st' out,
    run (cmvfft_c2c (Lib := copy_fftw) 2 1 (Ptr 1%positive) (Ptr 2%positive)
           1 1) demo_heap 100 = (Ok tt, st') /\
    In (EvExecute (mv_c2c_plan 2 1 (Ptr 3%positive) (Ptr 2%positive) 1 1)
          (Some [Some 1%float; Some 0%float; Some 2%float; Some 0%float]))
       (trace st') /\
    heap st' !! 2%positive = Some out.
Proof.
  destruct (cmvfft_c2c_single_signal_complete (Lib := copy_fftw) 2 1%positive
              2%positive 1 1 demo_heap 100
              [Some 1%float; Some 0%float; Some 2%float; Some 0%float]
              (replicate 8 None))
    as (st' & out & Hrun & Hin & Hout & _);
    [lia | vm_compute; split; discriminate | reflexivity
    | vm_compute; discriminate | reflexivity | vm_compute; discriminate
    | discriminate | lia |].
  exists st', out. split; [exact Hrun|]. split; [exact Hin|exact Hout].
Defined.

Lemma memcpy_short h a t dst bs (ls : list cell) bytes :
  h !! bs = Some ls ->
  (length ls < Z.to_nat (bytes / sizeof_double))%nat ->
  memcpy dst (Ptr bs) bytes (MkState h a t)
  = (Fault, MkState h a (t ++ [EvMemcpy dst (Ptr bs) bytes])).
Proof.
  intros Hb Hk. unfold memcpy. rewrite bind_log.
  unfold bind, read_cells, snapshot. cbn [heap]. rewrite Hb.
  destruct (Nat.leb_spec (Z.to_nat (bytes / sizeof_double)) (length ls));
    [lia|done].
Qed.

(** A plan made with [FFTW_ESTIMATE] and run on arrays that are long
    enough: the one-plan entry points and the fastest-guess branches. *)
Lemma estimate_steps `{Lib : FFTW} p h mem bi bo (li lo : list cell) :
  planner_overwrites (pl_flags p) = false ->
  pl_in p = Ptr bi -> pl_out p = Ptr bo ->
  h !! bi = Some li -> (in_cells p <= length li)%nat ->
  h !! bo = Some lo -> (out_cells p <= length lo)%nat ->
  let seen := take (in_cells p) li in
  exists h',
    make_plan p (MkState h mem [])
    = (Ok p, MkState h mem [EvPlan p (Some seen)]) /\
    fftw_execute p (MkState h mem [EvPlan p (Some seen)])
    = (Ok tt, MkState h' mem [EvPlan p (Some seen); EvExecute p (Some seen)])
    /\
    dom h' = dom h /\
    (forall b, b <> bi -> b <> bo -> h' !! b = h !! b) /\
    exists lo', length lo' = length lo /\ (bi <> bo -> lo' = lo) /\
      h' !! bo
      = Some (tabulate (out_cells p) (fun k => Some (fftw_kernel p seen k))
              ++ drop (out_cells p) lo').
Proof.
  intros Hfl Hi Ho Hbi Ki Hbo Ko seen.
  pose proof (make_plan_estimate p h mem [] Hfl) as Hplan.
  rewrite Hi, (snapshot_ok _ _ _ _ Hbi Ki) in Hplan. cbn [app] in Hplan.
  destruct (fftw_execute_ok p h mem [EvPlan p (Some seen)] bi bo li lo
              Hi Ho Hbi Ki Hbo Ko) as (lo' & Hlen & Hsame & Hexec).
  eexists. split; [exact Hplan|]. split; [exact Hexec|]. split; [|split].
  - assert (H1 : is_Some (h !! bi)) by (by eexists).
    assert (H2 : is_Some (h !! bo)) by (by eexists).
    rewrite !dom_insert_L. apply elem_of_dom in H1, H2.
    apply set_eq. intros x. rewrite !elem_of_union, !elem_of_singleton.
    split.
    + intros [E|[E|E]]; [rewrite E; exact H2 | rewrite E; exact H1 | exact E].
    + intros E. right. right. exact E.
  - intros b H1 H2. rewrite !lookup_insert_ne by congruence. reflexivity.
  - exists lo'. split; [exact Hlen|]. split; [exact Hsame|].
    apply lookup_insert_eq.
Qed.

(** X7: [cmvfft_c2r] on a single signal ([m = 1]) of length [n >= 3],
    given the [n/2+1] complex elements such a transform takes: with an
    effort code [<= 0] the call returns, with a code [> 0] its [memcpy]
    asks for [n] complex elements, more than the caller's array holds,
    and the call faults there, after the allocation and the planning. *)
Theorem cmvfft_c2r_single_signal_overread `{Lib : FFTW} n d r opt h mem
    (ld lr : list cell) :
  0 < opt -> 3 <= n <= INT_MAX ->
  h !! d = Some ld -> Z.of_nat (length ld) = 2 * (Z.quot n 2 + 1) ->
  h !! r = Some lr -> n <= Z.of_nat (length lr) ->
  d <> r -> n * 16 <= mem ->
  let s := fresh (dom h) in
  let p := mv_c2r_plan n 1 (Ptr s) (Ptr r) opt in
  let ic := Z.to_nat (2 * (Z.quot n 2 + 1)) in
  Z.of_nat (length ld) < 2 * n /\
  fst (run (cmvfft_c2r n 1 (Ptr d) (Ptr r) 0) h mem) = Ok tt /\
  exists st',
    run (cmvfft_c2r n 1 (Ptr d) (Ptr r) opt) h mem = (Fault, st') /\
    trace st'
    = [EvMalloc (n * 16) (Ptr s); EvPlan p (Some (replicate ic None));
       EvMemcpy (Ptr s) (Ptr d) (n * 16)].
Proof.
  intros Hopt Hn Hd Kd Hr Kr Hdr Hmem s p ic.
  pose proof (half_bounds n ltac:(lia)) as Hh.
  assert (Hsr : s <> r) by (by apply (fresh_block_ne h r lr)).
  assert (Hds : d <> s) by (apply not_eq_sym; by apply (fresh_block_ne h d ld)).
  split; [lia|]. split.
  - unfold run, cmvfft_c2r, fftw_plan_many_dft_c2r.
    change (take (Z.to_nat 1) [n]) with [n].
    rewrite (efforts_estimate 0 ltac:(lia)), Z.eqb_refl.
    set (p0 := MkPlan C2R [n] 1 (Ptr d) (Z.quot n 2 + 1) (Ptr r) n
                 (Z.lor FFTW_DESTROY_INPUT FFTW_ESTIMATE)).
    assert (Hic0 : in_cells p0 = ic)
      by (unfold p0; rewrite in_cells_half by lia; unfold ic; f_equal; lia).
    assert (Hoc0 : out_cells p0 = Z.to_nat n)
      by (unfold p0; rewrite out_cells_real; f_equal; lia).
    destruct (estimate_steps p0 h mem d r ld lr eq_refl eq_refl eq_refl Hd
                ltac:(lia) Hr ltac:(lia)) as (h' & Hplan & Hexec & _).
    rewrite bind_assoc, (bind_eq _ _ _ _ _ Hplan), bind_ret.
    cbn [fst snd is_null].
    rewrite (bind_eq _ _ _ _ _ Hexec).
    unfold fftw_destroy_plan. by rewrite bind_log.
  - destruct (efforts_above opt Hopt) as [Hne Hfl].
    assert (Hic : in_cells p = ic)
      by (unfold p, mv_c2r_plan; rewrite in_cells_half by lia; unfold ic;
          f_equal; lia).
    assert (Hoc : out_cells p = Z.to_nat n)
      by (unfold p, mv_c2r_plan; rewrite out_cells_real; f_equal; lia).
    assert (Hb : size_mul (to_size_t n) sizeof_fftw_complex = n * 16)
      by (apply scratch_bytes; unfold INT_MAX in *; lia).
    assert (Hk : Z.to_nat (n * 16 / sizeof_double) = Z.to_nat (2 * n)).
    { unfold sizeof_double. replace (n * 16) with (2 * n * 8) by ring.
      by rewrite Z.div_mul. }
    pose proof (malloc_ok h mem [] (n * 16) Hmem) as Hmalloc.
    fold s in Hmalloc. rewrite Hk in Hmalloc. cbn [app] in Hmalloc.
    set (S0 := replicate (Z.to_nat (2 * n)) None : list cell) in *.
    assert (Hh0 : <[s := S0]> h = <[s := S0]> (<[r := lr]> h))
      by (by rewrite (insert_id h r lr Hr)).
    rewrite Hh0 in Hmalloc.
    pose proof (plan_on_scratch p h (mem - n * 16) [EvMalloc (n * 16) (Ptr s)]
                  s r S0 lr Hfl eq_refl eq_refl Hsr) as Hplan.
    rewrite Hic, Hoc in Hplan.
    specialize (Hplan ltac:(unfold S0, ic; rewrite length_replicate; lia)
                      ltac:(lia)).
    assert (Htk : take ic S0 = replicate ic None)
      by (unfold S0; rewrite take_replicate; f_equal; unfold ic; lia).
    rewrite !Htk in Hplan. cbn [app] in Hplan.
    eexists. split.
    + unfold run, cmvfft_c2r, fftw_plan_many_dft_c2r.
      change (take (Z.to_nat 1) [n]) with [n].
      fold (mv_c2r_plan n 1 (Ptr s) (Ptr r) opt). fold p.
      rewrite Hne, (int_mul_ok n 1) by lia. rewrite Hb.
      rewrite !bind_assoc, bind_ret, Z.mul_1_r, Hb.
      rewrite !bind_assoc, (bind_eq _ _ _ _ _ Hmalloc).
      fold (mv_c2r_plan n 1 (Ptr s) (Ptr r) opt). fold p.
      rewrite !bind_assoc, (bind_eq _ _ _ _ _ Hplan).
      rewrite !bind_assoc.
      match goal with
      | |- context [bind (memcpy _ _ _) _ (MkState ?h' ?a' ?t')] =>
          assert (Hd' : h' !! d = Some ld)
            by (rewrite !lookup_insert_ne by congruence; exact Hd);
          assert (Hshort : (length ld < Z.to_nat (n * 16 / sizeof_double))%nat)
            by (rewrite Hk; lia);
          rewrite (bind_eq _ _ _ _ _
                     (memcpy_short h' a' t' (Ptr s) d ld (n * 16) Hd' Hshort))
      end.
      reflexivity.
    + reflexivity.
Qed.

Lemma cmvfft_c2r_single_signal_overread_witness :
  fst (run (cmvfft_c2r (Lib := copy_fftw) 3 1 (Ptr 1%positive)
              (Ptr 2%positive) 0) demo_heap 100) = Ok tt /\
  exists st',
    run (cmvfft_c2r (Lib := copy_fftw) 3 1 (Ptr 1%positive) (Ptr 2%positive)
           1) demo_heap 100 = (Fault, st') /\
    trace st'
    = [EvMalloc 48 (Ptr 3%positive);
       EvPlan (mv_c2r_plan 3 1 (Ptr 3%positive) (Ptr 2%positive) 1)
              (Some [None; None; None; None]);
       EvMemcpy (Ptr 3%positive) (Ptr 1%positive) 48].
Proof.
  destruct (cmvfft_c2r_single_signal_overread (Lib := copy_fftw) 3 1%positive
              2%positive 1 demo_heap 100
              [Some 1%float; Some 0%float; Some 2%float; Some 0%float]
              (replicate 8 None))
    as (_ & Hok & st' & Hrun & Htr);
    [lia | vm_compute; split; discriminate | reflexivity
    | vm_compute; reflexivity | reflexivity | vm_compute; discriminate
    | discriminate | lia |].
  split; [exact Hok|]. exists st'. split; [exact Hrun|exact Htr].
Defined.

(** ** What the entry points leave alone *)

Section MoreFrames.
Context `{Lib : FFTW}.

Lemma keeps_after_plan b p (mid : M unit) data_copy :
  pl_in p <> Ptr b -> pl_out p <> Ptr b -> data_copy <> Ptr b ->
  keeps_post b mid (fun _ => True) ->
  keeps_post b (fftw_execute p;; mid;; fftw_destroy_plan p;;
                if is_null data_copy then ret tt else free data_copy)
             (fun _ => True).
Proof.
  intros Hi Ho Hdc Hmid.
  eapply keeps_bind; [by apply keeps_execute|]. intros _ _.
  eapply keeps_bind; [exact Hmid|]. intros _ _.
  eapply keeps_bind; [apply keeps_log|]. intros _ _.
  destruct (is_null data_copy); [|by apply keeps_free].
  eapply keeps_weaken; [apply keeps_ret|done].
Qed.

Lemma keeps_after_plan' b p data_copy :
  pl_in p <> Ptr b -> pl_out p <> Ptr b -> data_copy <> Ptr b ->
  keeps_post b (fftw_execute p;; fftw_destroy_plan p;;
                if is_null data_copy then ret tt else free data_copy)
             (fun _ => True).
Proof.
  intros Hi Ho Hdc.
  eapply keeps_bind; [by apply keeps_execute|]. intros _ _.
  eapply keeps_bind; [apply keeps_log|]. intros _ _.
  destruct (is_null data_copy); [|by apply keeps_free].
  eapply keeps_weaken; [apply keeps_ret|done].
Qed.

(** A plan, its run and its destruction. *)
Lemma keeps_one_plan b p :
  pl_in p <> Ptr b -> pl_out p <> Ptr b ->
  keeps_post b (let* p' := make_plan p in
                fftw_execute p';; fftw_destroy_plan p')
             (fun _ => True).
Proof.
  intros Hi Ho.
  eapply keeps_bind; [by apply keeps_make_plan|]. intros p' ->.
  eapply keeps_bind; [by apply keeps_execute|]. intros _ _.
  apply keeps_log.
Qed.

(** The two branches that prepare the plan: on the caller's input, or on
    a scratch copy of [B2] bytes of it in a block of [B1] bytes. *)
Lemma keeps_prepare b (P : ptr -> fftw_plan) (estimate : bool) data res
    (size1 size2 : M Z) (bytes : Z -> Z) opt :
  (forall x, pl_in (P x) = x) -> (forall x, pl_out (P x) = res) ->
  res <> Ptr b -> (data <> Ptr b \/ 0 < opt) ->
  (0 < opt -> estimate = false) ->
  keeps_post b size1 (fun _ => True) ->
  keeps_post b size2 (fun _ => True) ->
  keeps_post b
    (if estimate then
       let* p := make_plan (P data) in ret (p, NULL)
     else
       let* nm := size1 in
       let* data_copy := malloc (bytes nm) in
       let* p := make_plan (P data_copy) in
       let* nm' := size2 in
       memcpy data_copy data (bytes nm');;
       ret (p, data_copy))
    (fun pd => pl_in (fst pd) <> Ptr b /\ pl_out (fst pd) <> Ptr b
               /\ snd pd <> Ptr b).
Proof.
  intros HPi HPo Hres Hdata Hest Hs1 Hs2. destruct estimate.
  - assert (Hd : data <> Ptr b)
      by (destruct Hdata as [|Hopt]; [done|by specialize (Hest Hopt)]).
    eapply keeps_bind; [apply keeps_make_plan; by rewrite ?HPi, ?HPo|].
    intros p ->. eapply keeps_weaken; [apply keeps_ret|].
    intros pd ->. cbn [fst snd]. by rewrite HPi, HPo.
  - eapply keeps_bind; [exact Hs1|]. intros nm _.
    eapply keeps_bind; [apply keeps_malloc|]. intros dc Hdc.
    eapply keeps_bind; [apply keeps_make_plan; by rewrite ?HPi, ?HPo|].
    intros p ->.
    eapply keeps_bind; [exact Hs2|]. intros nm' _.
    eapply keeps_bind; [by apply keeps_memcpy|]. intros _ _.
    eapply keeps_weaken; [apply keeps_ret|].
    intros pd ->. cbn [fst snd]. by rewrite HPi, HPo.
Qed.

Lemma keeps_value {A} b (a : A) : keeps_post b (ret a) (fun _ => True).
Proof. eapply keeps_weaken; [apply keeps_ret|done]. Qed.

Lemma efforts_not_estimate opt :
  0 < opt -> (fftw_efforts opt =? FFTW_ESTIMATE) = false.
Proof. intros H. by destruct (efforts_above opt H). Qed.

Lemma cfft_r2c_frame b n data res herm opt :
  res <> Ptr b -> (data <> Ptr b \/ 0 < opt) ->
  keeps_post b (cfft_r2c n data res herm opt) (fun _ => True).
Proof.
  intros Hres Hdata. unfold cfft_r2c, fftw_plan_dft_r2c_1d.
  eapply keeps_bind.
  - apply (keeps_prepare b (fun x => r2c_plan n x res opt) _ data res
             (ret n) (ret n) (fun k => size_mul (to_size_t k) sizeof_double)
             opt); auto using keeps_value, efforts_not_estimate.
  - intros [p dc] (Hi & Ho & Hdc). cbn [fst snd] in *.
    apply keeps_after_plan; [done|done|done|].
    destruct (herm =? 1); [by apply keeps_herm_loop|].
    apply keeps_value.
Qed.

Lemma cmvfft_r2c_frame b n m data res opt :
  res <> Ptr b -> (data <> Ptr b \/ 0 < opt) ->
  keeps_post b (cmvfft_r2c n m data res opt) (fun _ => True).
Proof.
  intros Hres Hdata. unfold cmvfft_r2c, fftw_plan_many_dft_r2c.
  eapply keeps_bind.
  - apply (keeps_prepare b (fun x => mv_r2c_plan n m x res opt) _ data res
             (int_mul n m) (int_mul n m)
             (fun k => size_mul (to_size_t k) sizeof_double) opt);
      auto using keeps_int_mul, efforts_not_estimate.
  - intros [p dc] (Hi & Ho & Hdc). by apply keeps_after_plan'.
Qed.

Lemma cmvfft_c2r_frame b n m data res opt :
  res <> Ptr b -> (data <> Ptr b \/ 0 < opt) ->
  keeps_post b (cmvfft_c2r n m data res opt) (fun _ => True).
Proof.
  intros Hres Hdata. unfold cmvfft_c2r, fftw_plan_many_dft_c2r.
  eapply keeps_bind.
  - apply (keeps_prepare b (fun x => mv_c2r_plan n m x res opt) _ data res
             (int_mul n m) (ret n)
             (fun k => size_mul (to_size_t k) sizeof_fftw_complex) opt);
      auto using keeps_int_mul, keeps_value, efforts_not_estimate.
  - intros [p dc] (Hi & Ho & Hdc). by apply keeps_after_plan'.
Qed.

Lemma cmvfft_c2c_frame b n m data res inverse opt :
  res <> Ptr b -> (data <> Ptr b \/ 0 < opt) ->
  keeps_post b (cmvfft_c2c n m data res inverse opt) (fun _ => True).
Proof.
  intros Hres Hdata. unfold cmvfft_c2c, fftw_plan_many_dft.
  eapply keeps_bind.
  - apply (keeps_prepare b (fun x => mv_c2c_plan n m x res inverse opt) _
             data res (int_mul n m) (ret n)
             (fun k => size_mul (to_size_t k) sizeof_fftw_complex) opt);
      auto using keeps_int_mul, keeps_value, efforts_not_estimate.
  - intros [p dc] (Hi & Ho & Hdc). by apply keeps_after_plan'.
Qed.

End MoreFrames.

(** X8: with an effort code [> 0], [cmvfft_c2r] and [cmvfft_c2c] leave
    the caller's input block exactly as it was, whatever the outcome of
    the call, provided the output array is another block: planning and
    execution only write the scratch block and the output block. *)
Theorem batched_complex_keep_input `{Lib : FFTW} n m d (res : ptr)
    inverse opt h mem (ld : list cell) :
  0 < opt -> res <> Ptr d -> h !! d = Some ld ->
  heap (snd (run (cmvfft_c2r n m (Ptr d) res opt) h mem)) !! d = Some ld /\
  heap (snd (run (cmvfft_c2c n m (Ptr d) res inverse opt) h mem)) !! d
  = Some ld.
Proof.
  intros Hopt Hres Hd. split.
  - by apply (cmvfft_c2r_frame d n m (Ptr d) res opt Hres (or_intror Hopt)
                (MkState h mem []) ld).
  - by apply (cmvfft_c2c_frame d n m (Ptr d) res inverse opt Hres
                (or_intror Hopt) (MkState h mem []) ld).
Qed.

Lemma batched_complex_keep_input_witness :
  fst (run (cmvfft_c2c (Lib := copy_fftw) 1 2 (Ptr 1%positive)
              (Ptr 2%positive) 0 1) demo_heap 100) = Ok tt /\
  heap (snd (run (cmvfft_c2r (Lib := copy_fftw) 1 2 (Ptr 1%positive)
                    (Ptr 2%positive) 1) demo_heap 100)) !! 1%positive
  = Some [Some 1%float; Some 0%float; Some 2%float; Some 0%float] /\
  heap (snd (run (cmvfft_c2c (Lib := copy_fftw) 1 2 (Ptr 1%positive)
                    (Ptr 2%positive) 0 1) demo_heap 100)) !! 1%positive
  = Some [Some 1%float; Some 0%float; Some 2%float; Some 0%float].
Proof.
  split; [vm_compute; reflexivity|].
  apply (batched_complex_keep_input (Lib := copy_fftw) 1 2 1%positive
           (Ptr 2%positive) 0 1 demo_heap 100
           [Some 1%float; Some 0%float; Some 2%float; Some 0%float]);
    [lia | discriminate | reflexivity].
Defined.

(** X9: no entry point writes a block of the caller's heap other than
    the two arrays it is given: with any arguments and whatever the
    outcome, a live block that is neither the input nor the output array
    has the same content after the call (the scratch block is always a
    new one). *)
Theorem entry_points_touch_only_their_arrays `{Lib : FFTW}
    b (l : list cell) n m nx ny nz rk dims (data res : ptr)
    herm inverse opt h mem :
  h !! b = Some l -> data <> Ptr b -> res <> Ptr b ->
  heap (snd (run (cfft_r2c n data res herm opt) h mem)) !! b = Some l /\
  heap (snd (run (cfft_c2r n data res) h mem)) !! b = Some l /\
  heap (snd (run (cfft_c2c n data res inverse) h mem)) !! b = Some l /\
  heap (snd (run (cmvfft_r2c n m data res opt) h mem)) !! b = Some l /\
  heap (snd (run (cmvfft_c2r n m data res opt) h mem)) !! b = Some l /\
  heap (snd (run (cmvfft_c2c n m data res inverse opt) h mem)) !! b
  = Some l /\
  heap (snd (run (cfft_r2c_2d nx ny data res) h mem)) !! b = Some l /\
  heap (snd (run (cfft_c2c_2d nx ny data res inverse) h mem)) !! b
  = Some l /\
  heap (snd (run (cfft_r2c_3d nx ny nz data res) h mem)) !! b = Some l /\
  heap (snd (run (cfft_c2c_3d nx ny nz data res inverse) h mem)) !! b
  = Some l /\
  heap (snd (run (cfft_c2c_xd rk dims data res inverse) h mem)) !! b
  = Some l.
Proof.
  intros Hb Hdata Hres.
  assert (Hone : forall p, pl_in p = data -> pl_out p = res ->
            heap (snd ((let* p' := make_plan p in
                        fftw_execute p';; fftw_destroy_plan p')
                         (MkState h mem []))) !! b = Some l).
  { intros p Hi Ho.
    apply (keeps_one_plan b p ltac:(by rewrite Hi) ltac:(by rewrite Ho)
             (MkState h mem []) l Hb). }
  repeat split; try (by apply Hone).
  - by apply (cfft_r2c_frame b n data res herm opt Hres (or_introl Hdata)
                (MkState h mem []) l).
  - by apply (cmvfft_r2c_frame b n m data res opt Hres (or_introl Hdata)
                (MkState h mem []) l).
  - by apply (cmvfft_c2r_frame b n m data res opt Hres (or_introl Hdata)
                (MkState h mem []) l).
  - by apply (cmvfft_c2c_frame b n m data res inverse opt Hres
                (or_introl Hdata) (MkState h mem []) l).
Qed.

Lemma entry_points_touch_only_their_arrays_witness :
  heap (snd (run (cfft_c2c (Lib := copy_fftw) 2 (Ptr 1%positive)
                    (Ptr 5%positive) 0) demo_heap 100)) !! 2%positive
  = Some (replicate 8 None) /\
  heap (snd (run (cmvfft_c2c (Lib := copy_fftw) 1 2 (Ptr 1%positive)
                    (Ptr 1%positive) 0 0) demo_heap 100)) !! 2%positive
  = Some (replicate 8 None).
Proof.
  pose proof (entry_points_touch_only_their_arrays (Lib := copy_fftw)
                2%positive (replicate 8 None) 2 1 1 1 1 1 []
                (Ptr 1%positive) (Ptr 5%positive) 0 0 0 demo_heap 100
                ltac:(reflexivity) ltac:(discriminate) ltac:(discriminate))
    as (_ & _ & H1 & _).
  pose proof (entry_points_touch_only_their_arrays (Lib := copy_fftw)
                2%positive (replicate 8 None) 1 2 1 1 1 1 []
                (Ptr 1%positive) (Ptr 1%positive) 0 0 0 demo_heap 100
                ltac:(reflexivity) ltac:(discriminate) ltac:(discriminate))
    as (_ & _ & _ & _ & _ & H2 & _).
  split; [exact H1|exact H2].
Defined.

(** ** The one-plan entry points *)

Lemma snapshot_overwrite h p (new : list cell) :
  is_Some (overwrite h p new) <-> is_Some (snapshot h p (length new)).
Proof.
  unfold overwrite, snapshot. destruct p as [|b]; [done|].
  destruct (h !! b) as [l|]; [|done]. by destruct (_ <=? _)%nat.
Qed.

Lemma snapshot_Some_inv h p k (i : list cell) :
  snapshot h p k = Some i ->
  exists b l, p = Ptr b /\ h !! b = Some l /\ (k <= length l)%nat.
Proof.
  unfold snapshot. destruct p as [|b]; [done|].
  destruct (h !! b) as [l|] eqn:E; [|done].
  destruct (Nat.leb_spec k (length l)); [|done]. intros _. by exists b, l.
Qed.

Lemma snapshot_insert_same_length h b (l l' : list cell) p k :
  h !! b = Some l -> length l' = length l ->
  is_Some (snapshot (<[b := l']> h) p k) <-> is_Some (snapshot h p k).
Proof.
  intros Hb Hl. unfold snapshot. destruct p as [|b']; [done|].
  destruct (decide (b = b')) as [<-|Hne].
  - rewrite lookup_insert_eq, Hb, Hl.
    destruct (_ <=? _)%nat; [|done]. split; intros _; by eexists.
  - by rewrite lookup_insert_ne.
Qed.

Lemma execute_outcome `{Lib : FFTW} p h a t :
  exists o h',
    fftw_execute p (MkState h a t)
    = (o, MkState h' a
            (t ++ [EvExecute p (snapshot h (pl_in p) (in_cells p))])) /\
    (o = Ok tt <->
     is_Some (snapshot h (pl_in p) (in_cells p)) /\
     is_Some (snapshot h (pl_out p) (out_cells p))).
Proof.
  unfold fftw_execute. cbn [heap]. rewrite bind_log.
  unfold bind at 1, read_cells at 1. cbn [heap].
  destruct (snapshot h (pl_in p) (in_cells p)) as [i|] eqn:Ein; cycle 1.
  { eexists _, _. split; [reflexivity|]. split; [done|].
    intros [[x [=]] _]. }
  destruct (snapshot_Some_inv _ _ _ _ Ein) as (bi & li & Hi & Hbi & Ki).
  unfold bind at 1. rewrite Hi.
  rewrite (write_cells_ok _ _ _ _ li) by (by rewrite ?length_tabulate).
  rewrite length_tabulate.
  set (h1 := <[bi := _]> h).
  assert (Hsame : is_Some (overwrite h1 (pl_out p)
                             (tabulate (out_cells p)
                                (fun k => Some (fftw_kernel p i k))))
                  <-> is_Some (snapshot h (pl_out p) (out_cells p))).
  { rewrite snapshot_overwrite, length_tabulate.
    apply (snapshot_insert_same_length h bi li); [done|].
    rewrite length_app, length_tabulate, length_drop. lia. }
  unfold write_cells. cbn [heap avail trace].
  destruct (overwrite h1 (pl_out p) _) as [h2|].
  - eexists _, _. split; [reflexivity|]. split; [|done].
    intros _. split; [by eexists|]. apply Hsame. by eexists.
  - eexists _, _. split; [reflexivity|]. split; [done|].
    intros [_ Ho]. apply Hsame in Ho. by destruct Ho.
Qed.

Lemma one_plan_shape `{Lib : FFTW} p h mem :
  planner_overwrites (pl_flags p) = false ->
  one_plan_run (let* p' := make_plan p in
                fftw_execute p';; fftw_destroy_plan p') p h mem.
Proof.
  intros Hfl. unfold one_plan_run, run.
  rewrite (bind_eq _ _ _ _ _ (make_plan_estimate p h mem [] Hfl)).
  destruct (execute_outcome p h mem
              ([] ++ [EvPlan p (snapshot h (pl_in p) (in_cells p))]))
    as (o & h' & Hexec & Hiff).
  rewrite (bind_eq _ _ _ _ _ Hexec).
  exists o, h'. split; [|exact Hiff].
  destruct o as [[]|]; reflexivity.
Qed.

(** X10: on a geometry FFTW plans (every extent at least one, and for
    [cfft_c2c_xd] a rank of at least one with that many extents given),
    each of the seven entry points without an effort argument makes one
    plan with the flags [FFTW_DESTROY_INPUT | FFTW_ESTIMATE] on the
    caller's two arrays, runs it once on the input as the caller left it,
    and destroys it if the run returned; the run returns exactly when
    both arrays are allocated and long enough for the plan. None of them
    allocates, copies or frees. *)
Theorem one_plan_entry_points `{Lib : FFTW} n nx ny nz rk dims
    (data res : ptr) inverse h mem :
  1 <= n -> 1 <= nx -> 1 <= ny -> 1 <= nz ->
  1 <= rk <= Z.of_nat (length dims) ->
  Forall (fun k => 1 <= k) (take (Z.to_nat rk) dims) ->
  let flags := Z.lor FFTW_DESTROY_INPUT FFTW_ESTIMATE in
  let sign := if inverse =? 1 then FFTW_BACKWARD else FFTW_FORWARD in
  one_plan_run (cfft_c2r n data res)
    (MkPlan C2R [n] 1 data 0 res 0 flags) h mem /\
  one_plan_run (cfft_c2c n data res inverse)
    (MkPlan (C2C sign) [n] 1 data 0 res 0 flags) h mem /\
  one_plan_run (cfft_r2c_2d nx ny data res)
    (MkPlan R2C [nx; ny] 1 data 0 res 0 flags) h mem /\
  one_plan_run (cfft_c2c_2d nx ny data res inverse)
    (MkPlan (C2C sign) [nx; ny] 1 data 0 res 0 flags) h mem /\
  one_plan_run (cfft_r2c_3d nx ny nz data res)
    (MkPlan R2C [nx; ny; nz] 1 data 0 res 0 flags) h mem /\
  one_plan_run (cfft_c2c_3d nx ny nz data res inverse)
    (MkPlan (C2C sign) [nx; ny; nz] 1 data 0 res 0 flags) h mem /\
  one_plan_run (cfft_c2c_xd rk dims data res inverse)
    (MkPlan (C2C sign) (take (Z.to_nat rk) dims) 1 data 0 res 0 flags) h mem.
Proof.
  intros _ _ _ _ _ _ flags sign. repeat split; by apply one_plan_shape.
Qed.

Lemma one_plan_entry_points_witness :
  one_plan_run
    (cfft_c2c (Lib := copy_fftw) 2 (Ptr 1%positive) (Ptr 2%positive) 1)
    (MkPlan (C2C FFTW_BACKWARD) [2] 1 (Ptr 1%positive) 0 (Ptr 2%positive) 0
            (Z.lor FFTW_DESTROY_INPUT FFTW_ESTIMATE))
    demo_heap 100 /\
  fst (run (cfft_c2c (Lib := copy_fftw) 2 (Ptr 1%positive) (Ptr 2%positive) 1)
         demo_heap 100) = Ok tt.
Proof.
  split; [|vm_compute; reflexivity].
  destruct (one_plan_entry_points (Lib := copy_fftw) 2 1 1 1 1 [1]
              (Ptr 1%positive) (Ptr 2%positive) 1 demo_heap 100)
    as (_ & H & _);
    [lia | lia | lia | lia | simpl; lia | simpl; repeat constructor; lia
    | exact H].
Defined.

(** X11: the conjugate fill is idempotent: on an output array of [n]
    complex elements, running the loop of [cfft_r2c] a second time leaves
    the array as the first run left it. *)
Theorem herm_loop_idempotent n b h a t (buf : list cell) :
  1 <= n -> h !! b = Some buf -> 2 * n <= Z.of_nat (length buf) ->
  let nc := Z.quot n 2 + 1 in
  (herm_loop (Z.to_nat (n - nc)) n (Ptr b) nc;;
   herm_loop (Z.to_nat (n - nc)) n (Ptr b) nc) (MkState h a t)
  = herm_loop (Z.to_nat (n - nc)) n (Ptr b) nc (MkState h a t).
Proof.
  intros Hn Hb Hlen nc. unfold nc. rewrite herm_loop_indices.
  pose proof (half_bounds n Hn) as Hh.
  assert (Hidx : Forall (fun i => Z.quot n 2 + 1 <= i < n) (herm_indices n))
    by (apply Forall_forall; intros j Hj; by apply elem_of_herm_indices).
  assert (Hpos : Forall (fun i => 0 < i < n) (herm_indices n))
    by (eapply Forall_impl; [exact Hidx|]; intros i Hi; cbv beta in Hi; lia).
  pose proof (herm_fold_ok n b (herm_indices n) h a t buf Hpos Hb Hlen)
    as Hrun.
  rewrite (bind_eq _ _ _ _ _ Hrun), Hrun.
  destruct (herm_fill_pointwise n buf (herm_indices n) buf Hn Hlen Hidx
              (keeps_half_refl _ _)) as ((Hl & _) & _ & _).
  rewrite (herm_fold_ok n b (herm_indices n) _ a t
             (foldl (herm_step n) buf (herm_indices n)) Hpos
             ltac:(apply lookup_insert_eq) ltac:(rewrite Hl; exact Hlen)).
  rewrite insert_insert_eq. do 3 f_equal.
  rewrite <- foldl_app. symmetry.
  apply herm_fill_order; [done|done|done|].
  intros i. rewrite elem_of_app. tauto.
Qed.

Lemma herm_loop_idempotent_witness :
  (herm_loop 2 5 (Ptr 2%positive) 3;; herm_loop 2 5 (Ptr 2%positive) 3)
    (MkState {[ 2%positive := replicate 10 (Some one) ]} 0 [])
  = herm_loop 2 5 (Ptr 2%positive) 3
      (MkState {[ 2%positive := replicate 10 (Some one) ]} 0 []).
Proof.
  apply (herm_loop_idempotent 5 2%positive
           {[ 2%positive := replicate 10 (Some one) ]} 0 []
           (replicate 10 (Some one)));
    [lia | reflexivity | vm_compute; discriminate].
Defined.

(** X12: with an effort code [<= 0], a signal length of at least one
    and a batch of at least one signal, the entry points that take an
    effort code behave like the others: the three batched ones, and
    [cfft_r2c] when the reconstruction flag is not 1, make their one plan
    on the caller's own arrays with [FFTW_DESTROY_INPUT | FFTW_ESTIMATE],
    run it on the input as the caller left it and destroy it when the run
    returned; they return exactly when both arrays are long enough, and
    neither allocate, copy nor free. *)
Theorem fastest_guess_runs_on_caller_arrays `{Lib : FFTW} n m
    (data res : ptr) herm inverse opt h mem :
  opt <= 0 -> herm <> 1 -> 1 <= n -> 1 <= m ->
  one_plan_run (cfft_r2c n data res herm opt)
    (r2c_plan n data res opt) h mem /\
  one_plan_run (cmvfft_r2c n m data res opt)
    (mv_r2c_plan n m data res opt) h mem /\
  one_plan_run (cmvfft_c2r n m data res opt)
    (mv_c2r_plan n m data res opt) h mem /\
  one_plan_run (cmvfft_c2c n m data res inverse opt)
    (mv_c2c_plan n m data res inverse opt) h mem.
Proof.
  intros Hopt Hherm _ _.
  assert (Hshape : forall p (mid : M unit),
            pl_flags p = Z.lor FFTW_DESTROY_INPUT (fftw_efforts opt) ->
            (forall st, mid st = (Ok tt, st)) ->
            one_plan_run
              (bind (let* p' := make_plan p in ret (p', NULL))
                 (fun pd =>
                    fftw_execute (fst pd);; mid;;
                    fftw_destroy_plan (fst pd);;
                    if is_null (snd pd) then ret tt else free (snd pd)))
              p h mem).
  { intros p mid Hf Hmid. unfold one_plan_run, run.
    assert (Hfl : planner_overwrites (pl_flags p) = false)
      by (by rewrite Hf, (efforts_estimate opt Hopt)).
    rewrite bind_assoc.
    rewrite (bind_eq _ _ _ _ _ (make_plan_estimate p h mem [] Hfl)), bind_ret.
    cbn [fst snd is_null].
    destruct (execute_outcome p h mem
                ([] ++ [EvPlan p (snapshot h (pl_in p) (in_cells p))]))
      as (o & h' & Hexec & Hiff).
    rewrite (bind_eq _ _ _ _ _ Hexec).
    exists o, h'. split; [|exact Hiff].
    destruct o as [[]|]; [|reflexivity].
    rewrite (bind_eq _ _ _ _ _ (Hmid _)). reflexivity. }
  pose proof (efforts_estimate opt Hopt) as He.
  split; [|split; [|split]].
  - unfold cfft_r2c, fftw_plan_dft_r2c_1d. rewrite He at 1. rewrite Z.eqb_refl.
    destruct (Z.eqb_spec herm 1) as [|_]; [done|].
    by apply (Hshape (r2c_plan n data res opt) (ret tt)).
  - unfold cmvfft_r2c, fftw_plan_many_dft_r2c.
    rewrite He at 1. rewrite Z.eqb_refl.
    by apply (Hshape (mv_r2c_plan n m data res opt) (ret tt)).
  - unfold cmvfft_c2r, fftw_plan_many_dft_c2r.
    rewrite He at 1. rewrite Z.eqb_refl.
    by apply (Hshape (mv_c2r_plan n m data res opt) (ret tt)).
  - unfold cmvfft_c2c, fftw_plan_many_dft.
    rewrite He at 1. rewrite Z.eqb_refl.
    by apply (Hshape (mv_c2c_plan n m data res inverse opt) (ret tt)).
Qed.

Lemma fastest_guess_runs_on_caller_arrays_witness :
  one_plan_run
    (cmvfft_c2c (Lib := copy_fftw) 1 2 (Ptr 1%positive) (Ptr 2%positive) 0 0)
    (mv_c2c_plan 1 2 (Ptr 1%positive) (Ptr 2%positive) 0 0) demo_heap 100 /\
  fst (run (cmvfft_c2c (Lib := copy_fftw) 1 2 (Ptr 1%positive)
              (Ptr 2%positive) 0 0) demo_heap 100) = Ok tt.
Proof.
  split; [|vm_compute; reflexivity].
  apply (fastest_guess_runs_on_caller_arrays (Lib := copy_fftw) 1 2
           (Ptr 1%positive) (Ptr 2%positive) 0 0 0 demo_heap 100);
    [lia | discriminate | lia | lia].
Defined.

Lemma store_out_of_bounds h a t b (l : list cell) i c :
  h !! b = Some l -> Z.of_nat (length l) <= i ->
  store (Ptr b) i c (MkState h a t) = (Fault, MkState h a t).
Proof.
  intros Hb Hi. unfold store. cbn [heap]. rewrite Hb.
  destruct (Z.ltb_spec i 0); [done|].
  by destruct (Z.leb_spec (Z.of_nat (length l)) i); [|lia].
Qed.

(** X13: the reconstruction flag needs an output array of [n] complex
    elements. On an output array of exactly the [n/2+1] elements the
    transform itself writes, with [n >= 3], [cfft_r2c] with the flag set
    plans and runs the transform and then faults in the first round of
    the fill, which stores to element [n/2+1]; the plan is not destroyed. *)
Theorem herm_fill_needs_full_output `{Lib : FFTW} n d r opt h mem
    (ld lr : list cell) :
  opt <= 0 -> 3 <= n ->
  h !! d = Some ld -> n <= Z.of_nat (length ld) ->
  h !! r = Some lr -> Z.of_nat (length lr) = 2 * (Z.quot n 2 + 1) ->
  d <> r ->
  let p := r2c_plan n (Ptr d) (Ptr r) opt in
  let seen := take (Z.to_nat n) ld in
  exists st',
    run (cfft_r2c n (Ptr d) (Ptr r) 1 opt) h mem = (Fault, st') /\
    trace st' = [EvPlan p (Some seen); EvExecute p (Some seen)] /\
    fst (run (cfft_r2c n (Ptr d) (Ptr r) 0 opt) h mem) = Ok tt.
Proof.
  intros Hopt Hn Hd Kd Hr Kr Hdr p seen.
  pose proof (half_bounds n ltac:(lia)) as Hh.
  assert (Hic : in_cells p = Z.to_nat n)
    by (unfold p, r2c_plan; rewrite in_cells_real by lia; f_equal; lia).
  assert (Hoc : out_cells p = Z.to_nat (2 * (Z.quot n 2 + 1)))
    by (unfold p, r2c_plan; rewrite out_cells_half by lia; f_equal; lia).
  assert (Hfl : planner_overwrites (pl_flags p) = false)
    by (unfold p, r2c_plan; cbn [pl_flags];
        by rewrite (efforts_estimate opt Hopt)).
  destruct (estimate_steps p h mem d r ld lr Hfl eq_refl eq_refl Hd
              ltac:(lia) Hr ltac:(lia))
    as (h' & Hplan & Hexec & _ & _ & lr' & Hlen & _ & Hout).
  rewrite Hic in Hplan, Hexec. fold seen in Hplan, Hexec.
  set (out := tabulate _ _ ++ drop _ lr') in Hout.
  assert (Hlo : Z.of_nat (length out) = 2 * (Z.quot n 2 + 1)).
  { unfold out. rewrite length_app, length_tabulate, length_drop, Hoc. lia. }
  assert (Hk : Z.to_nat (n - (Z.quot n 2 + 1))
               = S (Z.to_nat (n - (Z.quot n 2 + 1) - 1))) by lia.
  assert (Hprefix : forall herm,
            run (cfft_r2c n (Ptr d) (Ptr r) herm opt) h mem
            = ((if herm =? 1
                then herm_loop (Z.to_nat (n - (Z.quot n 2 + 1))) n (Ptr r)
                       (Z.quot n 2 + 1)
                else ret tt);;
               fftw_destroy_plan p;; ret tt)
                (MkState h' mem [EvPlan p (Some seen); EvExecute p (Some seen)])).
  { intros herm. unfold run, cfft_r2c, fftw_plan_dft_r2c_1d.
    fold (r2c_plan n (Ptr d) (Ptr r) opt). fold p.
    rewrite (efforts_estimate opt Hopt), Z.eqb_refl.
    rewrite bind_assoc, (bind_eq _ _ _ _ _ Hplan), bind_ret.
    cbn [fst snd is_null]. by rewrite (bind_eq _ _ _ _ _ Hexec). }
  eexists. split; [|split].
  - rewrite (Hprefix 1). rewrite Z.eqb_refl, Hk. cbn [herm_loop].
    unfold herm_body. rewrite !bind_assoc.
    assert (Hre : out !! Z.to_nat (2 * (n - (Z.quot n 2 + 1)))
                  = Some (default None
                            (out !! Z.to_nat (2 * (n - (Z.quot n 2 + 1))))))
      by (apply lookup_default; lia).
    assert (Hs1 : 0 <= 2 * (n - (Z.quot n 2 + 1))) by lia.
    rewrite (bind_eq _ _ _ _ _ (load_ok _ _ _ _ _ _ _ Hout Hs1 Hre)).
    rewrite !bind_assoc.
    assert (Hoob : Z.of_nat (length out) <= 2 * (Z.quot n 2 + 1)) by lia.
    rewrite (bind_eq _ _ _ _ _
               (store_out_of_bounds _ _ _ _ _ _ _ Hout Hoob)).
    reflexivity.
  - reflexivity.
  - rewrite (Hprefix 0). reflexivity.
Qed.

Lemma herm_fill_needs_full_output_witness :
  exists st',
    run (cfft_r2c (Lib := copy_fftw) 4 (Ptr 1%positive) (Ptr 2%positive) 1 0)
        (<[2%positive := replicate 6 None]> demo_heap) 0 = (Fault, st') /\
    trace st'
    = [EvPlan (r2c_plan 4 (Ptr 1%positive) (Ptr 2%positive) 0)
         (Some [Some 1%float; Some 0%float; Some 2%float; Some 0%float]);
       EvExecute (r2c_plan 4 (Ptr 1%positive) (Ptr 2%positive) 0)
         (Some [Some 1%float; Some 0%float; Some 2%float; Some 0%float])].
Proof.
  destruct (herm_fill_needs_full_output (Lib := copy_fftw) 4 1%positive
              2%positive 0 (<[2%positive := replicate 6 None]> demo_heap) 0
              [Some 1%float; Some 0%float; Some 2%float; Some 0%float]
              (replicate 6 None))
    as (st' & Hrun & Htr & _);
    [lia | lia | reflexivity | vm_compute; discriminate | reflexivity
    | vm_compute; reflexivity | discriminate |].
  exists st'. split; [exact Hrun|exact Htr].
Defined.
